(** * hypepsych: the trading journal, its tag selections and usage counters

    A shallow embedding of [src/emotional_analysis.py], [src/journal.py] and
    the handlers of [src/app.py] for the wallet, the fetch and the manual
    trade form, followed by the properties of the specification that
    concern them.

    Conventions.
    - A Python [str] is a [string]; each character stands for one code point
      below 256.
    - A value read from a JSON file, or stored in a trade dictionary, is a
      [json]; a Python [dict] with string keys is an association list in
      insertion order.
    - A call that can raise returns an [outcome]; code that also changes
      [st.session_state] returns the new state next to the outcome, so that
      the state reached before an exception is visible.
    - Library calls whose result the program only passes on ([json.load],
      [json.dump], [float], [sorted], the iteration order of a [set], the
      widgets of the display layer) are variables of the section that uses
      them. *)

From Stdlib Require Import Floats.PrimFloat Numbers.Cyclic.Int63.Uint63.
From Stdlib Require Import Strings.Ascii Strings.String.
From stdpp Require Import gmap strings list fin_maps sorting.

Set Warnings "-register-all".
Local Open Scope string_scope.
Local Open Scope Z_scope.

(** ** Python values and exceptions *)

Inductive exn :=
  | NameError (name : string)
  | ValueError (msg : string)
  | TypeError
  | KeyError (key : string)
  | AttributeError (attr : string)
  | JSONDecodeError
  | FileNotFoundError
  | OSError
  | StreamlitAPIException.

Inductive outcome (A : Type) :=
  | Return (a : A)
  | Raise (e : exn).
Arguments Return {A} a.
Arguments Raise {A} e.

#[global] Instance outcome_ret : MRet outcome := fun A a => Return a.
#[global] Instance outcome_bind : MBind outcome := fun A B k m =>
  match m with
  | Return a => k a
  | Raise e => Raise e
  end.

Inductive json :=
  | JNull
  | JBool (b : bool)
  | JInt (n : Z)
  | JFloat (f : float)
  | JStr (s : string)
  | JList (l : list json)
  | JDict (kvs : list (string * json)).

(** [d.get(k)]. A dictionary lists each key once; on a list that repeats
    a key the first binding is read. *)
Fixpoint dict_get (k : string) (kvs : list (string * json)) : option json :=
  match kvs with
  | [] => None
  | (k', v) :: rest => if decide (k' = k) then Some v else dict_get k rest
  end.

(** [k in d] *)
Definition dict_mem (k : string) (kvs : list (string * json)) : bool :=
  bool_decide (is_Some (dict_get k kvs)).

(** [d[k] = v]: overwrite in place when the key exists, else append. *)
Fixpoint dict_set (k : string) (v : json) (kvs : list (string * json))
  : list (string * json) :=
  match kvs with
  | [] => [(k, v)]
  | (k', v') :: rest =>
      if decide (k' = k) then (k', v) :: rest
      else (k', v') :: dict_set k v rest
  end.

(** Truth value of a Python object, as [if x:] computes it. *)
Definition truthy (v : json) : bool :=
  match v with
  | JNull => false
  | JBool b => b
  | JInt n => negb (n =? 0)
  | JFloat f => negb (PrimFloat.eqb f 0%float)
  | JStr s => negb (String.eqb s "")
  | JList l => match l with [] => false | _ => true end
  | JDict kvs => match kvs with [] => false | _ => true end
  end.

(** Comparison of a stored count with one of the integer literals of the
    source (0, 2 and 5, which a float holds exactly). [==] never raises;
    the order comparisons raise [TypeError] on [None], strings, lists and
    dictionaries. A [bool] counts as the integer 0 or 1. *)
Definition float_of_small (n : Z) : float :=
  PrimFloat.of_uint63 (Uint63.of_Z n).

Definition py_eq_int (v : json) (n : Z) : bool :=
  match v with
  | JInt m => m =? n
  | JBool b => (if b then 1 else 0) =? n
  | JFloat f => PrimFloat.eqb f (float_of_small n)
  | _ => false
  end.

Definition py_le_int (v : json) (n : Z) : outcome bool :=
  match v with
  | JInt m => Return (m <=? n)
  | JBool b => Return ((if b then 1 else 0) <=? n)
  | JFloat f => Return (PrimFloat.leb f (float_of_small n))
  | _ => Raise TypeError
  end.

Definition py_gt_int (v : json) (n : Z) : outcome bool :=
  match v with
  | JInt m => Return (n <? m)
  | JBool b => Return (n <? (if b then 1 else 0))
  | JFloat f => Return (PrimFloat.ltb (float_of_small n) f)
  | _ => Raise TypeError
  end.

(** [v + 1] *)
Definition py_add_one (v : json) : outcome json :=
  match v with
  | JInt m => Return (JInt (m + 1))
  | JBool b => Return (JInt ((if b then 1 else 0) + 1))
  | JFloat f => Return (JFloat (PrimFloat.add f 1%float))
  | _ => Raise TypeError
  end.

(** ** Strings: [str.split(', ')], [str.strip()], [', '.join(...)] *)

(** The white space that [str.strip()] removes, among the code points
    below 256. *)
Definition is_space (c : ascii) : bool :=
  let n := nat_of_ascii c in
  ((9 <=? n) && (n <=? 13) || (28 <=? n) && (n <=? 32)
   || (n =? 133) || (n =? 160))%nat.

Fixpoint lstrip (s : string) : string :=
  match s with
  | String c rest => if is_space c then lstrip rest else s
  | EmptyString => EmptyString
  end.

Definition strip (s : string) : string :=
  String.rev (lstrip (String.rev (lstrip s))).

(** [s.split(', ')]: a left-to-right scan for the separator; [acc] holds the
    characters of the current piece, last first. *)
Fixpoint split_go (acc : string) (s : string) : list string :=
  match s with
  | EmptyString => [String.rev acc]
  | String c rest =>
      match rest with
      | String c' rest' =>
          if (Ascii.eqb c "," && Ascii.eqb c' " ")%bool
          then String.rev acc :: split_go EmptyString rest'
          else split_go (String c acc) rest
      | EmptyString => split_go (String c acc) rest
      end
  end.

Definition split_comma_space (s : string) : list string :=
  split_go EmptyString s.

(** [', '.join(l)] *)
Fixpoint join_comma_space (l : list string) : string :=
  match l with
  | [] => ""
  | [x] => x
  | x :: rest => x ++ ", " ++ join_comma_space rest
  end.

(** ** emotional_analysis.py *)

Definition EMOTIONAL_STATES : list string :=
  ["Fear"; "Greed"; "FOMO (Fear of Missing Out)"; "Panic"; "Overconfidence";
   "Anxiety"; "Euphoria"; "Doubt"; "Frustration"; "Hope"].

Definition TRIGGERS : list string :=
  ["Market volatility"; "Price surges"; "Price crashes"; "Positive news/hype";
   "Negative news/FUD"; "Social media buzz"; "Seeing others' profits";
   "Recent losses"; "Winning streaks"; "Herd mentality"].

Definition PSYCHOLOGICAL_MISTAKES : list string :=
  ["FOMO buying"; "Panic selling"; "Revenge trading"; "Overconfidence bias";
   "Herd mentality"; "Overtrading"; "Ignoring risk management";
   "Chasing losses"; "Not doing proper research"; "Overleveraging"].

Definition CORRECTIVE_ACTIONS : list string :=
  ["Develop a clear trading plan"; "Implement risk management strategies";
   "Conduct thorough research"; "Keep a trading journal";
   "Stick to your strategy"; "Diversify your portfolio";
   "Set realistic goals"; "Use position sizing"; "Take regular breaks";
   "Continuously educate yourself"].

(** The counters: category, then tag value, then the stored count. A
    [defaultdict(int)] is a map read with default 0. *)
Abbreviation counters := (gmap string (gmap string json)).

(** The part of [st.session_state] that the component uses:
    - [selected]: the sets stored under the keys [<key_prefix>_selected];
    - [emotional_usage_stats]: absent until [initialize_usage_stats] ran;
    - [widget_state]: the values held under widget keys, which the widgets
      own; the one assignment the script makes to such a key (line 219) is
      refused by Streamlit.
    The three kinds of key are kept apart: no key of one kind is spelled like
    a key of another. *)
Record session := {
  selected : gmap string (gset string);
  emotional_usage_stats : option counters;
  widget_state : gmap string string
}.

Definition set_selected (f : gmap string (gset string) → gmap string (gset string))
    (s : session) : session :=
  {| selected := f (selected s);
     emotional_usage_stats := emotional_usage_stats s;
     widget_state := widget_state s |}.

Definition set_usage_stats (u : option counters) (s : session) : session :=
  {| selected := selected s;
     emotional_usage_stats := u;
     widget_state := widget_state s |}.

(** What one widget call gives during this run of the script.
    [st.button(..., key=k)] returns whether the button was pressed, or
    raises: inside [with st.form(...)] Streamlit refuses every [st.button]
    with [StreamlitAPIException]. *)
Record ui := {
  button : string → outcome bool;  (* [st.button(..., key=k)] *)
  text_input : string → string     (* [st.text_input(..., key=k)] *)
}.

(** A run of the script either goes on with a value, or stops: [st.rerun()]
    ends the run, and so does an exception nobody catches. The session state
    written so far stays. *)
Inductive signal :=
  | Rerun
  | Exc (e : exn).

Inductive result (A : Type) :=
  | Val (a : A)
  | Stop (sg : signal).
Arguments Val {A} a.
Arguments Stop {A} sg.

Record script (A : Type) : Type :=
  Script { run : session → result A * session }.
Arguments Script {A} run.
Arguments run {A} _ _.

#[global] Instance script_ret : MRet script := fun A a =>
  Script (fun s => (Val a, s)).
#[global] Instance script_bind : MBind script := fun A B k m =>
  Script (fun s =>
    match run m s with
    | (Val a, s') => run (k a) s'
    | (Stop sg, s') => (Stop sg, s')
    end).

Definition get_session : script session := Script (fun s => (Val s, s)).
Definition modify_session (f : session → session) : script unit :=
  Script (fun s => (Val (), f s)).
Definition st_rerun {A} : script A := Script (fun s => (Stop Rerun, s)).
Definition raise {A} (e : exn) : script A :=
  Script (fun s => (Stop (Exc e), s)).
Definition lift {A} (o : outcome A) : script A :=
  match o with
  | Return a => mret a
  | Raise e => raise e
  end.

(** [st.session_state.emotional_usage_stats] *)
Definition read_usage_stats : script counters :=
  s ← get_session;
  match emotional_usage_stats s with
  | Some u => mret u
  | None => raise (AttributeError "emotional_usage_stats")
  end.

Definition empty_counters : counters :=
  {[ "emotional_states" := ∅; "triggers" := ∅; "mistakes" := ∅;
     "actions" := ∅ ]}.

Definition initialize_usage_stats : script unit :=
  modify_session (fun s =>
    match emotional_usage_stats s with
    | None => set_usage_stats (Some empty_counters) s
    | Some _ => s
    end).

(** [stats.get(category, {}).get(item, 0)] *)
Definition usage_count (stats : counters) (category item : string) : json :=
  default (JInt 0) (default ∅ (stats !! category) !! item).

(** One pass of the loop of [update_usage_stats]:
    [stats[category][item] += 1] on a [defaultdict(int)]. *)
Definition increment (item : string) (c : gmap string json)
  : outcome (gmap string json) :=
  v ← py_add_one (default (JInt 0) (c !! item));
  mret (<[item := v]> c).

(** The loop keeps the increments made before an exception. *)
Fixpoint increment_all (items : list string) (c : gmap string json)
  : outcome unit * gmap string json :=
  match items with
  | [] => (Return (), c)
  | item :: rest =>
      match increment item c with
      | Return c' => increment_all rest c'
      | Raise e => (Raise e, c)
      end
  end.

Definition update_usage_stats (category : string) (selected_items : list string)
  : script unit :=
  stats ← read_usage_stats;
  match stats !! category with
  | Some c =>
      let '(o, c') := increment_all selected_items c in
      _ ← modify_session (set_usage_stats (Some (<[category := c']> stats)));
      lift o
  | None => mret ()
  end.

Definition get_bubble_size (stats : counters) (category item : string)
  : outcome string :=
  let usage_count := usage_count stats category item in
  if py_eq_int usage_count 0 then Return "bubble-small"
  else
    le2 ← py_le_int usage_count 2;
    if le2 : bool then Return "bubble-medium"
    else
      le5 ← py_le_int usage_count 5;
      if le5 : bool then Return "bubble-large"
      else Return "bubble-xlarge".

Section Form.

(** [list(selected_set)] for the set stored under [session_key], at the one
    place of this run where the script lists it. The order in which Python
    iterates over a set of strings depends on their hashes, which change
    from one process to the next, and on the history of the set; so the
    order belongs to the run and to the key, and another run may list the
    same values in another order. *)
Variable list_of_set : string → gset string → list string.

(** [sorted(stats.items(), key=lambda x: x[1], reverse=True)], which raises
    when two counts cannot be compared. *)
Variable sorted_items : gmap string json → outcome (list (string * json)).

Definition selected_set (session_key : string) : script (gset string) :=
  s ← get_session;
  mret (default ∅ (selected s !! session_key)).

(** The body of [if st.button(...)] in the grid: remove the option when it
    is selected, add it otherwise. *)
Definition toggle (session_key option : string) : script unit :=
  modify_session (set_selected (fun m =>
    let cur := default ∅ (m !! session_key) in
    <[session_key :=
        if decide (option ∈ cur) then cur ∖ {[option]}
        else cur ∪ {[option]}]> m)).

(** The grid of buttons. The rows of three are drawn one after the other,
    so the options are visited in the order of the list. *)
Fixpoint option_buttons (u : ui) (category key_prefix session_key : string)
    (options : list string) : script unit :=
  match options with
  | [] => mret ()
  | option :: rest =>
      stats ← read_usage_stats;
      _ ← lift (get_bubble_size stats category option);
      _ ← lift (py_gt_int (usage_count stats category option) 0);
      pressed ← lift (button u (key_prefix ++ "_" ++ option));
      if pressed : bool
      then (_ ← toggle session_key option; st_rerun)
      else option_buttons u category key_prefix session_key rest
  end.

(** In the [Add] branch the value is added on line 217; line 219 then
    assigns [st.session_state[f"custom_{key_prefix}"]], the key of the text
    box drawn on line 208 of the same run, which Streamlit refuses with
    [StreamlitAPIException]: the box is not emptied and [st.rerun()] on
    line 220 is not reached. *)
Definition create_interactive_bubble_selector (u : ui)
    (options : list string) (category key_prefix : string)
    (current_selections : list string) : script (list string) :=
  let session_key := key_prefix ++ "_selected" in
  _ ← modify_session (set_selected (fun m =>
        match m !! session_key with
        | None => <[session_key := list_to_set current_selections]> m
        | Some _ => m
        end));
  _ ← option_buttons u category key_prefix session_key options;
  cleared ← lift (button u ("clear_" ++ key_prefix));
  _ ← (if cleared : bool
       then (_ ← modify_session (set_selected <[session_key := ∅]>);
             st_rerun)
       else mret ());
  let custom_input := text_input u ("custom_" ++ key_prefix) in
  _ ← (if negb (String.eqb custom_input "")
       then
         (added ← lift (button u ("add_custom_" ++ key_prefix));
          if added : bool
          then (cur ← selected_set session_key;
                _ ← modify_session
                      (set_selected <[session_key := cur ∪ {[custom_input]}]>);
                raise StreamlitAPIException)
          else mret ())
       else mret ());
  cur ← selected_set session_key;
  mret (list_of_set session_key cur).

(** [d.get(field, '').split(', ') if d and d.get(field) else []] *)
Definition existing_selection (existing_data : option (list (string * json)))
    (field : string) : outcome (list string) :=
  match existing_data with
  | Some d =>
      if truthy (JDict d) then
        match dict_get field d with
        | Some v =>
            if truthy v then
              match v with
              | JStr s => Return (split_comma_space s)
              | _ => Raise (AttributeError "split")
              end
            else Return []
        | None => Return []
        end
      else Return []
  | None => Return []
  end.

(** [[x.strip() for x in l if x.strip()]] *)
Definition clean (l : list string) : list string :=
  filter (fun x => x ≠ "") (strip <$> l).

(** [f"{name}_{trade_id}" if trade_id else name] *)
Definition key_prefix_of (name : string) (trade_id : option string) : string :=
  match trade_id with
  | Some t => if String.eqb t "" then name else name ++ "_" ++ t
  | None => name
  end.

(** [if selected: update_usage_stats(category, selected)] *)
Definition record_if_any (category : string) (sel : list string)
  : script unit :=
  match sel with
  | [] => mret ()
  | _ => update_usage_stats category sel
  end.

(** One column entry of the statistics expander: a missing category is a
    [KeyError]; the counts are sorted only when there are some. *)
Definition show_top (category : string) : script unit :=
  stats ← read_usage_stats;
  match stats !! category with
  | None => raise (KeyError category)
  | Some c =>
      if (size c =? 0)%nat then mret ()
      else (_ ← lift (sorted_items c); mret ())
  end.

Definition create_emotional_analysis_form (u : ui)
    (trade_id : option string)
    (existing_data : option (list (string * json)))
  : script (list (string * json)) :=
  _ ← initialize_usage_stats;
  existing_emotions ← lift (existing_selection existing_data "emotional_state");
  existing_triggers ← lift (existing_selection existing_data "triggers");
  existing_mistakes ← lift (existing_selection existing_data "mistakes");
  existing_actions ← lift (existing_selection existing_data "corrective_action");
  selected_emotions ← create_interactive_bubble_selector u EMOTIONAL_STATES
      "emotional_states" (key_prefix_of "emotions" trade_id)
      (clean existing_emotions);
  selected_triggers ← create_interactive_bubble_selector u TRIGGERS
      "triggers" (key_prefix_of "triggers" trade_id)
      (clean existing_triggers);
  selected_mistakes ← create_interactive_bubble_selector u
      PSYCHOLOGICAL_MISTAKES
      "mistakes" (key_prefix_of "mistakes" trade_id)
      (clean existing_mistakes);
  selected_actions ← create_interactive_bubble_selector u CORRECTIVE_ACTIONS
      "actions" (key_prefix_of "actions" trade_id)
      (clean existing_actions);
  _ ← record_if_any "emotional_states" selected_emotions;
  _ ← record_if_any "triggers" selected_triggers;
  _ ← record_if_any "mistakes" selected_mistakes;
  _ ← record_if_any "actions" selected_actions;
  _ ← show_top "emotional_states";
  _ ← show_top "triggers";
  _ ← show_top "mistakes";
  _ ← show_top "actions";
  mret [("emotional_state", JStr (join_comma_space selected_emotions));
        ("triggers", JStr (join_comma_space selected_triggers));
        ("mistakes", JStr (join_comma_space selected_mistakes));
        ("corrective_action", JStr (join_comma_space selected_actions))].

End Form.

(** ** Files *)

(** The files the program reads and writes: the text of each existing file,
    and the paths that cannot be opened for writing. Opening an existing file
    for reading succeeds. *)
Record disk := {
  files : gmap string string;
  write_denied : gset string
}.

Definition set_files (f : gmap string string → gmap string string) (d : disk)
  : disk :=
  {| files := f (files d); write_denied := write_denied d |}.

Record io (A : Type) : Type := IO { exec : disk → outcome A * disk }.
Arguments IO {A} exec.
Arguments exec {A} _ _.

#[global] Instance io_ret : MRet io := fun A a => IO (fun d => (Return a, d)).
#[global] Instance io_bind : MBind io := fun A B k m =>
  IO (fun d =>
    match exec m d with
    | (Return a, d') => exec (k a) d'
    | (Raise e, d') => (Raise e, d')
    end).

Definition io_raise {A} (e : exn) : io A := IO (fun d => (Raise e, d)).

(** [try: m except ...: h]: [h e] is [None] when no clause matches [e]. An
    exception raised by the handler itself is not handled again. *)
Definition io_try {A} (m : io A) (h : exn → option (io A)) : io A :=
  IO (fun d =>
    match exec m d with
    | (Raise e, d') =>
        match h e with
        | Some k => exec k d'
        | None => (Raise e, d')
        end
    | r => r
    end).

(** [os.path.exists(path)] *)
Definition path_exists (path : string) : io bool :=
  IO (fun d => (Return (bool_decide (is_Some (files d !! path))), d)).

(** [open(path, 'r')] followed by reading the whole file *)
Definition read_file (path : string) : io string :=
  IO (fun d =>
    match files d !! path with
    | Some text => (Return text, d)
    | None => (Raise FileNotFoundError, d)
    end).

(** [open(path, 'w')] followed by writing [text] *)
Definition write_file (path text : string) : io unit :=
  IO (fun d =>
    if decide (path ∈ write_denied d) then (Raise OSError, d)
    else (Return (), set_files <[path := text]> d)).

(** [shutil.copy2(src, dst)] *)
Definition copy2 (src dst : string) : io unit :=
  text ← read_file src;
  write_file dst text.

(** The dictionary an association list stands for. *)
Definition dict_to_map (kvs : list (string * json)) : gmap string json :=
  list_to_map kvs.

(** [try: m except Exception: h] in the script; [st.rerun()] is not an
    [Exception] and passes through. *)
Definition try_except {A} (m : script A) (h : exn → script A) : script A :=
  Script (fun s =>
    match run m s with
    | (Stop (Exc e), s') => run (h e) s'
    | r => r
    end).

Section Stats.

(** [json.load]: [None] stands for [json.JSONDecodeError]. *)
Variable json_loads : string → option json.

(** [dict(l)] for a non-empty list [l] of key/value pairs, restricted to
    the keys that are strings. *)
Variable dict_of_pairs : list json → outcome (gmap string json).

(** [defaultdict(int, x)] *)
Definition defaultdict_int (x : json) : outcome (gmap string json) :=
  match x with
  | JDict kvs => Return (dict_to_map kvs)
  | JList [] => Return ∅
  | JList l => dict_of_pairs l
  | JStr "" => Return ∅
  | JStr _ => Raise (ValueError "dictionary update sequence element")
  | _ => Raise TypeError
  end.

(** [st.session_state.emotional_usage_stats[category] = ...] *)
Definition store_category (category : string) (category_stats : json)
  : script unit :=
  c ← lift (defaultdict_int category_stats);
  stats ← read_usage_stats;
  modify_session (set_usage_stats (Some (<[category := c]> stats))).

Fixpoint store_categories (items : list (string * json)) : script unit :=
  match items with
  | [] => mret ()
  | (category, category_stats) :: rest =>
      _ ← store_category category category_stats;
      store_categories rest
  end.

(** [stats.items()] *)
Definition items_of (stats : json) : outcome (list (string * json)) :=
  match stats with
  | JDict kvs => Return kvs
  | _ => Raise (AttributeError "items")
  end.

Definition load_emotional_stats (d : disk) : script bool :=
  try_except
    (_ ← match files d !! "emotional_stats.json" with
         | Some text =>
             stats ← lift (match json_loads text with
                           | Some j => Return j
                           | None => Raise JSONDecodeError
                           end);
             items ← lift (items_of stats);
             store_categories items
         | None => mret ()
         end;
     mret true)
    (fun _ => mret false).

End Stats.

(** ** journal.py *)

(** The names bound at the top level of [journal.py]: its five imports
    (lines 1 to 5) and its four functions. [save_journal_data] imports [os]
    and [shutil] inside its own body (lines 75 and 79), which binds them in
    that call only; the module itself has no [os]. *)
Definition journal_globals : list string :=
  ["json"; "Info"; "constants"; "hashlib"; "time"; "fetch_trade_data";
   "verify_wallet_ownership"; "save_journal_data"; "load_journal_data"].

(** Reading a name that the function does not assign: looked up among the
    names of the module. *)
Definition global_name (name : string) : io unit :=
  if bool_decide (name ∈ journal_globals) then mret ()
  else io_raise (NameError name).

Section Journal.

(** [json.load]: [None] stands for [json.JSONDecodeError]. *)
Variable json_loads : string → option json.

(** [json.dump(data, f, indent=..., sort_keys=...)]: the text written. *)
Variable json_dumps : nat → bool → json → string.

Definition json_load (path : string) : io json :=
  text ← read_file path;
  match json_loads text with
  | Some j => mret j
  | None => io_raise JSONDecodeError
  end.

Definition save_journal_data (filename : string) (data : json) : io bool :=
  io_try
    (ex ← path_exists filename;
     _ ← (if ex : bool
          then io_try (copy2 filename (filename ++ ".backup"))
                      (fun _ => Some (mret ()))
          else mret ());
     _ ← write_file filename (json_dumps 4 true data);
     mret true)
    (fun _ => Some (mret false)).

(** [[] if key != 'reflections' else {}] *)
Definition empty_default (key : string) : json :=
  if decide (key = "reflections") then JDict [] else JList [].

(** [if key not in data: data[key] = ...] *)
Definition backfill (key : string) (data : list (string * json))
  : list (string * json) :=
  if dict_mem key data then data
  else dict_set key (empty_default key) data.

Definition required_keys : list string :=
  ["trades"; "manual_trades"; "reflections"].

(** The result is [None] where the function returns Python's [None]. The
    text of the source ends inside the [FileNotFoundError] clause, whose
    body is the expression [print]: that clause falls off the end of the
    function, which returns [None]. *)
Definition load_journal_data (filename : string) : io (option json) :=
  io_try
    (data ← json_load filename;
     match data with
     | JDict kvs =>
         mret (Some (JDict (foldl (fun d key => backfill key d) kvs
                              required_keys)))
     | _ => io_raise (ValueError "Invalid journal file format")
     end)
    (fun e =>
       match e with
       | JSONDecodeError => Some (
           let backup_filename := filename ++ ".backup" in
           _ ← global_name "os";
           ex ← path_exists backup_filename;
           r ← (if ex : bool
                then io_try (j ← json_load backup_filename; mret (Some (Some j)))
                            (fun _ => Some (mret None))
                else mret None);
           match r with
           | Some returned => mret returned
           | None => mret None
           end)
       | FileNotFoundError => Some (mret None)
       | _ => None
       end).

End Journal.

(** ** app.py: the handlers that change the trade lists *)

(** The session state of the application: the two trade lists, the account
    snapshot, the wallet, the flag of the manual form, and the state of the
    emotional-analysis component. *)
Record app_state := {
  trades : list json;
  manual_trades : list json;
  user_state : json;
  wallet_address : json;
  wallet_verified : bool;
  show_manual_form : bool;
  analysis : session
}.

(** [trade.get('id')] *)
Definition trade_id_of (trade : json) : option json :=
  match trade with
  | JDict kvs => dict_get "id" kvs
  | _ => None
  end.

(** The identifiers of the combined trade list. *)
Definition trade_ids (st : app_state) : list json :=
  omap trade_id_of (trades st ++ manual_trades st)%list.

Section App.

(** [hash(str(trade))] in decimal. *)
Variable hash_str : list (string * json) → string.

(** [float(x)] *)
Variable py_float : json → outcome float.

(** [datetime.fromtimestamp(x / 1000).strftime('%Y-%m-%d %H:%M:%S')] *)
Variable format_ms : json → outcome string.

(** [fetch_trade_data(wallet_address)]: the fills and the account state,
    or the [ValueError] the function raises. *)
Variable fetch_trade_data : json → outcome (list json * json).

Definition get_default (key : string) (dflt : json)
    (kvs : list (string * json)) : json :=
  default dflt (dict_get key kvs).

(** [format_trade_for_display(trade)], with [trade_type] left at "api". *)
Definition format_trade_for_display (trade : json) : outcome json :=
  match trade with
  | JDict kvs =>
      let id := get_default "oid" (JStr ("api-" ++ hash_str kvs)) kvs in
      let coin := get_default "coin" (JStr "Unknown") kvs in
      let side :=
        match dict_get "side" kvs with
        | Some (JStr "B") => "Long"
        | _ => "Short"
        end in
      size ← py_float (get_default "sz" (JStr "0") kvs);
      price ← py_float (get_default "px" (JStr "0") kvs);
      pnl ← py_float (get_default "closedPnl" (JStr "0") kvs);
      fee ← py_float (get_default "fee" (JStr "0") kvs);
      time ← format_ms (get_default "time" (JInt 0) kvs);
      mret (JDict [("id", id); ("coin", coin); ("side", JStr side);
                   ("size", JFloat size); ("price", JFloat price);
                   ("pnl", JFloat pnl); ("fee", JFloat fee);
                   ("time", JStr time); ("type", JStr "API Trade")])
  | _ => Raise (AttributeError "get")
  end.

(** [[format_trade_for_display(trade) for trade in l]] *)
Fixpoint format_all (l : list json) : outcome (list json) :=
  match l with
  | [] => Return []
  | trade :: rest =>
      t ← format_trade_for_display trade;
      ts ← format_all rest;
      mret (t :: ts)
  end.

(** The body of [if st.button("Fetch Latest Trades", ...)], lines 299 to
    312. The result tells whether the run ends in [st.rerun()]. *)
Definition fetch_latest_trades (st : app_state) : bool * app_state :=
  if negb (wallet_verified st) then (false, st)
  else
    match fetch_trade_data (wallet_address st) with
    | Return (fills, new_user_state) =>
        match format_all (take 10 fills) with
        | Return formatted =>
            (true,
             {| trades := formatted;
                manual_trades := manual_trades st;
                user_state := new_user_state;
                wallet_address := wallet_address st;
                wallet_verified := wallet_verified st;
                show_manual_form := show_manual_form st;
                analysis := analysis st |})
        | Raise _ => (false, st)
        end
    | Raise _ => (false, st)
    end.



End App.

(** ** Sample inputs *)

(** A reader that agrees with [json.load] on three texts: the empty object,
    the empty array, and anything else taken as malformed. *)
Definition sample_loads (text : string) : option json :=
  if String.eqb text "{}" then Some (JDict [])
  else if String.eqb text "[]" then Some (JList [])
  else None.

(** A writer that keeps only the shape of the document. *)
Definition sample_dumps (indent : nat) (sort_keys : bool) (data : json)
  : string :=
  match data with
  | JDict [] => "{}"
  | JList [] => "[]"
  | _ => "{...}"
  end.

Definition disk_of (l : list (string * string)) : disk :=
  {| files := list_to_map l; write_denied := ∅ |}.
(** A session with initialised counters in which "Fear" was recorded four
    times. *)
Definition sample_counters : counters :=
  <["emotional_states" := {["Fear" := JInt 4]}]> empty_counters.








(** The text of a statistics file that records "Greed" twice under
    [emotional_states], and a reader that knows this text. *)
Definition dq : string := String (ascii_of_nat 34) "".

Definition sample_stats_text : string :=
  "{" ++ dq ++ "emotional_states" ++ dq ++ ": {" ++ dq ++ "Greed" ++ dq
  ++ ": 2}}".

Definition sample_stats_json : json :=
  JDict [("emotional_states", JDict [("Greed", JInt 2)])].

Definition sample_stats_loads (text : string) : option json :=
  if String.eqb text sample_stats_text then Some sample_stats_json
  else sample_loads text.

Definition sample_dict_of_pairs (l : list json) : outcome (gmap string json) :=
  Raise TypeError.

Definition sample_session : session :=
  {| selected := ∅; emotional_usage_stats := Some sample_counters;
     widget_state := ∅ |}.

(** What [defaultdict(int, x)] holds when [x] is a JSON object. *)
Definition counter_of (x : json) : gmap string json :=
  match x with
  | JDict kvs => dict_to_map kvs
  | _ => ∅
  end.

Definition is_object (x : json) : Prop :=
  match x with
  | JDict _ => True
  | _ => False
  end.

(** Whether [s] contains the separator [", "]. *)
Fixpoint has_sep (s : string) : bool :=
  match s with
  | String c rest =>
      match rest with
      | String c' _ =>
          (Ascii.eqb c "," && Ascii.eqb c' " ")%bool || has_sep rest
      | EmptyString => false
      end
  | EmptyString => false
  end.

(** A tag value that the stored form keeps apart and gives back unchanged:
    not empty, no white space at either end, no separator inside. *)
Definition tidy (x : string) : Prop :=
  x ≠ "" ∧ strip x = x ∧ has_sep x = false.

(** ** Vocabulary of the statements about the form *)

(** No button is pressed during the run. *)
Definition no_click (u : ui) : Prop := ∀ key, button u key = Return false.

(** Every stored count is a Python [int]. *)
Definition int_counts (m : gmap string json) : Prop :=
  ∀ item v, m !! item = Some v → ∃ n, v = JInt n.

Definition int_counters (stats : counters) : Prop :=
  ∀ category m, stats !! category = Some m → int_counts m.

(** The stored sets after line 150: the set of [cur] is stored under [key]
    unless the key is there already. *)
Definition seeded (key : string) (cur : list string)
    (m : gmap string (gset string)) : gmap string (gset string) :=
  match m !! key with
  | None => <[key := list_to_set cur]> m
  | Some _ => m
  end.

(** The count of [item] as an integer, 0 when it has none. *)
Definition count_of (m : gmap string json) (item : string) : Z :=
  match m !! item with
  | Some (JInt n) => n
  | _ => 0
  end.

(** The counts after one more use of each of [items]. *)
Definition bumped (items : list string) (m : gmap string json)
  : gmap string json :=
  foldl (fun m item => <[item := JInt (count_of m item + 1)]> m) m items.

(** The key of [st.session_state] under which the selection of a category
    of a trade is kept. *)
Definition session_key_of (name : string) (trade_id : option string) : string :=
  key_prefix_of name trade_id ++ "_selected".

(** A run without user input, an iteration order of sets that is not the
    sorted one, and a [sorted] for integer counts. *)
Definition quiet_ui : ui :=
  {| button := fun _ => Return false; text_input := fun _ => "" |}.

Definition sample_list_of_set (session_key : string) (s : gset string)
  : list string :=
  reverse (merge_sort String.le (elements s)).

Definition sample_sorted_items (m : gmap string json)
  : outcome (list (string * json)) :=
  Return (merge_sort (fun a b => Is_true (count_of m b.1 <=? count_of m a.1))
            (map_to_list m)).

(** What a piece of the script may change: [R] relates the session before
    it to the session after it, however the piece ends (with a value, with
    [st.rerun()] or with an exception). *)
Definition changes_within {A} (R : session → session → Prop) (m : script A)
  : Prop :=
  ∀ s, R s (run m s).2.

(** The session after is the session before, apart from the selections
    stored under the keys [keys] and the widget values stored under
    [widget_keys]. *)
Definition same_apart_from (keys widget_keys : list string) (s s' : session)
  : Prop :=
  (∀ k, k ∉ keys → selected s' !! k = selected s !! k)
  ∧ (∀ k, k ∉ widget_keys → widget_state s' !! k = widget_state s !! k).

Definition same_counters (s s' : session) : Prop :=
  emotional_usage_stats s' = emotional_usage_stats s.

(** The categories of the counters with the names used in the session keys,
    and the fields of the returned dictionary with the same names. *)
Definition form_categories : list (string * string) :=
  [("emotional_states", "emotions"); ("triggers", "triggers");
   ("mistakes", "mistakes"); ("actions", "actions")].

Definition form_fields : list (string * string) :=
  [("emotional_state", "emotions"); ("triggers", "triggers");
   ("mistakes", "mistakes"); ("corrective_action", "actions")].

(** The selection of a category of a trade, empty when there is none. *)
Definition selection_of (s : session) (name : string)
    (trade_id : option string) : gset string :=
  default ∅ (selected s !! session_key_of name trade_id).

(** A trade that was saved with the emotional state "Fear". *)
Definition sample_trade : list (string * json) :=
  [("id", JStr "t1"); ("coin", JStr "BTC"); ("emotional_state", JStr "Fear")].

(** Runs in which exactly the button [key] is pressed, with [text] in every
    text box. *)
Definition click_ui (key text : string) : ui :=
  {| button := fun k => Return (String.eqb k key);
     text_input := fun _ => text |}.

(** A stored count that is no number: Python compares it with an integer by
    [==] (giving [False]) but refuses to order it against one. *)
Definition not_a_number (v : json) : Prop :=
  match v with
  | JNull | JStr _ | JList _ | JDict _ => True
  | _ => False
  end.

(** How often [item] occurs in [items]. *)
Definition occurrences (item : string) (items : list string) : Z :=
  Z.of_nat (List.length (filter (fun x => x = item) items)).

(** The text of a statistics file that gives "Fear" the count "often", and
    a reader that knows this text. *)
Definition sample_bad_stats_text : string :=
  "{" ++ dq ++ "emotional_states" ++ dq ++ ": {" ++ dq ++ "Fear" ++ dq
  ++ ": " ++ dq ++ "often" ++ dq ++ "}}".

Definition sample_bad_stats_json : json :=
  JDict [("emotional_states", JDict [("Fear", JStr "often")])].

Definition sample_bad_stats_loads (text : string) : option json :=
  if String.eqb text sample_bad_stats_text then Some sample_bad_stats_json
  else sample_loads text.

(** ** journal.py: the Hyperliquid client and the signature check *)

(** What a call into the client library gives: its result, or the text
    [str(e)] of the exception it raises. *)
Inductive client (A : Type) :=
  | Answer (a : A)
  | Failure (error_msg : string).
Arguments Answer {A} a.
Arguments Failure {A} error_msg.

(** [needle in hay] for two strings *)
Fixpoint contains (needle hay : string) : bool :=
  String.prefix needle hay
  || match hay with
     | String _ rest => contains needle rest
     | EmptyString => false
     end.

(** [s.lower()] on the code points below 256: the letters A to Z and the
    capital letters of Latin-1 (192 to 222, without the sign 215) move up
    by 32, every other character stays. *)
Definition lower_char (c : ascii) : ascii :=
  let n := nat_of_ascii c in
  if ((65 <=? n) && (n <=? 90)
      || (192 <=? n) && (n <=? 222) && negb (n =? 215))%nat
  then ascii_of_nat (n + 32) else c.

Fixpoint lower (s : string) : string :=
  match s with
  | EmptyString => EmptyString
  | String c rest => String (lower_char c) (lower rest)
  end.

Section Client.

(** [Info(constants.MAINNET_API_URL, skip_ws=True)], [info.user_fills] and
    [info.user_state]. *)
Variable Info : client unit.
Variable user_fills : json → client (list json).
Variable user_state : json → client json.

(** The body of the [try], lines 13 to 27. *)
Definition fetch_calls (wallet_address : json) : client (list json * json) :=
  match Info with
  | Failure e => Failure e
  | Answer _ =>
      match user_fills wallet_address with
      | Failure e => Failure e
      | Answer fills =>
          match user_state wallet_address with
          | Failure e => Failure e
          | Answer state => Answer (fills, state)
          end
      end
  end.

Definition fetch_trade_data (wallet_address : json)
  : outcome (list json * json) :=
  match fetch_calls wallet_address with
  | Answer r => Return r
  | Failure error_msg =>
      if contains "Invalid address" error_msg then
        Raise (ValueError
          "Invalid wallet address format. Please check your address.")
      else if contains "rate limit" (lower error_msg) then
        Raise (ValueError
          "Rate limited by Hyperliquid API. Please wait a moment and try again.")
      else if contains "timeout" (lower error_msg) then
        Raise (ValueError
          "Connection timeout. Please check your internet connection and try again.")
      else
        Raise (ValueError
          ("Failed to fetch data from Hyperliquid: " ++ error_msg))
  end.

End Client.

(** [signature.startswith(prefix)] *)
Definition py_startswith (prefix : string) (v : json) : outcome bool :=
  match v with
  | JStr s => Return (String.prefix prefix s)
  | _ => Raise (AttributeError "startswith")
  end.

(** [len(v)] *)
Definition py_len (v : json) : outcome nat :=
  match v with
  | JStr s => Return (String.length s)
  | JList l => Return (List.length l)
  | JDict kvs => Return (List.length kvs)
  | _ => Raise TypeError
  end.

(** The body of the [try] of [verify_wallet_ownership], lines 49 to 63. *)
Definition verify_checks (wallet_address signature message : json)
  : outcome bool :=
  if (negb (truthy wallet_address) || negb (truthy signature)
      || negb (truthy message))%bool
  then Return false
  else
    starts ← py_startswith "0x" signature;
    bad ← (if negb starts then Return true
           else (n ← py_len signature; Return (n <? 130)%nat));
    if bad : bool then Return false else Return true.

(** [except Exception as e: print(...); return False] *)
Definition verify_wallet_ownership (wallet_address signature message : json)
  : bool :=
  match verify_checks wallet_address signature message with
  | Return b => b
  | Raise _ => false
  end.

(** [needle] is a piece of [hay]. *)
Definition occurs_in (needle hay : string) : Prop :=
  ∃ before after, hay = before ++ needle ++ after.

(** ** app.py: the wallet *)

(** [c in '0123456789abcdefABCDEF'] for a character [c] *)
Definition is_hex_digit (c : ascii) : bool :=
  contains (String c "") "0123456789abcdefABCDEF".

(** [all(p(c) for c in s)] *)
Fixpoint all_chars (p : ascii → bool) (s : string) : bool :=
  match s with
  | EmptyString => true
  | String c rest => p c && all_chars p rest
  end.

(** [s[n:]] *)
Fixpoint slice_from (n : nat) (s : string) : string :=
  match n, s with
  | S n', String _ rest => slice_from n' rest
  | _, _ => s
  end.

Definition is_valid_ethereum_address (address : string) : bool :=
  if negb (truthy (JStr address)) then false
  else
    let address :=
      if String.prefix "0x" address then slice_from 2 address else address in
    (String.length address =? 40)%nat && all_chars is_hex_digit address.

(** The body of [if st.button("Connect Wallet", ...)], lines 157 to 164,
    for the text [wallet_input] of the address box. The result tells
    whether the run ends in [st.rerun()]. *)
Definition connect_wallet (wallet_input : string) (st : app_state)
  : bool * app_state :=
  if is_valid_ethereum_address wallet_input then
    (true,
     {| trades := trades st;
        manual_trades := manual_trades st;
        user_state := user_state st;
        wallet_address := JStr (lower wallet_input);
        wallet_verified := true;
        show_manual_form := show_manual_form st;
        analysis := analysis st |})
  else (false, st).



(** The characters of ['0123456789abcdefABCDEF']. *)
Definition hex_digits : list ascii :=
  list_ascii_of_string "0123456789abcdefABCDEF".

(** ** app.py: the manual trade form *)




Section ManualForm.

Variable list_of_set : string → gset string → list string.
Variable sorted_items : gmap string json → outcome (list (string * json)).


End ManualForm.

(** The text of a statistics file that gives [emotional_states] an object
    and [triggers] the number 5, and a reader that knows this text. *)
Definition sample_ill_stats_text : string :=
  "{" ++ dq ++ "emotional_states" ++ dq ++ ": {" ++ dq ++ "Greed" ++ dq
  ++ ": 2}, " ++ dq ++ "triggers" ++ dq ++ ": 5}".

Definition sample_ill_stats_json : json :=
  JDict [("emotional_states", JDict [("Greed", JInt 2)]);
         ("triggers", JInt 5)].

Definition sample_ill_stats_loads (text : string) : option json :=
  if String.eqb text sample_ill_stats_text then Some sample_ill_stats_json
  else sample_loads text.

(** A piece of the script that never ends in [st.rerun()]. *)
Definition never_reruns {A} (m : script A) : Prop :=
  ∀ s, (run m s).1 ≠ Stop Rerun.

(** The session of the demonstration page after "Fear" was selected: the
    counters are there and hold nothing yet. *)
Definition sample_demo_session : session :=
  {| selected := {[session_key_of "emotions" (Some "demo_trade") := {["Fear"]}]};
     emotional_usage_stats := Some empty_counters;
     widget_state := ∅ |}.

(** Another iteration order for the sample runs: the sorted one. *)
Definition sample_sorted_list_of_set (session_key : string) (s : gset string)
  : list string :=
  merge_sort String.le (elements s).

(** The session of the demonstration page after the custom value
    "Tired, bored" was added, and a stored record that holds the string the
    form returns for it. *)
Definition sample_custom_session : session :=
  {| selected :=
       {[session_key_of "emotions" (Some "demo_trade") := {["Tired, bored"]}]};
     emotional_usage_stats := Some empty_counters;
     widget_state := ∅ |}.

Definition sample_custom_record : list (string * json) :=
  [("emotional_state", JStr "Tired, bored")].

Definition sample_fresh_session : session :=
  {| selected := ∅; emotional_usage_stats := Some empty_counters;
     widget_state := ∅ |}.

(** ** emotional_analysis.py: writing the statistics file *)

(** [open(path, 'w')]: the file is created, or emptied when it is there. *)
Definition open_w (path : string) : io unit := write_file path "".

Section SaveStats.

(** [st.session_state.emotional_usage_stats.items()], and [dict(stats)] for
    the counts of one category: the pairs in the order in which this call
    iterates the dictionary. A dictionary is iterated in the order of its
    insertions, which the maps do not record; each dictionary is iterated
    once in a call, so the order belongs to the call. *)
Variable categories_in_order : counters → list (string * gmap string json).
Variable counts_in_order : string → gmap string json → list (string * json).

(** [json.dump(data, f, indent=...)]: the text written; the second argument
    is [sort_keys], which this call leaves [False]. *)
Variable json_dumps : nat → bool → json → string.

(** [stats_to_save], lines 347 to 349. *)
Definition stats_to_save (stats : counters) : json :=
  JDict ((fun kv => (kv.1, JDict (counts_in_order kv.1 kv.2)))
           <$> categories_in_order stats).

Definition save_emotional_stats (s : session) : io bool :=
  io_try
    (_ ← open_w "emotional_stats.json";
     match emotional_usage_stats s with
     | None => io_raise (AttributeError "emotional_usage_stats")
     | Some stats =>
         _ ← write_file "emotional_stats.json"
               (json_dumps 2 false (stats_to_save stats));
         mret true
     end)
    (fun _ => Some (mret false)).

End SaveStats.

(** Iteration orders for the sample runs, and a writer and a reader that
    know the document of [sample_counters]. *)
Definition sample_categories_in_order (stats : counters)
  : list (string * gmap string json) :=
  map_to_list stats.

Definition sample_counts_in_order (category : string) (m : gmap string json)
  : list (string * json) :=
  map_to_list m.

Definition sample_stats_dumps (indent : nat) (sort_keys : bool) (data : json)
  : string :=
  "saved".

Definition sample_saved_loads (text : string) : option json :=
  if String.eqb text "saved"
  then Some (stats_to_save sample_categories_in_order sample_counts_in_order
               sample_counters)
  else None.

(** * Properties *)

(** ** Journal files *)

Lemma string_length_app (a b : string) :
  String.length (a ++ b) = (String.length a + String.length b)%nat.
Proof. induction a as [|c a IH]; simpl; [done | by rewrite IH]. Qed.

Lemma backup_name_fresh (filename : string) :
  filename ++ ".backup" ≠ filename.
Proof.
  intros E. apply (f_equal String.length) in E.
  rewrite string_length_app in E. simpl in E. lia.
Qed.

Section JournalFacts.

Variable json_loads : string → option json.
Variable json_dumps : nat → bool → json → string.

(** A primary file that does not parse: the handler of line 114 reaches
    [os.path.exists] on line 119 and stops there. *)
Lemma load_malformed_primary filename d text :
  files d !! filename = Some text →
  json_loads text = None →
  exec (load_journal_data json_loads filename) d = (Raise (NameError "os"), d).
Proof.
  intros Hf Hp. unfold load_journal_data, io_try, json_load. simpl.
  rewrite Hf. simpl. rewrite Hp. simpl. reflexivity.
Qed.

Lemma load_missing_primary filename d :
  files d !! filename = None →
  exec (load_journal_data json_loads filename) d = (Return None, d).
Proof.
  intros Hf. unfold load_journal_data, io_try, json_load. simpl.
  rewrite Hf. reflexivity.
Qed.

Lemma load_parsed_primary filename d text j :
  files d !! filename = Some text →
  json_loads text = Some j →
  exec (load_journal_data json_loads filename) d =
    (match j with
     | JDict kvs =>
         Return (Some (JDict (foldl (fun d key => backfill key d) kvs
                                required_keys)))
     | _ => Raise (ValueError "Invalid journal file format")
     end, d).
Proof.
  intros Hf Hp. unfold load_journal_data, io_try, json_load. simpl.
  rewrite Hf. simpl. rewrite Hp. simpl. by destruct j.
Qed.

End JournalFacts.

Lemma dict_get_set_eq k v kvs : dict_get k (dict_set k v kvs) = Some v.
Proof.
  induction kvs as [|[k' v'] kvs IH]; simpl.
  - by rewrite decide_True.
  - destruct (decide (k' = k)) as [->|Hne]; simpl.
    + by rewrite decide_True.
    + by rewrite decide_False.
Qed.

Lemma dict_get_set_ne k k' v kvs :
  k ≠ k' → dict_get k' (dict_set k v kvs) = dict_get k' kvs.
Proof.
  intros Hne. induction kvs as [|[k0 v0] kvs IH]; simpl.
  - by rewrite decide_False.
  - destruct (decide (k0 = k)) as [->|Hne0]; simpl.
    + by rewrite !decide_False.
    + destruct (decide (k0 = k')); [done | apply IH].
Qed.

Lemma dict_mem_spec k kvs :
  dict_mem k kvs = true ↔ is_Some (dict_get k kvs).
Proof. unfold dict_mem. by rewrite bool_decide_eq_true. Qed.

Lemma dict_get_backfill key key' kvs :
  dict_get key (backfill key' kvs) =
    if decide (key' = key)
    then Some (default (empty_default key) (dict_get key kvs))
    else dict_get key kvs.
Proof.
  unfold backfill. destruct (dict_mem key' kvs) eqn:Hm.
  - apply dict_mem_spec in Hm as [v Hv].
    destruct (decide (key' = key)) as [<-|]; [by rewrite Hv | done].
  - assert (dict_get key' kvs = None) as Hn.
    { destruct (dict_get key' kvs) eqn:E; [|done].
      assert (dict_mem key' kvs = true) by (apply dict_mem_spec; eauto).
      congruence. }
    destruct (decide (key' = key)) as [<-|Hne].
    + rewrite dict_get_set_eq, Hn. done.
    + by apply dict_get_set_ne.
Qed.

Lemma dict_get_backfill_all key kvs :
  dict_get key (backfill "reflections"
                  (backfill "manual_trades" (backfill "trades" kvs))) =
    if bool_decide (key ∈ required_keys)
    then Some (default (empty_default key) (dict_get key kvs))
    else dict_get key kvs.
Proof.
  unfold required_keys. rewrite !dict_get_backfill.
  destruct (decide ("reflections" = key)) as [<-|H1]; [reflexivity|].
  destruct (decide ("manual_trades" = key)) as [<-|H2]; [reflexivity|].
  destruct (decide ("trades" = key)) as [<-|H3]; [reflexivity|].
  rewrite bool_decide_eq_false_2; [done|].
  rewrite !elem_of_cons, elem_of_nil. intros [?|[?|[?|[]]]]; congruence.
Qed.

Section JournalClaims.

Variable json_loads : string → option json.
Variable json_dumps : nat → bool → json → string.

(** C4. A primary journal file that does not parse makes
    [load_journal_data] fail, whatever the backup holds (so also when the
    backup is absent or does not parse either), and the failure differs
    from what a missing file gives: the first is the exception raised on
    line 119, the second is the value [None]. *)
Theorem corrupt_journal_differs_from_missing filename d d_missing text :
  files d !! filename = Some text →
  json_loads text = None →
  files d_missing !! filename = None →
  (exec (load_journal_data json_loads filename) d).1 = Raise (NameError "os")
  ∧ (exec (load_journal_data json_loads filename) d_missing).1 = Return None
  ∧ (exec (load_journal_data json_loads filename) d).1
    ≠ (exec (load_journal_data json_loads filename) d_missing).1.
Proof.
  intros Hf Hp Hm.
  rewrite (load_malformed_primary _ _ _ _ Hf Hp).
  rewrite (load_missing_primary _ _ _ Hm). simpl.
  split; [done|]. split; [done|]. discriminate.
Qed.

(** C6. A load succeeds exactly when the primary file holds a JSON object;
    the document returned then has the three keys [trades],
    [manual_trades] and [reflections], each with the value of the file
    or, if the file lacks it, with its empty default, and every other key
    as in the file. In particular a file without [manual_trades] loads
    with [manual_trades] equal to the empty list. *)
Theorem load_journal_data_backfills filename d :
  (∀ doc, (exec (load_journal_data json_loads filename) d).1 = Return (Some doc) →
     ∃ text kvs kvs',
       files d !! filename = Some text ∧ json_loads text = Some (JDict kvs)
       ∧ doc = JDict kvs'
       ∧ dict_get "trades" kvs'
           = Some (default (JList []) (dict_get "trades" kvs))
       ∧ dict_get "manual_trades" kvs'
           = Some (default (JList []) (dict_get "manual_trades" kvs))
       ∧ dict_get "reflections" kvs'
           = Some (default (JDict []) (dict_get "reflections" kvs))
       ∧ (∀ key, key ∉ required_keys → dict_get key kvs' = dict_get key kvs))
  ∧ (∀ text kvs,
       files d !! filename = Some text → json_loads text = Some (JDict kvs) →
       dict_get "manual_trades" kvs = None →
       ∃ kvs',
         (exec (load_journal_data json_loads filename) d).1
           = Return (Some (JDict kvs'))
         ∧ dict_get "manual_trades" kvs' = Some (JList [])).
Proof.
  split.
  - intros doc Hr.
    destruct (files d !! filename) as [text|] eqn:Hf;
      [|by rewrite load_missing_primary in Hr].
    destruct (json_loads text) as [j|] eqn:Hp;
      [|by rewrite (load_malformed_primary _ _ _ _ Hf Hp) in Hr].
    rewrite (load_parsed_primary _ _ _ _ _ Hf Hp) in Hr.
    destruct j as [| | | | | |kvs]; cbn [fst] in Hr; try discriminate.
    injection Hr as <-. exists text, kvs. eexists.
    split; [done|]. split; [done|]. split; [done|].
    rewrite !dict_get_backfill_all.
    split; [done|]. split; [done|]. split; [done|].
    intros key Hk. rewrite dict_get_backfill_all.
    by rewrite bool_decide_eq_false_2.
  - intros text kvs Hf Hp Hn.
    rewrite (load_parsed_primary _ _ _ _ _ Hf Hp). cbn [fst].
    eexists. split; [done|]. simpl.
    rewrite dict_get_backfill_all, Hn. done.
Qed.

(** C7. [save_journal_data] always returns a boolean. When the target can
    be written it returns [True] and the file holds the document dumped
    with [indent=4] and [sort_keys=True]; when it cannot, it returns
    [False] and leaves the file alone. A file that was there before is
    copied to the backup path first, so the backup holds the previous
    text; when the backup cannot be written the backup is left as it was
    and the primary write goes ahead all the same. *)
Theorem save_journal_data_reports filename data d :
  let r := exec (save_journal_data json_dumps filename data) d in
  (∃ ok : bool, r.1 = Return ok)
  ∧ (filename ∉ write_denied d →
       r.1 = Return true
       ∧ files r.2 !! filename = Some (json_dumps 4 true data))
  ∧ (filename ∈ write_denied d →
       r.1 = Return false ∧ files r.2 !! filename = files d !! filename)
  ∧ (∀ old, files d !! filename = Some old →
       filename ++ ".backup" ∉ write_denied d →
       files r.2 !! (filename ++ ".backup") = Some old)
  ∧ (files d !! filename = None ∨ filename ++ ".backup" ∈ write_denied d →
       files r.2 !! (filename ++ ".backup")
         = files d !! (filename ++ ".backup")).
Proof.
  pose proof (backup_name_fresh filename) as Hfresh.
  unfold save_journal_data, io_try, copy2, path_exists, read_file,
    write_file. simpl.
  destruct (files d !! filename) as [old|] eqn:Hf; simpl.
  - rewrite ?Hf. simpl.
    destruct (decide (filename ++ ".backup" ∈ write_denied d)) as [Hb|Hb];
      simpl.
    + destruct (decide (filename ∈ write_denied d)) as [Hw|Hw]; simpl.
      * split; [eauto|]. split; [done|]. split; [by rewrite Hf|].
        split; [done|]. done.
      * split; [eauto|]. split; [by rewrite lookup_insert_eq|].
        split; [done|]. split; [done|]. intros _.
        by rewrite lookup_insert_ne.
    + destruct (decide (filename ∈ write_denied d)) as [Hw|Hw]; simpl.
      * split; [eauto|]. split; [done|].
        split; [by rewrite lookup_insert_ne, Hf|].
        split; [intros ? [= <-] _; by rewrite lookup_insert_eq|].
        intros [?|?]; done.
      * split; [eauto|]. split; [by rewrite lookup_insert_eq|].
        split; [done|].
        split; [intros ? [= <-] _;
                by rewrite lookup_insert_ne, lookup_insert_eq|].
        intros [?|?]; done.
  - rewrite ?Hf. simpl.
    destruct (decide (filename ∈ write_denied d)) as [Hw|Hw]; simpl.
    + split; [eauto|]. split; [done|]. split; [by rewrite Hf|].
      split; [done|]. done.
    + split; [eauto|]. split; [by rewrite lookup_insert_eq|].
      split; [done|]. split; [done|]. intros _.
      by rewrite lookup_insert_ne.
Qed.

End JournalClaims.

(** C5. A primary file that is malformed JSON next to a backup that
    parses: [load_journal_data] does not return the backup, it raises
    [NameError], since line 119 reads [os], a name that [journal.py] binds
    only inside [save_journal_data]. *)
Theorem backup_fallback_raises_name_error :
  exec (load_journal_data sample_loads "trade-log-20240101.json")
       (disk_of [("trade-log-20240101.json", "{");
                 ("trade-log-20240101.json.backup", "{}")])
  = (Raise (NameError "os"),
     disk_of [("trade-log-20240101.json", "{");
              ("trade-log-20240101.json.backup", "{}")]).
Proof. by apply load_malformed_primary with (text := "{"). Qed.

Lemma corrupt_journal_differs_from_missing_witness :
  let primary := "trade-log-20240101.json" in
  let load d := (exec (load_journal_data sample_loads primary) d).1 in
  load (disk_of [(primary, "{")]) = Raise (NameError "os")
  ∧ load (disk_of []) = Return None
  ∧ load (disk_of [(primary, "{")]) ≠ load (disk_of []).
Proof.
  intros primary load.
  apply (corrupt_journal_differs_from_missing sample_loads primary
           (disk_of [(primary, "{")]) (disk_of []) "{");
    reflexivity.
Defined.

(** ** Usage tiers *)

(** C8. The size class of a tag is a function of its usage count alone, with
    the boundaries of the tiers: count 0 gives [bubble-small] (tier none),
    counts 1 and 2 give [bubble-medium] (tier low), counts 3 to 5 give
    [bubble-large] (tier medium), and counts from 6 on give [bubble-xlarge]
    (tier high). *)
Theorem get_bubble_size_tiers stats category item n :
  usage_count stats category item = JInt n →
  (n = 0 → get_bubble_size stats category item = Return "bubble-small")
  ∧ (1 ≤ n ≤ 2 → get_bubble_size stats category item = Return "bubble-medium")
  ∧ (3 ≤ n ≤ 5 → get_bubble_size stats category item = Return "bubble-large")
  ∧ (6 ≤ n → get_bubble_size stats category item = Return "bubble-xlarge")
  ∧ (∀ stats' category' item',
       usage_count stats' category' item' = JInt n →
       get_bubble_size stats' category' item'
         = get_bubble_size stats category item).
Proof.
  intros Hc. unfold get_bubble_size. rewrite Hc. simpl.
  repeat split.
  - intros ->. reflexivity.
  - intros [H1 H2].
    destruct (n =? 0) eqn:E0; [lia|].
    destruct (n <=? 2) eqn:E2; [reflexivity | lia].
  - intros [H1 H2].
    destruct (n =? 0) eqn:E0; [lia|].
    destruct (n <=? 2) eqn:E2; [lia|]. simpl.
    destruct (n <=? 5) eqn:E5; [reflexivity | lia].
  - intros H1.
    destruct (n =? 0) eqn:E0; [lia|].
    destruct (n <=? 2) eqn:E2; [lia|]. simpl.
    destruct (n <=? 5) eqn:E5; [lia | reflexivity].
  - intros stats' category' item' Hc'. by rewrite Hc'.
Qed.

Lemma get_bubble_size_tiers_witness :
  usage_count sample_counters "emotional_states" "Fear" = JInt 4
  ∧ get_bubble_size sample_counters "emotional_states" "Fear"
      = Return "bubble-large".
Proof.
  split; [reflexivity|].
  destruct (get_bubble_size_tiers sample_counters "emotional_states" "Fear" 4
              eq_refl) as (_ & _ & Hmedium & _).
  apply Hmedium. lia.
Defined.

(** A tag that was never recorded has the implicit count 0. *)
Lemma usage_count_absent stats category item :
  default ∅ (stats !! category) !! item = None →
  usage_count stats category item = JInt 0.
Proof. intros H. unfold usage_count. by rewrite H. Qed.

(** ** Trade lists *)

Section FetchFacts.

Variable hash_str : list (string * json) → string.
Variable py_float : json → outcome float.
Variable format_ms : json → outcome string.
Variable fetch_trade_data : json → outcome (list json * json).




End FetchFacts.


(** ** Loading the usage statistics *)

Lemma set_usage_stats_same s :
  set_usage_stats (emotional_usage_stats s) s = s.
Proof. by destruct s. Qed.

Lemma set_usage_stats_twice u u' s :
  set_usage_stats u (set_usage_stats u' s) = set_usage_stats u s.
Proof. done. Qed.

Section StatsFacts.

Variable json_loads : string → option json.
Variable dict_of_pairs : list json → outcome (gmap string json).

Lemma store_categories_objects kvs s stats :
  emotional_usage_stats s = Some stats →
  Forall (fun kv => is_object kv.2) kvs →
  run (store_categories dict_of_pairs kvs) s
    = (Val (),
       set_usage_stats
         (Some (foldl (fun st kv => <[kv.1 := counter_of kv.2]> st) stats kvs))
         s).
Proof.
  revert s stats. induction kvs as [|[c v] kvs IH]; intros s stats Hs Hall.
  - simpl. by rewrite <- Hs, set_usage_stats_same.
  - apply Forall_cons in Hall as [Hv Hall]. simpl in Hv.
    destruct v; try done. simpl.
    rewrite Hs. simpl.
    rewrite (IH _ (<[c := dict_to_map kvs0]> stats)) by done.
    by rewrite set_usage_stats_twice.
Qed.

Lemma lookup_stored_categories kvs (stats : counters) c :
  NoDup kvs.*1 →
  foldl (fun st kv => <[kv.1 := counter_of kv.2]> st) stats kvs !! c
    = match dict_get c kvs with
      | Some v => Some (counter_of v)
      | None => stats !! c
      end.
Proof.
  revert stats. induction kvs as [|[k v] kvs IH]; intros stats Hnd; [done|].
  apply NoDup_cons in Hnd as [Hk Hnd]. simpl.
  rewrite IH by done.
  destruct (decide (k = c)) as [->|Hne].
  - assert (dict_get c kvs = None) as ->.
    { clear -Hk. induction kvs as [|[k' v'] kvs IH]; [done|]. simpl.
      rewrite decide_False by (intros ->; apply Hk; by left).
      apply IH. intros Hin. apply Hk. by right. }
    by rewrite lookup_insert_eq.
  - destruct (dict_get c kvs); [done|]. by rewrite lookup_insert_ne.
Qed.

(** A category whose value [defaultdict(int, ...)] refuses stops the loop:
    the categories before it are stored, the rest of the file is not
    looked at. *)
Lemma store_categories_stops pre category v post e s stats :
  emotional_usage_stats s = Some stats →
  Forall (fun kv => is_object kv.2) pre →
  defaultdict_int dict_of_pairs v = Raise e →
  run (store_categories dict_of_pairs (pre ++ (category, v) :: post)) s
    = (Stop (Exc e),
       set_usage_stats
         (Some (foldl (fun st kv => <[kv.1 := counter_of kv.2]> st) stats pre))
         s).
Proof.
  revert s stats. induction pre as [|[c w] pre IH]; intros s stats Hs Hall He.
  - simpl. unfold store_category. simpl. rewrite He. simpl.
    by rewrite <- Hs, set_usage_stats_same.
  - apply Forall_cons in Hall as [Hw Hall]. simpl in Hw.
    destruct w; try done. simpl.
    rewrite Hs. simpl.
    rewrite (IH _ (<[c := dict_to_map kvs]> stats)) by done.
    by rewrite set_usage_stats_twice.
Qed.

(** C2, as the code has it. A missing file is a success that changes
    nothing. A file that is not JSON, or whose JSON value is not an object,
    gives [False] and changes nothing. A file that holds an object of
    objects gives [True], whatever the counts are, and each category of the
    file then holds exactly the counts of the file, while the categories
    the file does not name keep theirs. A file whose object gives some
    category a value that is no collection of counts (a number, [true],
    [null], a string that is not empty) gives [False] as well, but the
    categories named before it in the file have been replaced by then. *)
Theorem load_emotional_stats_replaces d s :
  (files d !! "emotional_stats.json" = None →
     run (load_emotional_stats json_loads dict_of_pairs d) s = (Val true, s))
  ∧ (∀ text, files d !! "emotional_stats.json" = Some text →
       json_loads text = None →
       run (load_emotional_stats json_loads dict_of_pairs d) s
         = (Val false, s))
  ∧ (∀ text kvs stats,
       files d !! "emotional_stats.json" = Some text →
       json_loads text = Some (JDict kvs) →
       NoDup kvs.*1 →
       Forall (fun kv => is_object kv.2) kvs →
       emotional_usage_stats s = Some stats →
       ∃ stats',
         run (load_emotional_stats json_loads dict_of_pairs d) s
           = (Val true, set_usage_stats (Some stats') s)
         ∧ ∀ category,
             stats' !! category
               = match dict_get category kvs with
                 | Some file_counts => Some (counter_of file_counts)
                 | None => stats !! category
                 end)
  ∧ (∀ text j,
       files d !! "emotional_stats.json" = Some text →
       json_loads text = Some j →
       (∀ kvs, j ≠ JDict kvs) →
       run (load_emotional_stats json_loads dict_of_pairs d) s
         = (Val false, s))
  ∧ (∀ text pre category v post stats,
       files d !! "emotional_stats.json" = Some text →
       json_loads text = Some (JDict (pre ++ (category, v) :: post)) →
       NoDup pre.*1 →
       Forall (fun kv => is_object kv.2) pre →
       match v with
       | JNull | JBool _ | JInt _ | JFloat _ => True
       | JStr str => str ≠ ""
       | JList _ | JDict _ => False
       end →
       emotional_usage_stats s = Some stats →
       ∃ stats',
         run (load_emotional_stats json_loads dict_of_pairs d) s
           = (Val false, set_usage_stats (Some stats') s)
         ∧ ∀ other,
             stats' !! other
               = match dict_get other pre with
                 | Some file_counts => Some (counter_of file_counts)
                 | None => stats !! other
                 end).
Proof.
  unfold load_emotional_stats, try_except.
  split; [|split; [|split; [|split]]].
  - intros ->. reflexivity.
  - intros text -> Hp. simpl. rewrite Hp. reflexivity.
  - intros text kvs stats -> Hp Hnd Hall Hs. simpl. rewrite Hp. simpl.
    rewrite (store_categories_objects _ _ stats) by done. simpl.
    eexists. split; [reflexivity|].
    intros category. by apply lookup_stored_categories.
  - intros text j -> Hp Hj. simpl. rewrite Hp. simpl.
    destruct j as [| | | | | |kvs]; try reflexivity.
    by destruct (Hj kvs).
  - intros text pre category v post stats -> Hp Hnd Hall Hv Hs. simpl.
    rewrite Hp. simpl.
    assert (∃ e, defaultdict_int dict_of_pairs v = Raise e) as [e He].
    { destruct v as [| | | |[|c str]| |]; try done; by eexists. }
    rewrite (store_categories_stops _ _ _ _ e _ stats) by done. simpl.
    eexists. split; [reflexivity|].
    intros other. by apply lookup_stored_categories.
Qed.

End StatsFacts.

(** The claim of C2 fails: the counters hold "Fear" four times under
    [emotional_states], the file names that category with "Greed" only; the
    load succeeds and the count of "Fear" is gone. *)
Lemma load_emotional_stats_drops_counts :
  let d := disk_of [("emotional_stats.json", sample_stats_text)] in
  let r := run (load_emotional_stats sample_stats_loads sample_dict_of_pairs d)
             sample_session in
  r.1 = Val true
  ∧ usage_count sample_counters "emotional_states" "Fear" = JInt 4
  ∧ usage_count (default ∅ (emotional_usage_stats r.2))
      "emotional_states" "Fear" = JInt 0
  ∧ usage_count (default ∅ (emotional_usage_stats r.2))
      "emotional_states" "Greed" = JInt 2.
Proof. intros d r. repeat split; reflexivity. Qed.

(** A file that stops half way: it gives [emotional_states] the count of
    "Greed" and [triggers] the number 5. The load reports [False], and the
    counters are not as they were: the count of "Fear" is gone. *)
Lemma load_emotional_stats_stops_half_way :
  let d := disk_of [("emotional_stats.json", sample_ill_stats_text)] in
  let r := run (load_emotional_stats sample_ill_stats_loads
                  sample_dict_of_pairs d) sample_session in
  r.1 = Val false
  ∧ usage_count sample_counters "emotional_states" "Fear" = JInt 4
  ∧ usage_count (default ∅ (emotional_usage_stats r.2))
      "emotional_states" "Fear" = JInt 0
  ∧ usage_count (default ∅ (emotional_usage_stats r.2))
      "emotional_states" "Greed" = JInt 2.
Proof. intros d r. repeat split; reflexivity. Qed.

(** ** Splitting and joining tag strings *)

Lemma string_app_cons (c : ascii) (a b : string) :
  String c a ++ b = String c (a ++ b).
Proof. reflexivity. Qed.

Lemma string_app_nil (b : string) : "" ++ b = b.
Proof. reflexivity. Qed.

Lemma string_app_empty_r (a : string) : a ++ "" = a.
Proof.
  induction a as [|c a IH]; [done|]. by rewrite string_app_cons, IH.
Qed.

Lemma string_app_assoc (a b c : string) : (a ++ b) ++ c = a ++ b ++ c.
Proof.
  induction a as [|x a IH]; [done|]. by rewrite !string_app_cons, IH.
Qed.

Lemma rev_app_rev_app (a b c : string) :
  String.rev_app (String.rev_app a b) c = String.rev_app b (a ++ c).
Proof.
  revert b c. induction a as [|x a IH]; intros b c; simpl; [done|].
  by rewrite IH.
Qed.

Lemma rev_app_split (a b : string) :
  String.rev_app a b = String.rev a ++ b.
Proof.
  unfold String.rev. revert b. induction a as [|x a IH]; intros b; simpl; [done|].
  rewrite IH, (IH (String x "")), string_app_assoc. done.
Qed.

Lemma rev_rev_app (x acc : string) :
  String.rev (String.rev_app x acc) = String.rev acc ++ x.
Proof.
  unfold String.rev at 1.
  by rewrite rev_app_rev_app, string_app_empty_r, rev_app_split.
Qed.

Lemma rev_cons_app (c : ascii) (acc x : string) :
  String.rev (String c acc) ++ x = String.rev acc ++ String c x.
Proof.
  unfold String.rev. simpl.
  by rewrite (rev_app_split acc (String c "")), string_app_assoc.
Qed.

Lemma split_go_step acc c c' rest :
  split_go acc (String c (String c' rest))
    = if (Ascii.eqb c "," && Ascii.eqb c' " ")%bool
      then String.rev acc :: split_go "" rest
      else split_go (String c acc) (String c' rest).
Proof. reflexivity. Qed.

Lemma split_go_last x acc :
  has_sep x = false →
  split_go acc x = [String.rev acc ++ x].
Proof.
  revert acc. induction x as [|c x IH]; intros acc Hx.
  - simpl. by rewrite string_app_empty_r.
  - destruct x as [|c' x'].
    + simpl. by rewrite <- rev_cons_app, string_app_empty_r.
    + simpl in Hx. apply orb_false_iff in Hx as [Hcc Hx].
      rewrite split_go_step, Hcc.
      rewrite IH by done. by rewrite rev_cons_app.
Qed.

Lemma split_go_piece x rest acc :
  has_sep x = false →
  split_go acc (x ++ ", " ++ rest)
    = (String.rev acc ++ x) :: split_go "" rest.
Proof.
  revert acc. induction x as [|c x IH]; intros acc Hx.
  - rewrite string_app_nil.
    change (", " ++ rest) with (String "," (String " " rest)).
    rewrite split_go_step. simpl. by rewrite string_app_empty_r.
  - destruct x as [|c' x'].
    + change (String c "" ++ ", " ++ rest)
        with (String c (String "," (String " " rest))).
      rewrite split_go_step.
      replace (Ascii.eqb c "," && Ascii.eqb "," " ")%bool with false
        by (by rewrite andb_false_r).
      change (String "," (String " " rest)) with ("" ++ ", " ++ rest).
      rewrite (IH (String c acc)) by done. by rewrite rev_cons_app.
    + simpl in Hx. apply orb_false_iff in Hx as [Hcc Hx].
      change (String c (String c' x') ++ ", " ++ rest)
        with (String c (String c' (x' ++ ", " ++ rest))).
      rewrite split_go_step, Hcc.
      change (String c' (x' ++ ", " ++ rest))
        with (String c' x' ++ ", " ++ rest).
      rewrite (IH (String c acc)) by done. by rewrite rev_cons_app.
Qed.

Lemma split_join l :
  l ≠ [] → Forall (fun x => has_sep x = false) l →
  split_comma_space (join_comma_space l) = l.
Proof.
  unfold split_comma_space.
  induction l as [|x l IH]; intros Hne Hall; [done|].
  apply Forall_cons in Hall as [Hx Hall].
  destruct l as [|y l].
  - simpl. by rewrite split_go_last.
  - change (join_comma_space (x :: y :: l))
      with (x ++ ", " ++ join_comma_space (y :: l)).
    rewrite split_go_piece by done. by rewrite IH.
Qed.

Lemma clean_tidy l : Forall tidy l → clean l = l.
Proof.
  unfold clean. induction 1 as [|x l (Hne & Hstrip & _) _ IH]; [done|].
  rewrite fmap_cons, Hstrip, filter_cons_True by done. by rewrite IH.
Qed.

Lemma join_nonempty x l : x ≠ "" → join_comma_space (x :: l) ≠ "".
Proof. destruct x; [done|]. by destruct l. Qed.

(** On tidy values the joined form tells the list. *)
Lemma join_comma_space_inj l1 l2 :
  Forall tidy l1 → Forall tidy l2 →
  join_comma_space l1 = join_comma_space l2 → l1 = l2.
Proof.
  intros H1 H2 Hj.
  assert (∀ l, Forall tidy l → Forall (fun x => has_sep x = false) l) as Hsep.
  { intros l Hl. eapply Forall_impl; [done|]. by intros ? (_ & _ & ?). }
  destruct l1 as [|x1 l1], l2 as [|x2 l2]; [done| | |].
  - exfalso. apply Forall_cons in H2 as [(Hx & _) _].
    by apply (join_nonempty x2 l2 Hx).
  - exfalso. apply Forall_cons in H1 as [(Hx & _) _].
    by apply (join_nonempty x1 l1 Hx).
  - rewrite <- (split_join (x1 :: l1)) by auto.
    rewrite <- (split_join (x2 :: l2)) by auto.
    by rewrite Hj.
Qed.

(** Reading back a field that holds the joined form of tidy values. *)
Lemma existing_selection_join d field l :
  Forall tidy l →
  dict_get field d = Some (JStr (join_comma_space l)) →
  ∃ l', existing_selection (Some d) field = Return l' ∧ clean l' = l.
Proof.
  intros Hall Hd. unfold existing_selection.
  destruct d as [|kv d]; [done|]. cbn [truthy]. rewrite Hd. cbn [truthy].
  destruct l as [|x l].
  - simpl. by exists [].
  - assert (x ≠ "") as Hx by (by apply Forall_cons in Hall as [(? & _) _]).
    pose proof (join_nonempty x l Hx) as Hj.
    apply String.eqb_neq in Hj. rewrite Hj. cbn [negb].
    eexists. split; [done|].
    rewrite split_join; [by apply clean_tidy | done |].
    eapply Forall_impl; [done|]. by intros ? (_ & _ & ?).
Qed.

(** ** Runs of the script *)

Lemma run_bind_val {A B} (m : script A) (k : A → script B) s a s' :
  run m s = (Val a, s') → run (m ≫= k) s = run (k a) s'.
Proof. intros H. simpl. by rewrite H. Qed.

Lemma run_lift {A} (o : outcome A) a s :
  o = Return a → run (lift o) s = (Val a, s).
Proof. by intros ->. Qed.

Lemma run_read_usage_stats s stats :
  emotional_usage_stats s = Some stats →
  run read_usage_stats s = (Val stats, s).
Proof. intros H. unfold read_usage_stats. simpl. by rewrite H. Qed.

Lemma run_initialize s stats :
  emotional_usage_stats s = Some stats →
  run initialize_usage_stats s = (Val (), s).
Proof. intros H. unfold initialize_usage_stats. simpl. by rewrite H. Qed.

Lemma usage_count_int stats category item :
  int_counters stats → ∃ n, usage_count stats category item = JInt n.
Proof.
  intros Hint. unfold usage_count.
  destruct (stats !! category) as [m|] eqn:Hm; simpl; [|by exists 0].
  destruct (m !! item) as [v|] eqn:Hv; simpl; [|by exists 0].
  exact (Hint _ _ Hm _ _ Hv).
Qed.

Lemma get_bubble_size_int stats category item :
  int_counters stats → ∃ r, get_bubble_size stats category item = Return r.
Proof.
  intros Hint. unfold get_bubble_size.
  destruct (usage_count_int stats category item Hint) as [n ->]. simpl.
  destruct (n =? 0); [by eexists|].
  destruct (n <=? 2); simpl; [by eexists|].
  destruct (n <=? 5); by eexists.
Qed.

Section FormRuns.

Variable list_of_set : string → gset string → list string.
Variable sorted_items : gmap string json → outcome (list (string * json)).

(** Without a click the grid only reads the counters. *)
Lemma option_buttons_quiet u category key_prefix session_key options s stats :
  no_click u →
  emotional_usage_stats s = Some stats →
  int_counters stats →
  run (option_buttons u category key_prefix session_key options) s
    = (Val (), s).
Proof.
  intros Hq Hs Hint. induction options as [|option options IH]; [done|].
  cbn [option_buttons].
  erewrite run_bind_val by (by apply run_read_usage_stats).
  destruct (get_bubble_size_int stats category option Hint) as [r Hr].
  erewrite run_bind_val by (by eapply run_lift).
  destruct (usage_count_int stats category option Hint) as [n Hn].
  erewrite run_bind_val by (eapply run_lift; by rewrite Hn).
  rewrite Hq. erewrite run_bind_val by reflexivity. exact IH.
Qed.

Lemma selector_quiet u options category key_prefix cur s stats :
  no_click u →
  emotional_usage_stats s = Some stats →
  int_counters stats →
  let key := key_prefix ++ "_selected" in
  run (create_interactive_bubble_selector list_of_set u options category
         key_prefix cur) s
    = (Val (list_of_set key (default ∅ (seeded key cur (selected s) !! key))),
       set_selected (seeded key cur) s).
Proof.
  intros Hq Hs Hint key. unfold create_interactive_bubble_selector.
  erewrite run_bind_val by reflexivity.
  erewrite run_bind_val by (by eapply option_buttons_quiet).
  rewrite !Hq.
  erewrite run_bind_val by reflexivity.
  erewrite run_bind_val by reflexivity.
  erewrite run_bind_val by (destruct (negb _); reflexivity).
  erewrite run_bind_val by reflexivity.
  reflexivity.
Qed.

End FormRuns.

Lemma int_counts_insert m item n :
  int_counts m → int_counts (<[item := JInt n]> m).
Proof.
  intros Hm item' v. rewrite lookup_insert. case_decide.
  - intros [= <-]. by eexists.
  - apply Hm.
Qed.

Lemma int_counts_bumped items m : int_counts m → int_counts (bumped items m).
Proof.
  unfold bumped. revert m. induction items as [|item items IH]; intros m Hm;
    [done|].
  simpl. apply IH. by apply int_counts_insert.
Qed.

Lemma increment_int item m :
  int_counts m →
  increment item m = Return (<[item := JInt (count_of m item + 1)]> m).
Proof.
  intros Hm. unfold increment, count_of.
  destruct (m !! item) as [v|] eqn:Hv; simpl; [|done].
  by destruct (Hm _ _ Hv) as [n ->].
Qed.

Lemma increment_all_int items m :
  int_counts m → increment_all items m = (Return (), bumped items m).
Proof.
  unfold bumped. revert m. induction items as [|item items IH]; intros m Hm;
    [done|].
  simpl. rewrite increment_int by done. apply IH.
  by apply int_counts_insert.
Qed.

Lemma update_usage_stats_int category items s stats m :
  emotional_usage_stats s = Some stats →
  stats !! category = Some m →
  int_counts m →
  run (update_usage_stats category items) s
    = (Val (),
       set_usage_stats (Some (<[category := bumped items m]> stats)) s).
Proof.
  intros Hs Hc Hm. unfold update_usage_stats.
  erewrite run_bind_val by (by apply run_read_usage_stats).
  rewrite Hc, increment_all_int by done. reflexivity.
Qed.

Lemma record_if_any_int category items s stats m :
  emotional_usage_stats s = Some stats →
  stats !! category = Some m →
  int_counts m →
  run (record_if_any category items) s
    = (Val (),
       set_usage_stats (Some (<[category := bumped items m]> stats)) s).
Proof.
  intros Hs Hc Hm. destruct items as [|item items].
  - simpl. unfold bumped. simpl. rewrite insert_id by done.
    by rewrite <- Hs, set_usage_stats_same.
  - by apply update_usage_stats_int.
Qed.

Lemma count_of_bumped items m item :
  NoDup items →
  count_of (bumped items m) item
    = count_of m item + (if decide (item ∈ items) then 1 else 0).
Proof.
  unfold bumped. revert m. induction items as [|x items IH]; intros m Hnd.
  - destruct (decide (item ∈ [])) as [Hin|_]; [by apply elem_of_nil in Hin|].
    simpl. lia.
  - apply NoDup_cons in Hnd as [Hx Hnd]. cbn [foldl]. rewrite IH by done.
    assert (count_of (<[x := JInt (count_of m x + 1)]> m) item
            = count_of m item + (if decide (x = item) then 1 else 0)) as ->.
    { unfold count_of at 1. rewrite lookup_insert.
      destruct (decide (x = item)) as [->|Hne]; [done|].
      fold (count_of m item). lia. }
    destruct (decide (x = item)) as [->|Hne].
    + rewrite decide_False by done.
      destruct (decide (item ∈ item :: items)) as [_|Hnin]; [lia|].
      exfalso. apply Hnin. by left.
    + destruct (decide (item ∈ items)) as [Hin|Hnin].
      * destruct (decide (item ∈ x :: items)) as [_|Hnin]; [lia|].
        exfalso. apply Hnin. by right.
      * destruct (decide (item ∈ x :: items)) as [Hin|_]; [|lia].
        apply elem_of_cons in Hin as [->|?]; done.
Qed.

Lemma usage_count_count_of stats category m item :
  stats !! category = Some m → int_counts m →
  usage_count stats category item = JInt (count_of m item).
Proof.
  intros Hc Hm. unfold usage_count, count_of. rewrite Hc. simpl.
  destruct (m !! item) as [v|] eqn:Hv; simpl; [|done].
  by destruct (Hm _ _ Hv) as [n ->].
Qed.

Section ShowTop.

Variable sorted_items : gmap string json → outcome (list (string * json)).
Hypothesis sorted_items_int :
  ∀ m, int_counts m → ∃ l, sorted_items m = Return l.

Lemma show_top_int category s stats m :
  emotional_usage_stats s = Some stats →
  stats !! category = Some m →
  int_counts m →
  run (show_top sorted_items category) s = (Val (), s).
Proof.
  intros Hs Hc Hm. unfold show_top.
  erewrite run_bind_val by (by apply run_read_usage_stats).
  rewrite Hc. destruct (size m =? 0)%nat; [done|].
  destruct (sorted_items_int m Hm) as [l Hl].
  erewrite run_bind_val by (by eapply run_lift). done.
Qed.

End ShowTop.

(** The keys of the four selections of one trade are distinct. *)
Lemma session_keys_distinct trade_id :
  let k name := session_key_of name trade_id in
  k "emotions" ≠ k "triggers" ∧ k "emotions" ≠ k "mistakes"
  ∧ k "emotions" ≠ k "actions" ∧ k "triggers" ≠ k "mistakes"
  ∧ k "triggers" ≠ k "actions" ∧ k "mistakes" ≠ k "actions".
Proof.
  unfold session_key_of, key_prefix_of.
  destruct trade_id as [t|]; [destruct (String.eqb t "")|];
    repeat split; discriminate.
Qed.

Lemma lookup_seeded_ne key key' cur m :
  key ≠ key' → seeded key cur m !! key' = m !! key'.
Proof.
  intros Hne. unfold seeded. destruct (m !! key); [done|].
  by rewrite lookup_insert_ne.
Qed.

Lemma lookup_seeded_eq key cur m :
  seeded key cur m !! key = Some (default (list_to_set cur) (m !! key)).
Proof.
  unfold seeded. destruct (m !! key) eqn:H; simpl; [done|].
  by rewrite lookup_insert_eq.
Qed.

Section FormQuiet.

Variable list_of_set : string → gset string → list string.
Variable sorted_items : gmap string json → outcome (list (string * json)).
Hypothesis sorted_items_int :
  ∀ m, int_counts m → ∃ l, sorted_items m = Return l.

(** A run of the form without a click, on initialised integer counters:
    the four selections are seeded where they are missing, every selected
    value is recorded once, and the four joined strings are returned. *)
Lemma form_quiet u trade_id existing s stats m1 m2 m3 m4 e1 e2 e3 e4 :
  no_click u →
  emotional_usage_stats s = Some stats →
  int_counters stats →
  stats !! "emotional_states" = Some m1 →
  stats !! "triggers" = Some m2 →
  stats !! "mistakes" = Some m3 →
  stats !! "actions" = Some m4 →
  existing_selection existing "emotional_state" = Return e1 →
  existing_selection existing "triggers" = Return e2 →
  existing_selection existing "mistakes" = Return e3 →
  existing_selection existing "corrective_action" = Return e4 →
  let k1 := session_key_of "emotions" trade_id in
  let k2 := session_key_of "triggers" trade_id in
  let k3 := session_key_of "mistakes" trade_id in
  let k4 := session_key_of "actions" trade_id in
  let sel :=
    seeded k4 (clean e4) (seeded k3 (clean e3)
      (seeded k2 (clean e2) (seeded k1 (clean e1) (selected s)))) in
  let l1 := list_of_set k1 (default ∅ (sel !! k1)) in
  let l2 := list_of_set k2 (default ∅ (sel !! k2)) in
  let l3 := list_of_set k3 (default ∅ (sel !! k3)) in
  let l4 := list_of_set k4 (default ∅ (sel !! k4)) in
  run (create_emotional_analysis_form list_of_set sorted_items u trade_id
         existing) s
    = (Val [("emotional_state", JStr (join_comma_space l1));
            ("triggers", JStr (join_comma_space l2));
            ("mistakes", JStr (join_comma_space l3));
            ("corrective_action", JStr (join_comma_space l4))],
       {| selected := sel;
          emotional_usage_stats :=
            Some (<["actions" := bumped l4 m4]>
                   (<["mistakes" := bumped l3 m3]>
                     (<["triggers" := bumped l2 m2]>
                       (<["emotional_states" := bumped l1 m1]> stats))));
          widget_state := widget_state s |}).
Proof.
  intros Hq Hs Hint H1 H2 H3 H4 He1 He2 He3 He4 k1 k2 k3 k4 sel l1 l2 l3 l4.
  destruct (session_keys_distinct trade_id)
    as (K12 & K13 & K14 & K23 & K24 & K34).
  fold k1 k2 k3 k4 in K12, K13, K14, K23, K24, K34.
  assert (sel !! k1 = seeded k1 (clean e1) (selected s) !! k1) as S1.
  { unfold sel. by rewrite !lookup_seeded_ne by done. }
  assert (sel !! k2
          = seeded k2 (clean e2) (seeded k1 (clean e1) (selected s)) !! k2)
    as S2.
  { unfold sel. by rewrite 2!lookup_seeded_ne by done. }
  assert (sel !! k3
          = seeded k3 (clean e3) (seeded k2 (clean e2)
              (seeded k1 (clean e1) (selected s))) !! k3) as S3.
  { unfold sel. by rewrite lookup_seeded_ne by done. }
  unfold create_emotional_analysis_form.
  erewrite run_bind_val by (by eapply run_initialize).
  erewrite run_bind_val by (by eapply run_lift).
  erewrite run_bind_val by (by eapply run_lift).
  erewrite run_bind_val by (by eapply run_lift).
  erewrite run_bind_val by (by eapply run_lift).
  erewrite run_bind_val by (by eapply selector_quiet).
  erewrite run_bind_val by (by eapply selector_quiet).
  erewrite run_bind_val by (by eapply selector_quiet).
  erewrite run_bind_val by (by eapply selector_quiet).
  cbn [set_selected selected emotional_usage_stats widget_state].
  fold (session_key_of "emotions" trade_id) (session_key_of "triggers" trade_id)
    (session_key_of "mistakes" trade_id) (session_key_of "actions" trade_id).
  fold k1 k2 k3 k4. fold sel.
  rewrite <- S1, <- S2, <- S3. fold l1 l2 l3 l4.
  erewrite run_bind_val
    by (eapply (record_if_any_int _ _ _ stats m1); by eauto).
  erewrite run_bind_val.
  2:{ eapply (record_if_any_int _ _ _ _ m2); [reflexivity | | by eauto].
      by rewrite lookup_insert_ne. }
  erewrite run_bind_val.
  2:{ eapply (record_if_any_int _ _ _ _ m3); [reflexivity | | by eauto].
      by rewrite !lookup_insert_ne. }
  erewrite run_bind_val.
  2:{ eapply (record_if_any_int _ _ _ _ m4); [reflexivity | | by eauto].
      by rewrite !lookup_insert_ne. }
  cbn [set_usage_stats selected emotional_usage_stats widget_state].
  erewrite run_bind_val.
  2:{ eapply (show_top_int _ sorted_items_int _ _ _ (bumped l1 m1));
        [reflexivity | repeat (rewrite lookup_insert_ne by done);
                      by rewrite lookup_insert_eq |].
      apply int_counts_bumped. by eauto. }
  erewrite run_bind_val.
  2:{ eapply (show_top_int _ sorted_items_int _ _ _ (bumped l2 m2));
        [reflexivity | repeat (rewrite lookup_insert_ne by done);
                      by rewrite lookup_insert_eq |].
      apply int_counts_bumped. by eauto. }
  erewrite run_bind_val.
  2:{ eapply (show_top_int _ sorted_items_int _ _ _ (bumped l3 m3));
        [reflexivity | repeat (rewrite lookup_insert_ne by done);
                      by rewrite lookup_insert_eq |].
      apply int_counts_bumped. by eauto. }
  erewrite run_bind_val.
  2:{ eapply (show_top_int _ sorted_items_int _ _ _ (bumped l4 m4));
        [reflexivity | by rewrite lookup_insert_eq |].
      apply int_counts_bumped. by eauto. }
  reflexivity.
Qed.

End FormQuiet.

(** ** What the selector and the form may change *)

#[local] Instance same_counters_preorder : PreOrder same_counters.
Proof.
  split; [by intros s|]. unfold same_counters.
  intros s1 s2 s3 H12 H23. by rewrite H23.
Qed.

#[local] Instance same_apart_from_preorder keys widget_keys :
  PreOrder (same_apart_from keys widget_keys).
Proof.
  split; [by intros s|].
  intros s1 s2 s3 [H12 W12] [H23 W23]. split; intros k Hk.
  - by rewrite H23, H12.
  - by rewrite W23, W12.
Qed.

Lemma changes_within_bind {A B} (R : session → session → Prop) `{!PreOrder R}
    (m : script A) (k : A → script B) :
  changes_within R m → (∀ a, changes_within R (k a)) →
  changes_within R (m ≫= k).
Proof.
  intros Hm Hk s. simpl. specialize (Hm s).
  destruct (run m s) as [[a|sg] s']; simpl in *; [|done].
  etrans; [done | apply Hk].
Qed.

Lemma changes_within_same {A} (R : session → session → Prop) `{!Reflexive R}
    (m : script A) :
  (∀ s, (run m s).2 = s) → changes_within R m.
Proof. intros Hm s. by rewrite Hm. Qed.

Lemma run_lift_same {A} (o : outcome A) s : (run (lift o) s).2 = s.
Proof. by destruct o. Qed.

Lemma run_read_same s : (run read_usage_stats s).2 = s.
Proof.
  unfold read_usage_stats. simpl. by destruct (emotional_usage_stats s).
Qed.

Section SelectorFrame.

Variable list_of_set : string → gset string → list string.
Variable R : session → session → Prop.
Context `{!PreOrder R}.
Variable key_prefix : string.

(** [R] allows writing the selection of this selector. *)
Hypothesis R_selected : ∀ s f,
  (∀ m k, k ≠ key_prefix ++ "_selected" → f m !! k = m !! k) →
  R s (set_selected f s).

Lemma option_buttons_within u category options :
  changes_within R
    (option_buttons u category key_prefix (key_prefix ++ "_selected") options).
Proof.
  induction options as [|option options IH];
    [by apply (changes_within_same R)|].
  cbn [option_buttons].
  apply (changes_within_bind R); [| intros stats].
  { apply (changes_within_same R), run_read_same. }
  apply (changes_within_bind R); [| intros _].
  { apply (changes_within_same R), run_lift_same. }
  apply (changes_within_bind R); [| intros _].
  { apply (changes_within_same R), run_lift_same. }
  apply (changes_within_bind R); [| intros pressed].
  { apply (changes_within_same R), run_lift_same. }
  destruct pressed; [|done].
  apply (changes_within_bind R); [| intros _].
  - intros s. apply R_selected. intros m k Hk. by rewrite lookup_insert_ne.
  - by apply (changes_within_same R).
Qed.

Lemma selector_within u options category cur :
  changes_within R
    (create_interactive_bubble_selector list_of_set u options category
       key_prefix cur).
Proof.
  unfold create_interactive_bubble_selector, selected_set.
  apply (changes_within_bind R); [| intros _].
  { intros s. apply R_selected. intros m k Hk.
    destruct (m !! _); [done|]. by rewrite lookup_insert_ne. }
  apply (changes_within_bind R); [apply option_buttons_within | intros _].
  apply (changes_within_bind R); [| intros cleared].
  { apply (changes_within_same R), run_lift_same. }
  apply (changes_within_bind R); [| intros _].
  { destruct cleared; [|by apply (changes_within_same R)].
    apply (changes_within_bind R); [| intros _].
    - intros s. apply R_selected. intros m k Hk. by rewrite lookup_insert_ne.
    - by apply (changes_within_same R). }
  apply (changes_within_bind R); [| intros _].
  { destruct (negb _); [|by apply (changes_within_same R)].
    apply (changes_within_bind R); [| intros added].
    { apply (changes_within_same R), run_lift_same. }
    destruct added; [|by apply (changes_within_same R)].
    apply (changes_within_bind R); [by apply (changes_within_same R) |].
    intros S.
    apply (changes_within_bind R); [| intros _].
    { intros s. apply R_selected. intros m k Hk. by rewrite lookup_insert_ne. }
    by apply (changes_within_same R). }
  apply (changes_within_bind R); [by apply (changes_within_same R) | intros S].
  by apply (changes_within_same R).
Qed.

End SelectorFrame.

(** X1. Whatever the user clicks or types, one call of the selector changes
    nothing in the session but the selection stored under its own key
    [<key_prefix>_selected] and the value of its own text box
    [custom_<key_prefix>]: the usage counters, every other selection and
    every other widget value are as before, also when the call ends in
    [st.rerun()] or in an exception. *)
Theorem selector_changes_own_selection_only
    list_of_set u options category key_prefix cur s :
  let s' := (run (create_interactive_bubble_selector list_of_set u options
                    category key_prefix cur) s).2 in
  emotional_usage_stats s' = emotional_usage_stats s
  ∧ (∀ k, k ≠ key_prefix ++ "_selected" → selected s' !! k = selected s !! k)
  ∧ (∀ k, k ≠ "custom_" ++ key_prefix →
       widget_state s' !! k = widget_state s !! k).
Proof.
  intros s'. split.
  - apply (selector_within list_of_set same_counters key_prefix); by intros.
  - assert (same_apart_from [key_prefix ++ "_selected"]
              ["custom_" ++ key_prefix] s s') as [Hsel Hw].
    { apply (selector_within list_of_set _ key_prefix).
      intros s0 f Hf. split; [|done]. intros k Hk. simpl.
      apply Hf. by intros ->; apply Hk; left. }
    split; intros k Hk; [apply Hsel | apply Hw];
      intros Hin; apply elem_of_cons in Hin as [->|Hin]; [done | | done |];
      by apply elem_of_nil in Hin.
Qed.

(** The pieces of the form that only read or write the counters. *)
Lemma initialize_keeps_selections s :
  selected (run initialize_usage_stats s).2 = selected s
  ∧ widget_state (run initialize_usage_stats s).2 = widget_state s.
Proof. simpl. by destruct (emotional_usage_stats s). Qed.

Lemma update_usage_stats_keeps_selections category items s :
  selected (run (update_usage_stats category items) s).2 = selected s
  ∧ widget_state (run (update_usage_stats category items) s).2
    = widget_state s.
Proof.
  unfold update_usage_stats, read_usage_stats. simpl.
  destruct (emotional_usage_stats s) as [stats|]; [|done]. simpl.
  destruct (stats !! category) as [c|]; [|done].
  destruct (increment_all items c) as [o c']. simpl.
  by destruct o.
Qed.

Lemma record_if_any_keeps_selections category items s :
  selected (run (record_if_any category items) s).2 = selected s
  ∧ widget_state (run (record_if_any category items) s).2 = widget_state s.
Proof.
  destruct items as [|item items]; [done|].
  apply update_usage_stats_keeps_selections.
Qed.

Lemma show_top_keeps_session sorted_items category s :
  (run (show_top sorted_items category) s).2 = s.
Proof.
  unfold show_top, read_usage_stats. simpl.
  destruct (emotional_usage_stats s) as [stats|]; [|done]. simpl.
  destruct (stats !! category) as [c|]; [|done].
  destruct (size c =? 0)%nat; [done|]. simpl.
  by destruct (sorted_items c).
Qed.

(** Cancelling a common ending of two strings. *)
Lemma string_app_inj_r (a b c : string) : a ++ c = b ++ c → a = b.
Proof.
  revert b. induction a as [|x a IH]; intros [|y b] H.
  - done.
  - apply (f_equal String.length) in H.
    rewrite string_app_nil, string_app_cons in H. simpl in H.
    rewrite string_length_app in H. lia.
  - apply (f_equal String.length) in H.
    rewrite string_app_nil, string_app_cons in H. simpl in H.
    rewrite string_length_app in H. lia.
  - rewrite !string_app_cons in H. injection H as -> H. f_equal. by apply IH.
Qed.

Lemma string_app_inj_l (a b c : string) : a ++ b = a ++ c → b = c.
Proof.
  induction a as [|x a IH]; intros H.
  - by rewrite !string_app_nil in H.
  - rewrite !string_app_cons in H. injection H as H. by apply IH.
Qed.

Lemma string_app_not_nil_r (a b : string) : b ≠ "" → a ≠ a ++ b.
Proof.
  intros Hb H. apply (f_equal String.length) in H.
  rewrite string_length_app in H. destruct b; [done|]. simpl in H. lia.
Qed.

(** The key prefix tells the trade: an absent identifier and the empty one
    give the bare name, every other identifier its own prefix. *)
Lemma key_prefix_of_inj name t t' :
  key_prefix_of name t = key_prefix_of name t' → default "" t = default "" t'.
Proof.
  unfold key_prefix_of.
  destruct t as [x|], t' as [y|]; simpl;
    repeat match goal with
      | |- context [String.eqb ?z ""] =>
          destruct (String.eqb_spec z ""); subst
      end; intros H; try done;
    first [ apply string_app_inj_l in H; by apply (string_app_inj_l "_") in H
          | by apply string_app_not_nil_r in H
          | symmetry in H; by apply string_app_not_nil_r in H ].
Qed.

Ltac list_cases H :=
  repeat (apply elem_of_cons in H as [->|H]);
  try (by apply elem_of_nil in H).

Lemma session_key_of_inj name name' t t' :
  name ∈ form_categories.*2 → name' ∈ form_categories.*2 →
  session_key_of name t = session_key_of name' t' →
  name = name' ∧ default "" t = default "" t'.
Proof.
  unfold session_key_of. intros Hn Hn' H. apply string_app_inj_r in H.
  simpl in Hn, Hn'. list_cases Hn; list_cases Hn';
    first [ split; [reflexivity | by eapply key_prefix_of_inj]
          | exfalso; revert H; unfold key_prefix_of;
            destruct t as [x|], t' as [y|];
            repeat match goal with
              | |- context [String.eqb ?z ""] => destruct (String.eqb z "")
              end; discriminate ].
Qed.

Section FormFrame.

Variable list_of_set : string → gset string → list string.
Variable sorted_items : gmap string json → outcome (list (string * json)).

(** The session keys and the widget keys of the form of one trade. *)
Lemma form_within u trade_id existing :
  changes_within
    (same_apart_from
       ((fun name => session_key_of name trade_id) <$> form_categories.*2)
       ((fun name => "custom_" ++ key_prefix_of name trade_id)
          <$> form_categories.*2))
    (create_emotional_analysis_form list_of_set sorted_items u trade_id
       existing).
Proof.
  set (R := same_apart_from _ _).
  assert (∀ A (m : script A),
            (∀ s, selected (run m s).2 = selected s
                  ∧ widget_state (run m s).2 = widget_state s) →
            changes_within R m) as Hkeep.
  { intros A m Hm s. destruct (Hm s) as [Hs Hw]. split; intros k _.
    - by rewrite Hs.
    - by rewrite Hw. }
  assert (∀ name options category cur,
            name ∈ form_categories.*2 →
            changes_within R
              (create_interactive_bubble_selector list_of_set u options
                 category (key_prefix_of name trade_id) cur)) as Hsel.
  { intros name options category cur Hname.
    apply (selector_within list_of_set R).
    intros s f Hf. split; [|done]. intros k Hk. simpl. apply Hf.
    intros ->. apply Hk.
    by apply (list_elem_of_fmap_2
                (fun name => session_key_of name trade_id)). }
  unfold create_emotional_analysis_form.
  apply (changes_within_bind R);
    [apply Hkeep, initialize_keeps_selections | intros _].
  do 4 (apply (changes_within_bind R);
          [apply (changes_within_same R), run_lift_same | intros ?]).
  apply (changes_within_bind R); [apply Hsel; simpl; rewrite !elem_of_cons; tauto | intros ?].
  apply (changes_within_bind R); [apply Hsel; simpl; rewrite !elem_of_cons; tauto | intros ?].
  apply (changes_within_bind R); [apply Hsel; simpl; rewrite !elem_of_cons; tauto | intros ?].
  apply (changes_within_bind R); [apply Hsel; simpl; rewrite !elem_of_cons; tauto | intros ?].
  do 4 (apply (changes_within_bind R);
          [apply Hkeep, record_if_any_keeps_selections | intros _]).
  do 4 (apply (changes_within_bind R);
          [apply (changes_within_same R), show_top_keeps_session | intros _]).
  by apply (changes_within_same R).
Qed.

(** X2. The tags are kept per trade: drawing the form of one trade, with
    whatever clicks and input, leaves the selections stored for every other
    trade as they were. Two trades share their selections only when their
    identifiers are equal, an absent identifier counting as the empty
    one. *)
Theorem form_keeps_selections_of_other_trades
    u trade_id existing s name other :
  name ∈ ["emotions"; "triggers"; "mistakes"; "actions"] →
  default "" other ≠ default "" trade_id →
  selection_of
    (run (create_emotional_analysis_form list_of_set sorted_items u trade_id
            existing) s).2 name other
  = selection_of s name other.
Proof.
  intros Hname Hother. unfold selection_of.
  destruct (form_within u trade_id existing s) as [Hsel _].
  rewrite Hsel; [done|].
  intros (name' & Hkey & Hname')%list_elem_of_fmap.
  apply session_key_of_inj in Hkey as [_ Heq]; done.
Qed.

End FormFrame.

Lemma form_keeps_selections_of_other_trades_witness :
  let s := set_selected <[session_key_of "emotions" (Some "t2") := {["Greed"]}]>
             sample_session in
  selection_of
    (run (create_emotional_analysis_form sample_list_of_set
            sample_sorted_items quiet_ui (Some "t1") (Some sample_trade)) s).2
    "emotions" (Some "t2")
  = {["Greed"]}.
Proof.
  intros s.
  rewrite (form_keeps_selections_of_other_trades sample_list_of_set
             sample_sorted_items quiet_ui (Some "t1") (Some sample_trade) s
             "emotions" (Some "t2")).
  - reflexivity.
  - by left.
  - discriminate.
Defined.

(** ** A render of the form without a click *)

Lemma lookup_seeded key key' cur m :
  seeded key cur m !! key'
  = if decide (key = key') then Some (default (list_to_set cur) (m !! key))
    else m !! key'.
Proof.
  case_decide as Hk.
  - subst. apply lookup_seeded_eq.
  - by apply lookup_seeded_ne.
Qed.

Lemma int_counters_empty : int_counters empty_counters.
Proof.
  intros category m Hm item v Hv. unfold empty_counters in Hm.
  repeat (apply lookup_insert_Some in Hm as [[_ <-]|[_ Hm]]; [done|]).
  by apply lookup_singleton_Some in Hm as [_ <-].
Qed.

Lemma empty_counters_categories category :
  category ∈ form_categories.*1 → is_Some (empty_counters !! category).
Proof. simpl. intros H. list_cases H; by eexists. Qed.

Ltac in_list := simpl; rewrite !elem_of_cons; tauto.

Lemma int_counters_insert stats category m :
  int_counters stats → int_counts m → int_counters (<[category := m]> stats).
Proof.
  intros Hs Hm category' m'. rewrite lookup_insert. case_decide.
  - by intros [= <-].
  - apply Hs.
Qed.

Ltac pair_cases H :=
  repeat (apply elem_of_cons in H as [[= -> ->]|H]);
  try (by apply elem_of_nil in H).

Section FormSummary.

Variable list_of_set : string → gset string → list string.
Variable sorted_items : gmap string json → outcome (list (string * json)).
Hypothesis sorted_items_int :
  ∀ m, int_counts m → ∃ l, sorted_items m = Return l.

(** The form starts with [initialize_usage_stats()], so it runs on a session
    without counters as on the session with the empty counters. *)
Lemma run_form_initialized u trade_id existing s :
  run (create_emotional_analysis_form list_of_set sorted_items u trade_id
         existing) s
  = run (create_emotional_analysis_form list_of_set sorted_items u trade_id
           existing)
      (set_usage_stats
         (Some (default empty_counters (emotional_usage_stats s))) s).
Proof.
  unfold create_emotional_analysis_form.
  etrans; [by eapply run_bind_val|].
  symmetry. etrans; [by eapply run_bind_val|].
  destruct s as [sel [stats|] w]; reflexivity.
Qed.

(** A run of the form during which no button is pressed, on counters that
    hold integers: what it returns, which selections it stores, and which
    counts it leaves. *)
Lemma form_quiet_summary u trade_id existing s :
  let stats := default empty_counters (emotional_usage_stats s) in
  no_click u →
  int_counters stats →
  (∀ category, category ∈ form_categories.*1 → is_Some (stats !! category)) →
  (∀ field, field ∈ form_fields.*1 →
     ∃ e, existing_selection existing field = Return e) →
  ∃ ret s' stats',
    run (create_emotional_analysis_form list_of_set sorted_items u trade_id
           existing) s = (Val ret, s')
    ∧ emotional_usage_stats s' = Some stats'
    ∧ int_counters stats'
    ∧ (∀ category,
         category ∈ form_categories.*1 → is_Some (stats' !! category))
    ∧ widget_state s' = widget_state s
    ∧ ret.*1 = form_fields.*1
    ∧ (∀ field name e,
         (field, name) ∈ form_fields →
         existing_selection existing field = Return e →
         selected s' !! session_key_of name trade_id
         = Some (default (list_to_set (clean e))
                   (selected s !! session_key_of name trade_id)))
    ∧ (∀ field name,
         (field, name) ∈ form_fields →
         dict_get field ret
         = Some (JStr (join_comma_space
                         (list_of_set (session_key_of name trade_id) (selection_of s' name trade_id)))))
    ∧ (∀ category name item n,
         (category, name) ∈ form_categories →
         NoDup (list_of_set (session_key_of name trade_id) (selection_of s' name trade_id)) →
         usage_count stats category item = JInt n →
         usage_count stats' category item
         = JInt (n + (if decide (item ∈ list_of_set (session_key_of name trade_id)
                                          (selection_of s' name trade_id))
                      then 1 else 0))).
Proof.
  intros stats Hq Hint Hcat Hex.
  destruct (Hcat "emotional_states") as [m1 H1]; [in_list|].
  destruct (Hcat "triggers") as [m2 H2]; [in_list|].
  destruct (Hcat "mistakes") as [m3 H3]; [in_list|].
  destruct (Hcat "actions") as [m4 H4]; [in_list|].
  destruct (Hex "emotional_state") as [e1 He1]; [in_list|].
  destruct (Hex "triggers") as [e2 He2]; [in_list|].
  destruct (Hex "mistakes") as [e3 He3]; [in_list|].
  destruct (Hex "corrective_action") as [e4 He4]; [in_list|].
  rewrite run_form_initialized. fold stats.
  pose proof (form_quiet list_of_set sorted_items sorted_items_int u trade_id
                existing (set_usage_stats (Some stats) s) stats m1 m2 m3 m4
                e1 e2 e3 e4 Hq eq_refl Hint H1 H2 H3 H4 He1 He2 He3 He4)
    as Hrun.
  cbv zeta in Hrun. cbn [set_usage_stats selected widget_state] in Hrun.
  destruct (session_keys_distinct trade_id)
    as (K12 & K13 & K14 & K23 & K24 & K34). cbv zeta in *.
  set (k1 := session_key_of "emotions" trade_id) in *.
  set (k2 := session_key_of "triggers" trade_id) in *.
  set (k3 := session_key_of "mistakes" trade_id) in *.
  set (k4 := session_key_of "actions" trade_id) in *.
  set (sel := seeded k4 _ (seeded k3 _ (seeded k2 _ (seeded k1 _ _)))) in *.
  assert (sel !! k1
          = Some (default (list_to_set (clean e1)) (selected s !! k1))) as S1.
  { unfold sel. rewrite !lookup_seeded.
    repeat case_decide; congruence. }
  assert (sel !! k2
          = Some (default (list_to_set (clean e2)) (selected s !! k2))) as S2.
  { unfold sel. rewrite !lookup_seeded.
    repeat case_decide; congruence. }
  assert (sel !! k3
          = Some (default (list_to_set (clean e3)) (selected s !! k3))) as S3.
  { unfold sel. rewrite !lookup_seeded.
    repeat case_decide; congruence. }
  assert (sel !! k4
          = Some (default (list_to_set (clean e4)) (selected s !! k4))) as S4.
  { unfold sel. rewrite !lookup_seeded.
    repeat case_decide; congruence. }
  eexists _, _, _. split; [exact Hrun|].
  split; [reflexivity|].
  split; [repeat apply int_counters_insert; eauto using int_counts_bumped|].
  split.
  { intros category Hc. rewrite !lookup_insert_is_Some'.
    repeat right. by apply Hcat. }
  split; [reflexivity|]. split; [reflexivity|].
  unfold selection_of. cbn [selected]. fold k1 k2 k3 k4.
  split; [|split].
  - intros field name e Hin He. simpl in Hin.
    pair_cases Hin; fold k1 k2 k3 k4; congruence.
  - intros field name Hin. simpl in Hin.
    pair_cases Hin; reflexivity.
  - intros category name item n Hin Hnd Hn. simpl in Hin.
    pair_cases Hin; fold k1 k2 k3 k4 in Hnd |- *.
    + erewrite (usage_count_count_of stats) in Hn by eauto.
      injection Hn as <-.
      erewrite usage_count_count_of.
      2:{ repeat (rewrite lookup_insert_ne by done).
          by rewrite lookup_insert_eq. }
      2:{ apply int_counts_bumped. by eauto. }
      by rewrite count_of_bumped.
    + erewrite (usage_count_count_of stats) in Hn by eauto.
      injection Hn as <-.
      erewrite usage_count_count_of.
      2:{ repeat (rewrite lookup_insert_ne by done).
          by rewrite lookup_insert_eq. }
      2:{ apply int_counts_bumped. by eauto. }
      by rewrite count_of_bumped.
    + erewrite (usage_count_count_of stats) in Hn by eauto.
      injection Hn as <-.
      erewrite usage_count_count_of.
      2:{ repeat (rewrite lookup_insert_ne by done).
          by rewrite lookup_insert_eq. }
      2:{ apply int_counts_bumped. by eauto. }
      by rewrite count_of_bumped.
    + erewrite (usage_count_count_of stats) in Hn by eauto.
      injection Hn as <-.
      erewrite usage_count_count_of.
      2:{ by rewrite lookup_insert_eq. }
      2:{ apply int_counts_bumped. by eauto. }
      by rewrite count_of_bumped.
Qed.

End FormSummary.

(** The sample iteration order lists every element of the set once. *)
Lemma sample_list_of_set_elem key (S : gset string) x :
  x ∈ sample_list_of_set key S ↔ x ∈ S.
Proof.
  unfold sample_list_of_set.
  by rewrite elem_of_reverse, merge_sort_Permutation, elem_of_elements.
Qed.

Lemma sample_list_of_set_NoDup key (S : gset string) :
  NoDup (sample_list_of_set key S).
Proof.
  unfold sample_list_of_set.
  rewrite reverse_Permutation, merge_sort_Permutation. apply NoDup_elements.
Qed.

Lemma sample_sorted_items_int m :
  int_counts m → ∃ l, sample_sorted_items m = Return l.
Proof. intros _. by eexists. Qed.

Lemma int_counters_sample : int_counters sample_counters.
Proof.
  apply int_counters_insert; [apply int_counters_empty|].
  intros item v [_ <-]%lookup_singleton_Some. by eexists.
Qed.

Lemma sample_counters_categories category :
  category ∈ form_categories.*1 → is_Some (sample_counters !! category).
Proof.
  intros H. unfold sample_counters. rewrite lookup_insert_is_Some'.
  right. by apply empty_counters_categories.
Qed.

Lemma sample_trade_readable field :
  field ∈ form_fields.*1 →
  ∃ e, existing_selection (Some sample_trade) field = Return e.
Proof. simpl. intros H. list_cases H; by eexists. Qed.

Section FormFacts.

Variable list_of_set : string → gset string → list string.
Variable sorted_items : gmap string json → outcome (list (string * json)).

(** [sorted] succeeds on integer counts; [list(s)] lists every element of
    the set [s] once, in some order. *)
Hypothesis sorted_items_int :
  ∀ m, int_counts m → ∃ l, sorted_items m = Return l.
Hypothesis list_of_set_NoDup : ∀ key S, NoDup (list_of_set key S).
Hypothesis list_of_set_elem : ∀ key S x, x ∈ list_of_set key S ↔ x ∈ S.

(** X3. Every run of the form that gets as far as its end records the
    selections it shows: when no button is pressed, the run adds one to the
    count of each value that is selected for the trade, in each of the four
    categories, and leaves every other count as it was. The counters it
    leaves are integers again, so the next render of the same form counts
    the same values once more. *)
Theorem form_render_counts_selected_values u trade_id existing s :
  let stats := default empty_counters (emotional_usage_stats s) in
  no_click u →
  int_counters stats →
  (∀ category, category ∈ form_categories.*1 → is_Some (stats !! category)) →
  (∀ field, field ∈ form_fields.*1 →
     ∃ e, existing_selection existing field = Return e) →
  ∃ ret s' stats',
    run (create_emotional_analysis_form list_of_set sorted_items u trade_id
           existing) s = (Val ret, s')
    ∧ emotional_usage_stats s' = Some stats'
    ∧ int_counters stats'
    ∧ (∀ category,
         category ∈ form_categories.*1 → is_Some (stats' !! category))
    ∧ (∀ category name item n,
         (category, name) ∈ form_categories →
         usage_count stats category item = JInt n →
         usage_count stats' category item
         = JInt (if decide (item ∈ selection_of s' name trade_id)
                 then n + 1 else n)).
Proof.
  intros stats Hq Hint Hcat Hex.
  destruct (form_quiet_summary list_of_set sorted_items sorted_items_int
              u trade_id existing s Hq Hint Hcat Hex)
    as (ret & s' & stats' & Hrun & Hs' & Hint' & Hcat' & _ & _ & _ & _ & Hn).
  exists ret, s', stats'. repeat (split; [done|]).
  intros category name item n Hin Hcount.
  rewrite (Hn category name item n Hin
             (list_of_set_NoDup _ (selection_of s' name trade_id)) Hcount).
  f_equal.
  destruct (decide (item ∈ list_of_set _ _)) as [Hl|Hl];
    destruct (decide (item ∈ selection_of _ _ _)) as [HS|HS];
    try lia; exfalso.
  - by apply HS, (list_of_set_elem (session_key_of name trade_id)).
  - by apply Hl, list_of_set_elem.
Qed.

(** X4. What the form returns and where its selections come from, in a run
    without a click: the result has the four fields [emotional_state],
    [triggers], [mistakes] and [corrective_action], each the elements of the
    selection of its category joined with [", "] in the order in which the
    set is iterated. That selection is the one the session already held for
    the trade; the tags stored with the trade are read (split at [", "],
    stripped, empty pieces dropped) only when the session holds none. *)
Theorem form_returns_joined_selections u trade_id existing s :
  let stats := default empty_counters (emotional_usage_stats s) in
  no_click u →
  int_counters stats →
  (∀ category, category ∈ form_categories.*1 → is_Some (stats !! category)) →
  (∀ field, field ∈ form_fields.*1 →
     ∃ e, existing_selection existing field = Return e) →
  ∃ ret s',
    run (create_emotional_analysis_form list_of_set sorted_items u trade_id
           existing) s = (Val ret, s')
    ∧ ret.*1 = ["emotional_state"; "triggers"; "mistakes";
                "corrective_action"]
    ∧ ∀ field name,
        (field, name) ∈ form_fields →
        dict_get field ret
        = Some (JStr (join_comma_space
                        (list_of_set (session_key_of name trade_id) (selection_of s' name trade_id))))
        ∧ ∀ e, existing_selection existing field = Return e →
            selection_of s' name trade_id
            = match selected s !! session_key_of name trade_id with
              | Some held => held
              | None => list_to_set (clean e)
              end.
Proof.
  intros stats Hq Hint Hcat Hex.
  destruct (form_quiet_summary list_of_set sorted_items sorted_items_int
              u trade_id existing s Hq Hint Hcat Hex)
    as (ret & s' & stats' & Hrun & _ & _ & _ & _ & Hkeys & Hsel & Hret & _).
  exists ret, s'. split; [done|]. split; [done|].
  intros field name Hin. split; [by apply Hret|].
  intros e He. unfold selection_of. rewrite (Hsel field name e Hin He).
  simpl. by destruct (selected s !! _).
Qed.

(** X5. Tags survive the trip through the stored string as a set of
    values, not as a string. When the field of a trade holds values that
    are tidy (not empty, no white space at either end, no [", "] inside)
    and distinct, joined with [", "] in whatever order an earlier run
    listed them, the form drawn for that trade in a session that holds no
    selection for it selects exactly these values again. What it returns
    for the field is the join of the same values in the order in which this
    run lists the set: a rearrangement of the stored string, and the stored
    string itself only when this run lists the values in the stored
    order. *)
Theorem stored_tags_round_trip u trade_id d s field name l :
  let stats := default empty_counters (emotional_usage_stats s) in
  no_click u →
  int_counters stats →
  (∀ category, category ∈ form_categories.*1 → is_Some (stats !! category)) →
  (∀ field, field ∈ form_fields.*1 →
     ∃ e, existing_selection (Some d) field = Return e) →
  (field, name) ∈ form_fields →
  NoDup l →
  Forall tidy l →
  dict_get field d = Some (JStr (join_comma_space l)) →
  selected s !! session_key_of name trade_id = None →
  ∃ ret s' l',
    run (create_emotional_analysis_form list_of_set sorted_items u trade_id
           (Some d)) s = (Val ret, s')
    ∧ selection_of s' name trade_id = list_to_set l
    ∧ l' = list_of_set (session_key_of name trade_id) (list_to_set l)
    ∧ l' ≡ₚ l
    ∧ dict_get field ret = Some (JStr (join_comma_space l'))
    ∧ (join_comma_space l' = join_comma_space l ↔ l' = l).
Proof.
  intros stats Hq Hint Hcat Hex Hin Hnd Htidy Hd Hnone.
  destruct (form_quiet_summary list_of_set sorted_items sorted_items_int
              u trade_id (Some d) s Hq Hint Hcat Hex)
    as (ret & s' & stats' & Hrun & _ & _ & _ & _ & Hkeys & Hsel & Hret & _).
  destruct (existing_selection_join d field l Htidy Hd) as (e & He & Hc).
  assert (selection_of s' name trade_id = list_to_set l) as HS.
  { unfold selection_of. by rewrite (Hsel field name e Hin He), Hnone, Hc. }
  set (l' := list_of_set (session_key_of name trade_id) (list_to_set l)).
  assert (l' ≡ₚ l) as Hperm.
  { apply NoDup_Permutation; [apply list_of_set_NoDup | done |].
    intros x. unfold l'. by rewrite list_of_set_elem, elem_of_list_to_set. }
  exists ret, s', l'. split; [done|]. split; [done|]. split; [done|].
  split; [done|]. split; [by rewrite (Hret field name Hin), HS|].
  split; [|by intros ->].
  apply join_comma_space_inj; [|done]. by rewrite Hperm.
Qed.

End FormFacts.

Lemma form_render_counts_selected_values_witness :
  ∃ ret s' stats',
    run (create_emotional_analysis_form sample_list_of_set
           sample_sorted_items quiet_ui (Some "t1") (Some sample_trade))
        sample_session = (Val ret, s')
    ∧ emotional_usage_stats s' = Some stats'
    ∧ int_counters stats'
    ∧ (∀ category,
         category ∈ form_categories.*1 → is_Some (stats' !! category))
    ∧ (∀ category name item n,
         (category, name) ∈ form_categories →
         usage_count sample_counters category item = JInt n →
         usage_count stats' category item
         = JInt (if decide (item ∈ selection_of s' name (Some "t1"))
                 then n + 1 else n)).
Proof.
  apply (form_render_counts_selected_values sample_list_of_set
           sample_sorted_items sample_sorted_items_int
           sample_list_of_set_NoDup sample_list_of_set_elem
           quiet_ui (Some "t1") (Some sample_trade) sample_session).
  - intros key. reflexivity.
  - exact int_counters_sample.
  - exact sample_counters_categories.
  - exact sample_trade_readable.
Defined.

Lemma form_returns_joined_selections_witness :
  let s := set_selected
             (fun _ => {[session_key_of "emotions" (Some "t1") := {["Greed"]}]})
             sample_session in
  ∃ ret s',
    run (create_emotional_analysis_form sample_list_of_set
           sample_sorted_items quiet_ui (Some "t1") (Some sample_trade)) s
    = (Val ret, s')
    ∧ ret.*1 = ["emotional_state"; "triggers"; "mistakes";
                "corrective_action"]
    ∧ ∀ field name,
        (field, name) ∈ form_fields →
        dict_get field ret
        = Some (JStr (join_comma_space
                        (sample_list_of_set (session_key_of name (Some "t1"))
                           (selection_of s' name (Some "t1")))))
        ∧ ∀ e, existing_selection (Some sample_trade) field = Return e →
            selection_of s' name (Some "t1")
            = match selected s !! session_key_of name (Some "t1") with
              | Some held => held
              | None => list_to_set (clean e)
              end.
Proof.
  intros s.
  apply (form_returns_joined_selections sample_list_of_set
           sample_sorted_items sample_sorted_items_int
           quiet_ui (Some "t1") (Some sample_trade) s).
  - intros key. reflexivity.
  - exact int_counters_sample.
  - exact sample_counters_categories.
  - exact sample_trade_readable.
Defined.

Lemma stored_tags_round_trip_witness :
  let l := ["Fear"; "Greed"] in
  let d := [("id", JStr "t1");
            ("emotional_state", JStr (join_comma_space l))] in
  ∃ ret s' l',
    run (create_emotional_analysis_form sample_list_of_set
           sample_sorted_items quiet_ui (Some "t1") (Some d)) sample_session
    = (Val ret, s')
    ∧ selection_of s' "emotions" (Some "t1") = list_to_set l
    ∧ l' = sample_list_of_set (session_key_of "emotions" (Some "t1"))
             (list_to_set l)
    ∧ l' ≡ₚ l
    ∧ dict_get "emotional_state" ret = Some (JStr (join_comma_space l'))
    ∧ (join_comma_space l' = join_comma_space l ↔ l' = l).
Proof.
  intros l d.
  apply (stored_tags_round_trip sample_list_of_set sample_sorted_items
           sample_sorted_items_int sample_list_of_set_NoDup
           sample_list_of_set_elem
           quiet_ui (Some "t1") d sample_session "emotional_state" "emotions"
           l).
  - intros key. reflexivity.
  - exact int_counters_sample.
  - exact sample_counters_categories.
  - intros field H. simpl in H. list_cases H.
    + by eexists.
    + by eexists.
    + by eexists.
    + by eexists.
  - by left.
  - repeat constructor; rewrite ?elem_of_cons, ?elem_of_nil; intuition congruence.
  - by repeat constructor.
  - reflexivity.
  - reflexivity.
Defined.

(** ** Clicks in the selector *)

Lemma run_bind_stop {A B} (m : script A) (k : A → script B) s sg s' :
  run m s = (Stop sg, s') → run (m ≫= k) s = (Stop sg, s').
Proof. intros H. simpl. by rewrite H. Qed.

Section SelectorClicks.

Variable list_of_set : string → gset string → list string.

(** The buttons of the grid that are not pressed only read the counters. *)
Lemma option_buttons_unpressed u category key_prefix session_key options
    s stats :
  emotional_usage_stats s = Some stats →
  int_counters stats →
  (∀ o, o ∈ options → button u (key_prefix ++ "_" ++ o) = Return false) →
  run (option_buttons u category key_prefix session_key options) s
    = (Val (), s).
Proof.
  intros Hs Hint. induction options as [|o options IH]; intros Hq; [done|].
  cbn [option_buttons].
  erewrite run_bind_val by (by apply run_read_usage_stats).
  destruct (get_bubble_size_int stats category o Hint) as [r Hr].
  erewrite run_bind_val by (by eapply run_lift).
  destruct (usage_count_int stats category o Hint) as [n Hn].
  erewrite run_bind_val by (eapply run_lift; by rewrite Hn).
  rewrite Hq by left. erewrite run_bind_val by reflexivity.
  apply IH. intros o' Ho'. apply Hq. by right.
Qed.

(** The first pressed button of the grid toggles its option and ends the
    run. *)
Lemma option_buttons_pressed u category key_prefix session_key options
    option s stats :
  emotional_usage_stats s = Some stats →
  int_counters stats →
  option ∈ options →
  button u (key_prefix ++ "_" ++ option) = Return true →
  (∀ o, o ∈ options → o ≠ option →
     button u (key_prefix ++ "_" ++ o) = Return false) →
  run (option_buttons u category key_prefix session_key options) s
    = (Stop Rerun, (run (toggle session_key option) s).2).
Proof.
  intros Hs Hint Hin Hon.
  induction options as [|o options IH]; intros Hoff;
    [by apply elem_of_nil in Hin|].
  cbn [option_buttons].
  erewrite run_bind_val by (by apply run_read_usage_stats).
  destruct (get_bubble_size_int stats category o Hint) as [r Hr].
  erewrite run_bind_val by (by eapply run_lift).
  destruct (usage_count_int stats category o Hint) as [n Hn].
  erewrite run_bind_val by (eapply run_lift; by rewrite Hn).
  destruct (decide (o = option)) as [->|Hne].
  - by rewrite Hon.
  - rewrite Hoff by (done || by left).
    erewrite run_bind_val by reflexivity.
    apply elem_of_cons in Hin as [->|Hin]; [done|].
    apply IH; [done|]. intros o' Ho' Hne'. apply Hoff; [by right | done].
Qed.

Lemma selector_click u options category key_prefix cur s stats option :
  emotional_usage_stats s = Some stats →
  int_counters stats →
  option ∈ options →
  button u (key_prefix ++ "_" ++ option) = Return true →
  (∀ o, o ∈ options → o ≠ option →
     button u (key_prefix ++ "_" ++ o) = Return false) →
  let key := key_prefix ++ "_selected" in
  let before := default (list_to_set cur) (selected s !! key) in
  ∃ s',
    run (create_interactive_bubble_selector list_of_set u options category
           key_prefix cur) s = (Stop Rerun, s')
    ∧ emotional_usage_stats s' = Some stats
    ∧ selected s' !! key
      = Some (if decide (option ∈ before) then before ∖ {[option]}
              else before ∪ {[option]}).
Proof.
  intros Hs Hint Hin Hon Hoff key before.
  unfold create_interactive_bubble_selector.
  erewrite run_bind_val by reflexivity.
  fold key. fold (seeded key cur).
  change (set_selected _ s) with (set_selected (seeded key cur) s).
  erewrite (run_bind_stop (option_buttons _ _ _ _ _))
    by (by eapply option_buttons_pressed).
  eexists. split; [reflexivity|]. split; [done|].
  cbn [fst snd toggle run modify_session set_selected selected].
  rewrite lookup_insert_eq, lookup_seeded_eq. reflexivity.
Qed.

(** X6. A click on the button of an option: the selector adds the option to
    the selection of its key when it was not selected and removes it when it
    was, and ends the run with [st.rerun()], so nothing after the selector
    runs (no count is recorded in that run). A second click on the same
    button in the next run gives the first selection back. *)
Theorem option_click_toggles u options category key_prefix cur s stats option :
  emotional_usage_stats s = Some stats →
  int_counters stats →
  option ∈ options →
  button u (key_prefix ++ "_" ++ option) = Return true →
  (∀ o, o ∈ options → o ≠ option →
     button u (key_prefix ++ "_" ++ o) = Return false) →
  let key := key_prefix ++ "_selected" in
  let before := default (list_to_set cur) (selected s !! key) in
  let click := create_interactive_bubble_selector list_of_set u options
                 category key_prefix cur in
  let r := run click s in
  r.1 = Stop Rerun
  ∧ selected r.2 !! key
    = Some (if decide (option ∈ before) then before ∖ {[option]}
            else before ∪ {[option]})
  ∧ emotional_usage_stats r.2 = Some stats
  ∧ (run click r.2).1 = Stop Rerun
  ∧ selected (run click r.2).2 !! key = Some before.
Proof.
  intros Hs Hint Hin Hon Hoff key before click r.
  destruct (selector_click u options category key_prefix cur s stats option
              Hs Hint Hin Hon Hoff) as (s1 & Hr1 & Hs1 & Hsel1).
  destruct (selector_click u options category key_prefix cur s1 stats option
              Hs1 Hint Hin Hon Hoff) as (s2 & Hr2 & _ & Hsel2).
  fold key before in Hsel1. fold key in Hsel2.
  unfold r, click. rewrite Hr1. cbn [fst snd]. rewrite Hr2. cbn [fst snd].
  repeat (split; [done|]).
  rewrite Hsel2, Hsel1. cbn [default]. unfold id. f_equal.
  destruct (decide (option ∈ before)) as [Hb|Hb].
  - rewrite decide_False
      by (rewrite elem_of_difference, elem_of_singleton; tauto).
    apply set_eq. intros x. rewrite elem_of_union, elem_of_difference,
      elem_of_singleton.
    destruct (decide (x = option)) as [->|]; tauto.
  - rewrite decide_True by (by apply elem_of_union_r, elem_of_singleton).
    apply set_eq. intros x. rewrite elem_of_difference, elem_of_union,
      elem_of_singleton.
    destruct (decide (x = option)) as [->|]; tauto.
Qed.

(** X7. A click on "Clear All" (no option button being pressed): the
    selection of the key becomes the empty set and the run ends with
    [st.rerun()]; the counters are not touched. *)
Theorem clear_click_empties_selection
    u options category key_prefix cur s stats :
  emotional_usage_stats s = Some stats →
  int_counters stats →
  (∀ o, o ∈ options → button u (key_prefix ++ "_" ++ o) = Return false) →
  button u ("clear_" ++ key_prefix) = Return true →
  let r := run (create_interactive_bubble_selector list_of_set u options
                  category key_prefix cur) s in
  r.1 = Stop Rerun
  ∧ selected r.2 !! (key_prefix ++ "_selected") = Some ∅
  ∧ emotional_usage_stats r.2 = Some stats.
Proof.
  intros Hs Hint Hoff Hclear r. unfold r, create_interactive_bubble_selector.
  erewrite run_bind_val by reflexivity.
  erewrite run_bind_val by (by eapply option_buttons_unpressed).
  rewrite Hclear. simpl. by rewrite lookup_insert_eq.
Qed.

(** X8. The custom value: with a text in the box and a click on "Add" (no
    other button being pressed) the text is added to the selection as it
    was typed, and the run then stops with [StreamlitAPIException], raised
    where the script assigns the key of the text box it has drawn: the box
    is not emptied and the run does not end in [st.rerun()], but the value
    stays selected. With a text and no click, and with an empty box (the
    "Add" button is not drawn then), nothing is added and the selector
    returns the elements of the selection. *)
Theorem custom_value_is_added u options category key_prefix cur s stats :
  emotional_usage_stats s = Some stats →
  int_counters stats →
  (∀ o, o ∈ options → button u (key_prefix ++ "_" ++ o) = Return false) →
  button u ("clear_" ++ key_prefix) = Return false →
  let key := key_prefix ++ "_selected" in
  let before := default (list_to_set cur) (selected s !! key) in
  let text := text_input u ("custom_" ++ key_prefix) in
  let r := run (create_interactive_bubble_selector list_of_set u options
                  category key_prefix cur) s in
  (text ≠ "" → button u ("add_custom_" ++ key_prefix) = Return true →
     r.1 = Stop (Exc StreamlitAPIException)
     ∧ selected r.2 !! key = Some (before ∪ {[text]})
     ∧ widget_state r.2 = widget_state s
     ∧ emotional_usage_stats r.2 = Some stats)
  ∧ (text = "" ∨ button u ("add_custom_" ++ key_prefix) = Return false →
     r.1 = Val (list_of_set key before)
     ∧ selected r.2 !! key = Some before
     ∧ widget_state r.2 = widget_state s).
Proof.
  intros Hs Hint Hoff Hclear key before text r.
  unfold r, create_interactive_bubble_selector.
  erewrite run_bind_val by reflexivity.
  erewrite run_bind_val by (by eapply option_buttons_unpressed).
  rewrite Hclear.
  erewrite run_bind_val by reflexivity.
  erewrite run_bind_val by reflexivity.
  fold key text. fold (seeded key cur).
  change (set_selected _ s) with (set_selected (seeded key cur) s).
  split.
  - intros Htext Hadd. apply String.eqb_neq in Htext.
    rewrite Htext, Hadd. simpl.
    rewrite !lookup_insert_eq, lookup_seeded_eq. by cbn [default].
  - intros Hquiet.
    assert (run (if negb (text =? "")%string
                 then added ← lift (button u ("add_custom_" ++ key_prefix));
                      if added : bool
                      then cur0 ← selected_set key;
                           _ ← modify_session
                                 (set_selected <[key := cur0 ∪ {[text]}]>);
                           raise StreamlitAPIException
                      else mret ()
                 else mret ())
              (set_selected (seeded key cur) s)
            = (Val (), set_selected (seeded key cur) s)) as Hrun.
    { destruct Hquiet as [->|Hadd]; [done|].
      rewrite Hadd. by destruct (negb _). }
    erewrite run_bind_val by exact Hrun. simpl.
    rewrite lookup_seeded_eq. by cbn [default].
Qed.

End SelectorClicks.

Lemma option_click_toggles_witness :
  let key := "emotions_t1" ++ "_selected" in
  let before := default (list_to_set ["Fear"])
                  (selected sample_session !! key) in
  let click := create_interactive_bubble_selector sample_list_of_set
                 (click_ui "emotions_t1_Fear" "") EMOTIONAL_STATES
                 "emotional_states" "emotions_t1" ["Fear"] in
  let r := run click sample_session in
  r.1 = Stop Rerun
  ∧ selected r.2 !! key
    = Some (if decide ("Fear" ∈ before) then before ∖ {["Fear"]}
            else before ∪ {["Fear"]})
  ∧ emotional_usage_stats r.2 = Some sample_counters
  ∧ (run click r.2).1 = Stop Rerun
  ∧ selected (run click r.2).2 !! key = Some before.
Proof.
  apply (option_click_toggles sample_list_of_set
           (click_ui "emotions_t1_Fear" "") EMOTIONAL_STATES
           "emotional_states" "emotions_t1" ["Fear"] sample_session
           sample_counters "Fear" eq_refl int_counters_sample).
  - by left.
  - reflexivity.
  - intros o Ho Hne. unfold EMOTIONAL_STATES in Ho. list_cases Ho; done.
Defined.

Lemma clear_click_empties_selection_witness :
  let r := run (create_interactive_bubble_selector sample_list_of_set
                  (click_ui "clear_emotions_t1" "") EMOTIONAL_STATES
                  "emotional_states" "emotions_t1" ["Fear"])
             sample_session in
  r.1 = Stop Rerun
  ∧ selected r.2 !! "emotions_t1_selected" = Some ∅
  ∧ emotional_usage_stats r.2 = Some sample_counters.
Proof.
  apply (clear_click_empties_selection sample_list_of_set
           (click_ui "clear_emotions_t1" "") EMOTIONAL_STATES
           "emotional_states" "emotions_t1" ["Fear"] sample_session
           sample_counters eq_refl int_counters_sample).
  - intros o Ho. unfold EMOTIONAL_STATES in Ho. list_cases Ho; done.
  - reflexivity.
Defined.

Lemma custom_value_is_added_witness :
  let key := "emotions_t1" ++ "_selected" in
  let before := default (list_to_set ["Fear"])
                  (selected sample_session !! key) in
  let r := run (create_interactive_bubble_selector sample_list_of_set
                  (click_ui "add_custom_emotions_t1" "Boredom")
                  EMOTIONAL_STATES "emotional_states" "emotions_t1" ["Fear"])
             sample_session in
  r.1 = Stop (Exc StreamlitAPIException)
  ∧ selected r.2 !! key = Some (before ∪ {["Boredom"]})
  ∧ widget_state r.2 = widget_state sample_session
  ∧ emotional_usage_stats r.2 = Some sample_counters.
Proof.
  intros key before r.
  destruct (custom_value_is_added sample_list_of_set
              (click_ui "add_custom_emotions_t1" "Boredom")
              EMOTIONAL_STATES "emotional_states" "emotions_t1" ["Fear"]
              sample_session sample_counters eq_refl int_counters_sample)
    as [Hadd _].
  - intros o Ho. unfold EMOTIONAL_STATES in Ho. list_cases Ho; done.
  - reflexivity.
  - apply Hadd; [done | reflexivity].
Defined.

(** ** When the form records *)

Lemma never_reruns_bind {A B} (m : script A) (k : A → script B) :
  never_reruns m → (∀ a, never_reruns (k a)) → never_reruns (m ≫= k).
Proof.
  intros Hm Hk s. simpl. specialize (Hm s).
  destruct (run m s) as [[a|sg] s1]; simpl in *; [apply Hk|].
  intros [= ->]. by apply Hm.
Qed.

Lemma never_reruns_lift {A} (o : outcome A) : never_reruns (lift o).
Proof. intros s. by destruct o. Qed.

Lemma never_reruns_ret {A} (a : A) : never_reruns (mret a).
Proof. by intros s. Qed.

Lemma update_usage_stats_never_reruns category items :
  never_reruns (update_usage_stats category items).
Proof.
  intros s. unfold update_usage_stats, read_usage_stats. simpl.
  destruct (emotional_usage_stats s) as [stats|]; [|done]. simpl.
  destruct (stats !! category) as [c|]; [|done].
  destruct (increment_all items c) as [o c']. simpl.
  by destruct o.
Qed.

Lemma record_if_any_never_reruns category items :
  never_reruns (record_if_any category items).
Proof.
  destruct items as [|item items]; [apply never_reruns_ret|].
  apply update_usage_stats_never_reruns.
Qed.

Lemma show_top_never_reruns sorted_items category :
  never_reruns (show_top sorted_items category).
Proof.
  intros s. unfold show_top, read_usage_stats. simpl.
  destruct (emotional_usage_stats s) as [stats|]; [|done]. simpl.
  destruct (stats !! category) as [c|]; [|done].
  destruct (size c =? 0)%nat; [done|]. simpl.
  by destruct (sorted_items c).
Qed.

(** A piece that keeps the counters, followed by pieces that keep them when
    they end in [st.rerun()]. *)
Lemma rerun_keeps_counters_bind {A B} (m : script A) (k : A → script B) :
  changes_within same_counters m →
  (∀ a s, (run (k a) s).1 = Stop Rerun → same_counters s (run (k a) s).2) →
  ∀ s, (run (m ≫= k) s).1 = Stop Rerun → same_counters s (run (m ≫= k) s).2.
Proof.
  intros Hm Hk s. simpl. specialize (Hm s).
  destruct (run m s) as [[a|sg] s1]; simpl in *; [|done].
  intros H. specialize (Hk a s1 H). unfold same_counters in *. congruence.
Qed.

Lemma never_reruns_keeps_counters {A} (m : script A) :
  never_reruns m →
  ∀ s, (run m s).1 = Stop Rerun → same_counters s (run m s).2.
Proof. intros Hm s H. by destruct (Hm s). Qed.

Section FormCounts.

Variable list_of_set : string → gset string → list string.
Variable sorted_items : gmap string json → outcome (list (string * json)).

(** A run of the form that ends in [st.rerun()] ended in one of the
    selectors: the counters are as [initialize_usage_stats] left them. *)
Lemma form_rerun_initialized u trade_id existing s stats :
  emotional_usage_stats s = Some stats →
  (run (create_emotional_analysis_form list_of_set sorted_items u trade_id
          existing) s).1 = Stop Rerun →
  emotional_usage_stats
    (run (create_emotional_analysis_form list_of_set sorted_items u trade_id
            existing) s).2
  = Some stats.
Proof.
  intros Hs. unfold create_emotional_analysis_form.
  erewrite run_bind_val by (by eapply run_initialize).
  rewrite <- Hs. clear Hs. revert s.
  do 4 (apply rerun_keeps_counters_bind;
          [apply (changes_within_same same_counters), run_lift_same
          | intros ?]).
  do 4 (apply rerun_keeps_counters_bind;
          [apply (selector_within list_of_set same_counters); by intros
          | intros ?]).
  apply never_reruns_keeps_counters.
  do 4 (apply never_reruns_bind; [apply record_if_any_never_reruns|intros _]).
  do 4 (apply never_reruns_bind; [apply show_top_never_reruns|intros _]).
  apply never_reruns_ret.
Qed.

Lemma form_rerun_keeps_counters u trade_id existing s :
  (run (create_emotional_analysis_form list_of_set sorted_items u trade_id
          existing) s).1 = Stop Rerun →
  emotional_usage_stats
    (run (create_emotional_analysis_form list_of_set sorted_items u trade_id
            existing) s).2
  = Some (default empty_counters (emotional_usage_stats s)).
Proof.
  rewrite run_form_initialized. by apply form_rerun_initialized.
Qed.

Hypothesis sorted_items_int :
  ∀ m, int_counts m → ∃ l, sorted_items m = Return l.
Hypothesis list_of_set_NoDup : ∀ key S, NoDup (list_of_set key S).
Hypothesis list_of_set_elem : ∀ key S x, x ∈ list_of_set key S ↔ x ∈ S.

(** The counts after one render without a click, in terms of the selection
    the session holds after it. *)
Lemma form_quiet_counts u trade_id existing s :
  let stats := default empty_counters (emotional_usage_stats s) in
  no_click u →
  int_counters stats →
  (∀ category, category ∈ form_categories.*1 → is_Some (stats !! category)) →
  (∀ field, field ∈ form_fields.*1 →
     ∃ e, existing_selection existing field = Return e) →
  ∃ ret s' stats',
    run (create_emotional_analysis_form list_of_set sorted_items u trade_id
           existing) s = (Val ret, s')
    ∧ emotional_usage_stats s' = Some stats'
    ∧ int_counters stats'
    ∧ (∀ category,
         category ∈ form_categories.*1 → is_Some (stats' !! category))
    ∧ (∀ name, name ∈ form_categories.*2 →
         is_Some (selected s' !! session_key_of name trade_id))
    ∧ (∀ name held, selected s !! session_key_of name trade_id = Some held →
         name ∈ form_categories.*2 →
         selected s' !! session_key_of name trade_id = Some held)
    ∧ (∀ category name item n,
         (category, name) ∈ form_categories →
         usage_count stats category item = JInt n →
         usage_count stats' category item
         = JInt (if decide (item ∈ selection_of s' name trade_id)
                 then n + 1 else n)).
Proof.
  intros stats Hq Hint Hcat Hex.
  destruct (form_quiet_summary list_of_set sorted_items sorted_items_int
              u trade_id existing s Hq Hint Hcat Hex)
    as (ret & s' & stats' & Hrun & Hs' & Hint' & Hcat' & _ & _ & Hsel & _
        & Hn).
  assert (∀ name, name ∈ form_categories.*2 →
            ∃ field e, (field, name) ∈ form_fields
                       ∧ existing_selection existing field = Return e)
    as Hfield.
  { intros name Hname. simpl in Hname. list_cases Hname.
    - destruct (Hex "emotional_state") as [e He]; [in_list|].
      exists "emotional_state", e. split; [unfold form_fields; in_list|done].
    - destruct (Hex "triggers") as [e He]; [in_list|].
      exists "triggers", e. split; [unfold form_fields; in_list|done].
    - destruct (Hex "mistakes") as [e He]; [in_list|].
      exists "mistakes", e. split; [unfold form_fields; in_list|done].
    - destruct (Hex "corrective_action") as [e He]; [in_list|].
      exists "corrective_action", e. split; [unfold form_fields; in_list|done]. }
  exists ret, s', stats'. repeat (split; [done|]).
  split; [|split].
  - intros name Hname. destruct (Hfield name Hname) as (field & e & Hin & He).
    rewrite (Hsel field name e Hin He). by eexists.
  - intros name held Hheld Hname.
    destruct (Hfield name Hname) as (field & e & Hin & He).
    by rewrite (Hsel field name e Hin He), Hheld.
  - intros category name item n Hin Hcount.
    rewrite (Hn category name item n Hin
               (list_of_set_NoDup _ (selection_of s' name trade_id)) Hcount).
    f_equal.
    destruct (decide (item ∈ list_of_set _ _)) as [Hl|Hl];
      destruct (decide (item ∈ selection_of _ _ _)) as [HS|HS];
      try lia; exfalso.
    + by apply HS, (list_of_set_elem (session_key_of name trade_id)).
    + by apply Hl, list_of_set_elem.
Qed.

(** C1, as the code has it. A click on an option or on "Clear All" ends
    the run before any counter is touched: a run of the form that ends in
    [st.rerun()] leaves the counters as [initialize_usage_stats] left
    them. But the recording is part of the form, not of the save: every
    run that reaches the end of the form (no button pressed) adds one to
    the count of each selected value, so two renders in a row, with no
    save between them, count every selected value twice. *)
Theorem form_records_on_every_render u trade_id existing s :
  let stats := default empty_counters (emotional_usage_stats s) in
  let form := create_emotional_analysis_form list_of_set sorted_items u
                trade_id existing in
  ((run form s).1 = Stop Rerun →
     emotional_usage_stats (run form s).2 = Some stats)
  ∧ (no_click u →
     int_counters stats →
     (∀ category,
        category ∈ form_categories.*1 → is_Some (stats !! category)) →
     (∀ field, field ∈ form_fields.*1 →
        ∃ e, existing_selection existing field = Return e) →
     ∃ ret1 s1 stats1 ret2 s2 stats2,
       run form s = (Val ret1, s1)
       ∧ emotional_usage_stats s1 = Some stats1
       ∧ run form s1 = (Val ret2, s2)
       ∧ emotional_usage_stats s2 = Some stats2
       ∧ ∀ category name item n,
           (category, name) ∈ form_categories →
           usage_count stats category item = JInt n →
           usage_count stats1 category item
           = JInt (if decide (item ∈ selection_of s1 name trade_id)
                   then n + 1 else n)
           ∧ usage_count stats2 category item
             = JInt (if decide (item ∈ selection_of s1 name trade_id)
                     then n + 2 else n)).
Proof.
  intros stats form. split; [apply form_rerun_keeps_counters|].
  intros Hq Hint Hcat Hex.
  destruct (form_quiet_counts u trade_id existing s Hq Hint Hcat Hex)
    as (ret1 & s1 & stats1 & Hrun1 & Hs1 & Hint1 & Hcat1 & Hheld1 & _ & Hn1).
  assert (default empty_counters (emotional_usage_stats s1) = stats1) as Hd
    by (by rewrite Hs1).
  destruct (form_quiet_counts u trade_id existing s1 Hq)
    as (ret2 & s2 & stats2 & Hrun2 & Hs2 & _ & _ & _ & Hkeep2 & Hn2);
    [by rewrite Hd | by rewrite Hd | done |].
  rewrite Hd in Hn2.
  exists ret1, s1, stats1, ret2, s2, stats2. repeat (split; [done|]).
  intros category name item n Hin Hcount.
  pose proof (Hn1 category name item n Hin Hcount) as H1.
  split; [done|].
  assert (name ∈ form_categories.*2) as Hname
    by (by apply (list_elem_of_fmap_2 snd) in Hin).
  destruct (Hheld1 name Hname) as [held Hheld].
  assert (selection_of s2 name trade_id = selection_of s1 name trade_id)
    as Hsame.
  { unfold selection_of. by rewrite (Hkeep2 name held Hheld Hname), Hheld. }
  rewrite (Hn2 category name item _ Hin H1), Hsame. f_equal.
  destruct (decide (item ∈ selection_of s1 name trade_id)); lia.
Qed.

End FormCounts.

(** The claim of C1 fails: the page holds the selection "Fear" and counters
    without a count; one render during which nothing is clicked and
    nothing is saved leaves "Fear" counted once. *)
Lemma render_alone_changes_counters :
  let form := create_emotional_analysis_form sample_list_of_set
                sample_sorted_items quiet_ui (Some "demo_trade") None in
  ∃ ret s' stats',
    run form sample_demo_session = (Val ret, s')
    ∧ emotional_usage_stats sample_demo_session = Some empty_counters
    ∧ usage_count empty_counters "emotional_states" "Fear" = JInt 0
    ∧ emotional_usage_stats s' = Some stats'
    ∧ usage_count stats' "emotional_states" "Fear" = JInt 1.
Proof.
  intros form.
  destruct (form_quiet_counts sample_list_of_set sample_sorted_items
              sample_sorted_items_int sample_list_of_set_NoDup
              sample_list_of_set_elem quiet_ui (Some "demo_trade") None
              sample_demo_session)
    as (ret & s' & stats' & Hrun & Hs' & _ & _ & _ & Hkeep & Hn).
  - intros key. reflexivity.
  - exact int_counters_empty.
  - exact empty_counters_categories.
  - intros field _. by eexists.
  - exists ret, s', stats'. repeat (split; [done|]).
    rewrite (Hn "emotional_states" "emotions" "Fear" 0); [|by left|done].
    unfold selection_of.
    rewrite (Hkeep "emotions" {["Fear"]}); [|apply lookup_singleton_eq|in_list].
    simpl. by rewrite decide_True by (by apply elem_of_singleton).
Qed.

Lemma form_records_on_every_render_witness :
  let form := create_emotional_analysis_form sample_list_of_set
                sample_sorted_items quiet_ui (Some "demo_trade") None in
  ∃ ret1 s1 stats1 ret2 s2 stats2,
    run form sample_demo_session = (Val ret1, s1)
    ∧ emotional_usage_stats s1 = Some stats1
    ∧ run form s1 = (Val ret2, s2)
    ∧ emotional_usage_stats s2 = Some stats2
    ∧ ∀ category name item n,
        (category, name) ∈ form_categories →
        usage_count empty_counters category item = JInt n →
        usage_count stats1 category item
        = JInt (if decide (item ∈ selection_of s1 name (Some "demo_trade"))
                then n + 1 else n)
        ∧ usage_count stats2 category item
          = JInt (if decide (item ∈ selection_of s1 name (Some "demo_trade"))
                  then n + 2 else n).
Proof.
  intros form.
  destruct (form_records_on_every_render sample_list_of_set
              sample_sorted_items sample_sorted_items_int
              sample_list_of_set_NoDup sample_list_of_set_elem
              quiet_ui (Some "demo_trade") None sample_demo_session)
    as [_ Hrender].
  apply Hrender.
  - intros key. reflexivity.
  - exact int_counters_empty.
  - exact empty_counters_categories.
  - intros field _. by eexists.
Defined.

(** ** Serializing a selection and seeding from the string *)

Lemma sample_sorted_list_of_set_elem key (S : gset string) x :
  x ∈ sample_sorted_list_of_set key S ↔ x ∈ S.
Proof.
  unfold sample_sorted_list_of_set.
  by rewrite merge_sort_Permutation, elem_of_elements.
Qed.

Lemma sample_sorted_list_of_set_NoDup key (S : gset string) :
  NoDup (sample_sorted_list_of_set key S).
Proof.
  unfold sample_sorted_list_of_set.
  rewrite merge_sort_Permutation. apply NoDup_elements.
Qed.

(** A list without repetition whose only element is [x]. *)
Lemma list_of_singleton (l : list string) x :
  NoDup l → (∀ y, y ∈ l ↔ y = x) → l = [x].
Proof.
  intros Hnd Hl. destruct l as [|a [|b l]].
  - exfalso. by apply (elem_of_nil x), Hl.
  - f_equal. apply Hl. by left.
  - exfalso. apply NoDup_cons in Hnd as [Hnin _]. apply Hnin.
    assert (a = x) as -> by (apply Hl; by left).
    assert (b = x) as -> by (apply Hl; right; by left).
    by left.
Qed.

Section RoundTrip.

(** The order of the run that serializes and the order of the run that
    seeds: two runs, maybe in two processes. *)
Variable list_of_set list_of_set' : string → gset string → list string.
Variable sorted_items : gmap string json → outcome (list (string * json)).

Hypothesis sorted_items_int :
  ∀ m, int_counts m → ∃ l, sorted_items m = Return l.
Hypothesis list_of_set_NoDup : ∀ key S, NoDup (list_of_set key S).
Hypothesis list_of_set_elem : ∀ key S x, x ∈ list_of_set key S ↔ x ∈ S.
Hypothesis list_of_set'_NoDup : ∀ key S, NoDup (list_of_set' key S).
Hypothesis list_of_set'_elem : ∀ key S x, x ∈ list_of_set' key S ↔ x ∈ S.

(** C3, as the code has it. The form serializes a selection by joining its
    values with [", "] in the order in which the set is iterated in that
    run; nothing sorts them. Seeding a fresh context from that string gives
    the same set of values when every value is tidy (not empty, no white
    space at either end, no [", "] inside); the string the second run
    returns is a rearrangement of the first, in the order of the second
    run. *)
Theorem serialize_then_seed u u' trade_id existing d s s' field name S :
  let key := session_key_of name trade_id in
  no_click u →
  int_counters (default empty_counters (emotional_usage_stats s)) →
  (∀ category, category ∈ form_categories.*1 →
     is_Some (default empty_counters (emotional_usage_stats s) !! category)) →
  (∀ field, field ∈ form_fields.*1 →
     ∃ e, existing_selection existing field = Return e) →
  (field, name) ∈ form_fields →
  selected s !! key = Some S →
  (∀ x, x ∈ S → tidy x) →
  no_click u' →
  int_counters (default empty_counters (emotional_usage_stats s')) →
  (∀ category, category ∈ form_categories.*1 →
     is_Some (default empty_counters (emotional_usage_stats s') !! category)) →
  (∀ field, field ∈ form_fields.*1 →
     ∃ e, existing_selection (Some d) field = Return e) →
  selected s' !! key = None →
  dict_get field d = Some (JStr (join_comma_space (list_of_set key S))) →
  ∃ ret1 s1 ret2 s2,
    run (create_emotional_analysis_form list_of_set sorted_items u trade_id
           existing) s = (Val ret1, s1)
    ∧ dict_get field ret1
      = Some (JStr (join_comma_space (list_of_set key S)))
    ∧ run (create_emotional_analysis_form list_of_set' sorted_items u'
             trade_id (Some d)) s' = (Val ret2, s2)
    ∧ selection_of s2 name trade_id = S
    ∧ dict_get field ret2
      = Some (JStr (join_comma_space (list_of_set' key S)))
    ∧ list_of_set' key S ≡ₚ list_of_set key S.
Proof.
  intros key Hq Hint Hcat Hex Hin Hheld Htidy Hq' Hint' Hcat' Hex' Hnone Hd.
  subst key.
  destruct (form_quiet_summary list_of_set sorted_items sorted_items_int
              u trade_id existing s Hq Hint Hcat Hex)
    as (ret1 & s1 & stats1 & Hrun1 & _ & _ & _ & _ & _ & Hsel1 & Hret1 & _).
  destruct (form_quiet_summary list_of_set' sorted_items sorted_items_int
              u' trade_id (Some d) s' Hq' Hint' Hcat' Hex')
    as (ret2 & s2 & stats2 & Hrun2 & _ & _ & _ & _ & _ & Hsel2 & Hret2 & _).
  destruct (Hex field) as [e He];
    [by apply (list_elem_of_fmap_2 fst) in Hin|].
  assert (selection_of s1 name trade_id = S) as HS1.
  { unfold selection_of.
    by rewrite (Hsel1 field name e Hin He), Hheld. }
  assert (Forall tidy (list_of_set (session_key_of name trade_id) S))
    as Hall.
  { apply Forall_forall. intros x Hx. apply Htidy.
    by apply list_of_set_elem in Hx. }
  destruct (existing_selection_join d field _ Hall Hd) as (e' & He' & Hc).
  assert (selection_of s2 name trade_id = S) as HS2.
  { unfold selection_of.
    rewrite (Hsel2 field name e' Hin He'), Hnone, Hc. simpl.
    apply set_eq. intros x.
    by rewrite elem_of_list_to_set, list_of_set_elem. }
  exists ret1, s1, ret2, s2. split; [done|].
  split; [by rewrite (Hret1 field name Hin), HS1|]. split; [done|].
  split; [done|]. split; [by rewrite (Hret2 field name Hin), HS2|].
  apply NoDup_Permutation; [done..|].
  intros x. by rewrite list_of_set_elem, list_of_set'_elem.
Qed.

End RoundTrip.

Lemma sample_custom_record_readable field :
  field ∈ form_fields.*1 →
  ∃ e, existing_selection (Some sample_custom_record) field = Return e.
Proof. simpl. intros H. list_cases H; eexists; reflexivity. Qed.

(** The claim of C3 fails: the selection holds the one value
    "Tired, bored", which the custom text box accepts; the form returns
    the string "Tired, bored" for it, and a fresh context seeded from that
    string selects the two values "Tired" and "bored". *)
Lemma tag_with_separator_does_not_round_trip :
  let held : gset string := {["Tired, bored"]} in
  let writer := create_emotional_analysis_form sample_list_of_set
                  sample_sorted_items quiet_ui (Some "demo_trade") None in
  let reader := create_emotional_analysis_form sample_list_of_set
                  sample_sorted_items quiet_ui (Some "demo_trade")
                  (Some sample_custom_record) in
  ∃ ret1 s1 ret2 s2,
    run writer sample_custom_session = (Val ret1, s1)
    ∧ selection_of s1 "emotions" (Some "demo_trade") = held
    ∧ dict_get "emotional_state" ret1
      = dict_get "emotional_state" sample_custom_record
    ∧ run reader sample_fresh_session = (Val ret2, s2)
    ∧ selection_of s2 "emotions" (Some "demo_trade")
      = list_to_set ["Tired"; "bored"]
    ∧ selection_of s2 "emotions" (Some "demo_trade") ≠ held.
Proof.
  intros held writer reader.
  destruct (form_quiet_summary sample_list_of_set sample_sorted_items
              sample_sorted_items_int quiet_ui (Some "demo_trade") None
              sample_custom_session)
    as (ret1 & s1 & stats1 & Hrun1 & _ & _ & _ & _ & _ & Hsel1 & Hret1 & _).
  { intros key. reflexivity. }
  { exact int_counters_empty. }
  { exact empty_counters_categories. }
  { intros field _. by eexists. }
  destruct (form_quiet_summary sample_list_of_set sample_sorted_items
              sample_sorted_items_int quiet_ui (Some "demo_trade")
              (Some sample_custom_record) sample_fresh_session)
    as (ret2 & s2 & stats2 & Hrun2 & _ & _ & _ & _ & _ & Hsel2 & Hret2 & _).
  { intros key. reflexivity. }
  { exact int_counters_empty. }
  { exact empty_counters_categories. }
  { exact sample_custom_record_readable. }
  assert (selection_of s1 "emotions" (Some "demo_trade") = held) as HS1.
  { unfold selection_of.
    rewrite (Hsel1 "emotional_state" "emotions" [] ltac:(by left) eq_refl).
    unfold sample_custom_session. cbn [selected].
    rewrite lookup_singleton_eq. reflexivity. }
  assert (selection_of s2 "emotions" (Some "demo_trade")
          = list_to_set ["Tired"; "bored"]) as HS2.
  { unfold selection_of.
    rewrite (Hsel2 "emotional_state" "emotions" ["Tired"; "bored"]
               ltac:(by left) eq_refl).
    unfold sample_fresh_session. cbn [selected]. rewrite lookup_empty.
    cbn [default]. rewrite clean_tidy by (by repeat constructor).
    reflexivity. }
  exists ret1, s1, ret2, s2.
  split; [exact Hrun1|]. split; [exact HS1|]. split.
  { rewrite (Hret1 "emotional_state" "emotions" ltac:(by left)), HS1.
    rewrite (list_of_singleton (sample_list_of_set _ held) "Tired, bored").
    - reflexivity.
    - apply sample_list_of_set_NoDup.
    - intros y. unfold held.
      by rewrite sample_list_of_set_elem, elem_of_singleton. }
  split; [exact Hrun2|]. split; [exact HS2|].
  rewrite HS2. intros H.
  assert ("Tired" ∈ held) as Hin.
  { rewrite <- H. apply elem_of_list_to_set. by left. }
  by apply elem_of_singleton in Hin.
Qed.

Lemma serialize_then_seed_witness :
  let S : gset string := {["Fear"]} ∪ {["Greed"]} in
  let key := session_key_of "emotions" (Some "demo_trade") in
  let s := {| selected := {[key := S]};
              emotional_usage_stats := Some empty_counters;
              widget_state := ∅ |} in
  let d := [("emotional_state",
             JStr (join_comma_space (sample_list_of_set key S)))] in
  ∃ ret1 s1 ret2 s2,
    run (create_emotional_analysis_form sample_list_of_set
           sample_sorted_items quiet_ui (Some "demo_trade") None) s
    = (Val ret1, s1)
    ∧ dict_get "emotional_state" ret1
      = Some (JStr (join_comma_space (sample_list_of_set key S)))
    ∧ run (create_emotional_analysis_form sample_sorted_list_of_set
             sample_sorted_items quiet_ui (Some "demo_trade") (Some d))
        sample_fresh_session = (Val ret2, s2)
    ∧ selection_of s2 "emotions" (Some "demo_trade") = S
    ∧ dict_get "emotional_state" ret2
      = Some (JStr (join_comma_space (sample_sorted_list_of_set key S)))
    ∧ sample_sorted_list_of_set key S ≡ₚ sample_list_of_set key S.
Proof.
  intros S key s d.
  apply (serialize_then_seed sample_list_of_set sample_sorted_list_of_set
           sample_sorted_items sample_sorted_items_int
           sample_list_of_set_NoDup sample_list_of_set_elem
           sample_sorted_list_of_set_NoDup sample_sorted_list_of_set_elem
           quiet_ui quiet_ui (Some "demo_trade") None d s
           sample_fresh_session "emotional_state" "emotions" S).
  - intros k. reflexivity.
  - exact int_counters_empty.
  - exact empty_counters_categories.
  - intros field _. by eexists.
  - by left.
  - apply lookup_singleton_eq.
  - intros x [->%elem_of_singleton | ->%elem_of_singleton]%elem_of_union;
      by repeat split.
  - intros k. reflexivity.
  - exact int_counters_empty.
  - exact empty_counters_categories.
  - intros field H. simpl in H. list_cases H.
    + unfold existing_selection, d. cbn [truthy dict_get]. simpl.
      destruct (negb _); by eexists.
    + by eexists.
    + by eexists.
    + by eexists.
  - reflexivity.
  - reflexivity.
Defined.

(** ** Recording selections *)

Lemma count_of_insert m x n item :
  count_of (<[x := JInt n]> m) item
  = if decide (x = item) then n else count_of m item.
Proof.
  unfold count_of. rewrite lookup_insert.
  by destruct (decide (x = item)).
Qed.

Lemma count_of_bumped_occurrences items m item :
  count_of (bumped items m) item = count_of m item + occurrences item items.
Proof.
  unfold bumped, occurrences. revert m.
  induction items as [|x items IH]; intros m; [simpl; lia|].
  cbn [foldl]. rewrite IH, count_of_insert.
  destruct (decide (x = item)) as [->|Hne].
  - rewrite filter_cons_True by done. simpl length. lia.
  - by rewrite filter_cons_False by done.
Qed.

(** X9. [update_usage_stats] on integer counters adds to the count of every
    item the number of times the item occurs in the list it is given (a
    value listed twice is counted twice), leaves the other categories as
    they are, and does nothing at all for a category the counters do not
    have. *)
Theorem update_usage_stats_counts_occurrences category items s stats :
  emotional_usage_stats s = Some stats →
  let r := run (update_usage_stats category items) s in
  (stats !! category = None → r = (Val (), s))
  ∧ (∀ m, stats !! category = Some m → int_counts m →
       r.1 = Val ()
       ∧ ∃ stats',
           emotional_usage_stats r.2 = Some stats'
           ∧ (∀ item,
                usage_count stats' category item
                = JInt (count_of m item + occurrences item items))
           ∧ (∀ other, other ≠ category → stats' !! other = stats !! other)).
Proof.
  intros Hs r. split.
  - intros Hc. unfold r, update_usage_stats.
    erewrite run_bind_val by (by apply run_read_usage_stats).
    by rewrite Hc.
  - intros m Hc Hm. unfold r.
    rewrite (update_usage_stats_int category items s stats m Hs Hc Hm).
    split; [done|]. eexists. split; [reflexivity|]. split.
    + intros item.
      erewrite usage_count_count_of;
        [| by rewrite lookup_insert_eq | by apply int_counts_bumped].
      by rewrite count_of_bumped_occurrences.
    + intros other Hne. by rewrite lookup_insert_ne.
Qed.

Lemma update_usage_stats_counts_occurrences_witness :
  let r := run (update_usage_stats "emotional_states" ["Fear"; "Hope"; "Fear"])
             sample_session in
  (sample_counters !! "emotional_states" = None → r = (Val (), sample_session))
  ∧ (∀ m, sample_counters !! "emotional_states" = Some m → int_counts m →
       r.1 = Val ()
       ∧ ∃ stats',
           emotional_usage_stats r.2 = Some stats'
           ∧ (∀ item,
                usage_count stats' "emotional_states" item
                = JInt (count_of m item
                        + occurrences item ["Fear"; "Hope"; "Fear"]))
           ∧ (∀ other, other ≠ "emotional_states" →
                stats' !! other = sample_counters !! other)).
Proof.
  apply (update_usage_stats_counts_occurrences "emotional_states"
           ["Fear"; "Hope"; "Fear"] sample_session sample_counters).
  reflexivity.
Defined.

(** ** Counts that are no numbers *)

Lemma lookup_dict_to_map k kvs : dict_to_map kvs !! k = dict_get k kvs.
Proof.
  unfold dict_to_map. induction kvs as [|[k' v] kvs IH]; [done|].
  simpl. rewrite lookup_insert. by destruct (decide (k' = k)).
Qed.

Lemma get_bubble_size_not_a_number stats category item m v :
  stats !! category = Some m → m !! item = Some v → not_a_number v →
  get_bubble_size stats category item = Raise TypeError.
Proof.
  intros Hc Hi Hv. unfold get_bubble_size, usage_count.
  rewrite Hc. simpl. rewrite Hi. simpl. by destruct v.
Qed.

Section LoadedCounts.

Variable json_loads : string → option json.
Variable dict_of_pairs : list json → outcome (gmap string json).
Variable list_of_set : string → gset string → list string.
Variable sorted_items : gmap string json → outcome (list (string * json)).

(** The form stops with [TypeError] at its first bubble when the count of
    "Fear", the first emotional state, is no number. *)
Lemma form_raises_on_count u trade_id existing s stats m v :
  emotional_usage_stats s = Some stats →
  stats !! "emotional_states" = Some m →
  m !! "Fear" = Some v →
  not_a_number v →
  (∀ field, field ∈ form_fields.*1 →
     ∃ e, existing_selection existing field = Return e) →
  (run (create_emotional_analysis_form list_of_set sorted_items u trade_id
          existing) s).1 = Stop (Exc TypeError).
Proof.
  intros Hs Hc Hi Hv Hex.
  destruct (Hex "emotional_state") as [e1 He1]; [in_list|].
  destruct (Hex "triggers") as [e2 He2]; [in_list|].
  destruct (Hex "mistakes") as [e3 He3]; [in_list|].
  destruct (Hex "corrective_action") as [e4 He4]; [in_list|].
  unfold create_emotional_analysis_form.
  erewrite run_bind_val by (by eapply run_initialize).
  do 4 (erewrite run_bind_val by (by eapply run_lift)).
  erewrite run_bind_stop; [reflexivity|].
  unfold create_interactive_bubble_selector.
  erewrite run_bind_val by reflexivity.
  erewrite run_bind_stop; [reflexivity|].
  unfold EMOTIONAL_STATES. cbn [option_buttons].
  erewrite run_bind_val by (by apply run_read_usage_stats).
  erewrite run_bind_stop; [reflexivity|].
  by erewrite get_bubble_size_not_a_number.
Qed.

(** X10. The statistics file is not validated: a file whose object gives
    "Fear" a count that is no number (a string, [null], a list, an object)
    loads with [True], and from then on every run of the form stops with
    [TypeError] at the first bubble, whatever the user does. *)
Theorem loaded_counts_are_not_validated d s stats text kvs counts v :
  emotional_usage_stats s = Some stats →
  files d !! "emotional_stats.json" = Some text →
  json_loads text = Some (JDict kvs) →
  NoDup kvs.*1 →
  Forall (fun kv => is_object kv.2) kvs →
  dict_get "emotional_states" kvs = Some (JDict counts) →
  dict_get "Fear" counts = Some v →
  not_a_number v →
  ∃ s',
    run (load_emotional_stats json_loads dict_of_pairs d) s = (Val true, s')
    ∧ ∀ u trade_id existing,
        (∀ field, field ∈ form_fields.*1 →
           ∃ e, existing_selection existing field = Return e) →
        (run (create_emotional_analysis_form list_of_set sorted_items u
                trade_id existing) s').1 = Stop (Exc TypeError).
Proof.
  intros Hs Hf Hp Hnd Hall Hcat Hfear Hv.
  unfold load_emotional_stats, try_except. simpl. rewrite Hf. simpl.
  rewrite Hp. simpl.
  rewrite (store_categories_objects _ _ _ stats) by done. simpl.
  eexists. split; [reflexivity|].
  intros u trade_id existing Hex.
  eapply form_raises_on_count; [reflexivity | | | done | done].
  - rewrite lookup_stored_categories by done. by rewrite Hcat.
  - simpl. by rewrite lookup_dict_to_map.
Qed.

End LoadedCounts.

Lemma loaded_counts_are_not_validated_witness :
  let d := disk_of [("emotional_stats.json", sample_bad_stats_text)] in
  ∃ s',
    run (load_emotional_stats sample_bad_stats_loads sample_dict_of_pairs d)
      sample_session = (Val true, s')
    ∧ ∀ u trade_id existing,
        (∀ field, field ∈ form_fields.*1 →
           ∃ e, existing_selection existing field = Return e) →
        (run (create_emotional_analysis_form sample_list_of_set
                sample_sorted_items u trade_id existing) s').1
        = Stop (Exc TypeError).
Proof.
  intros d.
  apply (loaded_counts_are_not_validated sample_bad_stats_loads
           sample_dict_of_pairs sample_list_of_set sample_sorted_items
           d sample_session sample_counters sample_bad_stats_text
           [("emotional_states", JDict [("Fear", JStr "often")])]
           [("Fear", JStr "often")] (JStr "often")).
  - reflexivity.
  - reflexivity.
  - reflexivity.
  - apply NoDup_singleton.
  - by repeat constructor.
  - reflexivity.
  - reflexivity.
  - exact I.
Defined.

(** ** The manual trade form *)

Section ManualFormFacts.

Variable list_of_set : string → gset string → list string.
Variable sorted_items : gmap string json → outcome (list (string * json)).





End ManualFormFacts.


(** ** The Hyperliquid client and the signature check *)

Lemma prefix_spec (a b : string) :
  String.prefix a b = true ↔ ∃ rest, b = a ++ rest.
Proof.
  revert b. induction a as [|c a IH]; intros b.
  - destruct b; simpl; (split; [by eexists|done]).
  - destruct b as [|c' b]; simpl.
    + split; [done|]. by intros [rest ?].
    + destruct (Ascii.ascii_dec c c') as [->|Hne].
      * rewrite IH. split; intros [rest H]; exists rest; [by rewrite H|].
        by injection H.
      * split; [done|]. intros [rest H]. injection H as ??. by subst.
Qed.

Lemma contains_spec (needle hay : string) :
  contains needle hay = true ↔ occurs_in needle hay.
Proof.
  unfold occurs_in. induction hay as [|c hay IH].
  - change (contains needle "") with (String.prefix needle "" || false).
    rewrite orb_false_r, prefix_spec. split.
    + intros [rest H]. by exists "", rest.
    + intros [[|??] [after H]]; [by exists after|done].
  - change (contains needle (String c hay))
      with (String.prefix needle (String c hay) || contains needle hay).
    rewrite orb_true_iff, prefix_spec, IH. split.
    + intros [[rest H]|(before & after & H)].
      * by exists "", rest.
      * exists (String c before), after. simpl. by rewrite H.
    + intros [[|c' before] [after H]].
      * left. by exists after.
      * right. exists before, after. simpl in H. by injection H.
Qed.

Lemma contains_false (needle hay : string) :
  contains needle hay = false ↔ ¬ occurs_in needle hay.
Proof. rewrite <- contains_spec. by destruct (contains needle hay). Qed.

Section ClientFacts.

Variable Info : client unit.
Variable user_fills : json → client (list json).
Variable user_state : json → client json.

(** X11. [fetch_trade_data] returns the fills and the account state exactly
    when the client could be set up and both requests were answered. In
    every other case it raises [ValueError] and nothing else; the text is
    chosen from the message of the first call that failed: "Invalid
    address" in it, spelled so, comes first, then "rate limit" and then
    "timeout", both in any mix of capitals, and any other message is passed
    on behind "Failed to fetch data from Hyperliquid: ". *)
Theorem fetch_trade_data_raises_value_error_only wallet_address :
  let r := fetch_trade_data Info user_fills user_state wallet_address in
  (∀ fills state,
     r = Return (fills, state)
     ↔ Info = Answer () ∧ user_fills wallet_address = Answer fills
       ∧ user_state wallet_address = Answer state)
  ∧ (∀ e, r = Raise e →
       ∃ error_msg,
         (Info = Failure error_msg
          ∨ Info = Answer () ∧ user_fills wallet_address = Failure error_msg
          ∨ Info = Answer ()
            ∧ (∃ fills, user_fills wallet_address = Answer fills)
            ∧ user_state wallet_address = Failure error_msg)
         ∧ (occurs_in "Invalid address" error_msg
            ∧ e = ValueError
                    "Invalid wallet address format. Please check your address."
            ∨ ¬ occurs_in "Invalid address" error_msg
              ∧ (occurs_in "rate limit" (lower error_msg)
                 ∧ e = ValueError
                         "Rate limited by Hyperliquid API. Please wait a moment and try again."
                 ∨ ¬ occurs_in "rate limit" (lower error_msg)
                   ∧ (occurs_in "timeout" (lower error_msg)
                      ∧ e = ValueError
                              "Connection timeout. Please check your internet connection and try again."
                      ∨ ¬ occurs_in "timeout" (lower error_msg)
                        ∧ e = ValueError
                                ("Failed to fetch data from Hyperliquid: "
                                 ++ error_msg))))).
Proof.
  intros r. subst r. unfold fetch_trade_data, fetch_calls. split.
  - intros fills state.
    destruct Info as [[]|msg].
    + destruct (user_fills wallet_address) as [fills'|msg].
      * destruct (user_state wallet_address) as [state'|msg].
        -- split; [by intros [= -> ->]|by intros (_ & [= ->] & [= ->])].
        -- split; [|by intros (_ & _ & ?)].
           intros H. exfalso. revert H. by repeat case_match.
      * split; [|by intros (_ & ? & _)].
        intros H. exfalso. revert H. by repeat case_match.
    + split; [|by intros (? & _)].
      intros H. exfalso. revert H. by repeat case_match.
  - intros e He.
    assert (∀ msg,
      (if contains "Invalid address" msg
       then Raise (ValueError
              "Invalid wallet address format. Please check your address.")
       else if contains "rate limit" (lower msg)
       then Raise (ValueError
              "Rate limited by Hyperliquid API. Please wait a moment and try again.")
       else if contains "timeout" (lower msg)
       then Raise (ValueError
              "Connection timeout. Please check your internet connection and try again.")
       else Raise (ValueError ("Failed to fetch data from Hyperliquid: " ++ msg)))
      = (Raise e : outcome (list json * json)) →
      occurs_in "Invalid address" msg
      ∧ e = ValueError
              "Invalid wallet address format. Please check your address."
      ∨ ¬ occurs_in "Invalid address" msg
        ∧ (occurs_in "rate limit" (lower msg)
           ∧ e = ValueError
                   "Rate limited by Hyperliquid API. Please wait a moment and try again."
           ∨ ¬ occurs_in "rate limit" (lower msg)
             ∧ (occurs_in "timeout" (lower msg)
                ∧ e = ValueError
                        "Connection timeout. Please check your internet connection and try again."
                ∨ ¬ occurs_in "timeout" (lower msg)
                  ∧ e = ValueError
                          ("Failed to fetch data from Hyperliquid: " ++ msg))))
      as Hclass.
    { intros msg.
      destruct (contains "Invalid address" msg) eqn:H1.
      { intros [= <-]. left. by rewrite <- contains_spec. }
      apply contains_false in H1.
      destruct (contains "rate limit" (lower msg)) eqn:H2.
      { intros [= <-]. right. split; [done|]. left.
        by rewrite <- contains_spec. }
      apply contains_false in H2.
      destruct (contains "timeout" (lower msg)) eqn:H3.
      { intros [= <-]. right. split; [done|]. right. split; [done|]. left.
        by rewrite <- contains_spec. }
      apply contains_false in H3.
      intros [= <-]. right. split; [done|]. right. split; [done|].
      by right. }
    destruct Info as [[]|msg].
    + destruct (user_fills wallet_address) as [fills'|msg].
      * destruct (user_state wallet_address) as [state'|msg]; [done|].
        exists msg. split; [|by apply Hclass].
        right. right. split; [done|]. split; [by exists fills'|done].
      * exists msg. split; [|by apply Hclass]. right. left. done.
    + exists msg. split; [|by apply Hclass]. by left.
Qed.

End ClientFacts.

Lemma truthy_long_string s : (0 < String.length s)%nat → truthy (JStr s) = true.
Proof. by destruct s; simpl; [lia|]. Qed.

(** X12. [verify_wallet_ownership] looks at the form of the signature only:
    it answers [True] exactly when the address and the message are truthy
    and the signature is a string that starts with "0x" and has at least
    130 characters, and [False] in every other case, without raising. The
    signature is never compared with the address or with the message: two
    calls with the same signature and any truthy addresses and messages
    give the same answer. *)
Theorem verify_wallet_ownership_checks_form_only
    wallet_address signature message :
  (verify_wallet_ownership wallet_address signature message = true
   ↔ truthy wallet_address = true ∧ truthy message = true
     ∧ ∃ rest, signature = JStr ("0x" ++ rest)
               ∧ (128 ≤ String.length rest)%nat)
  ∧ (∀ other_address other_message,
       truthy other_address = truthy wallet_address →
       truthy other_message = truthy message →
       verify_wallet_ownership other_address signature other_message
       = verify_wallet_ownership wallet_address signature message).
Proof.
  split.
  - unfold verify_wallet_ownership, verify_checks.
    destruct (truthy wallet_address) eqn:Ha; simpl;
      [|split; [done|by intros [? _]]].
    destruct (truthy signature) eqn:Hs; simpl.
    + destruct (truthy message) eqn:Hm; simpl;
        [|split; [done|by intros (_ & ? & _)]].
      destruct signature as [| | | |s| |]; simpl;
        try (split; [done|by intros (_ & _ & ? & ? & _)]).
      destruct (String.prefix "0x" s) eqn:Hp; simpl.
      * apply prefix_spec in Hp as [rest ->].
        change (String.length ("0x" ++ rest))
          with (S (S (String.length rest))).
        destruct (Nat.ltb_spec (S (S (String.length rest))) 130) as [Hl|Hl].
        -- split; [done|]. intros (_ & _ & rest' & [= Heq] & ?).
           change (rest = rest') in Heq. subst rest'. lia.
        -- split; [|done]. intros _. split; [done|]. split; [done|].
           exists rest. split; [done|lia].
      * split; [done|]. intros (_ & _ & rest & [= ->] & _).
        assert (String.prefix "0x" ("0x" ++ rest) = true) as Hp'
          by (apply prefix_spec; by exists rest).
        congruence.
    + split; [done|]. intros (_ & _ & rest & -> & Hl). simpl in Hs. done.
  - intros other_address other_message Ha Hm.
    unfold verify_wallet_ownership, verify_checks. by rewrite Ha, Hm.
Qed.

(** ** The wallet *)

Lemma is_hex_digit_spec c : is_hex_digit c = bool_decide (c ∈ hex_digits).
Proof. by destruct c as [[] [] [] [] [] [] [] []]; vm_compute. Qed.

Lemma lower_char_idem c : lower_char (lower_char c) = lower_char c.
Proof. by destruct c as [[] [] [] [] [] [] [] []]; vm_compute. Qed.

Lemma lower_char_hex c :
  is_hex_digit c = true → is_hex_digit (lower_char c) = true.
Proof. by destruct c as [[] [] [] [] [] [] [] []]; vm_compute. Qed.

Lemma lower_idem s : lower (lower s) = lower s.
Proof. induction s as [|c s IH]; simpl; [done|]. by rewrite lower_char_idem, IH. Qed.

Lemma length_lower s : String.length (lower s) = String.length s.
Proof. induction s as [|c s IH]; simpl; [done|]. by rewrite IH. Qed.

Lemma all_chars_lower s :
  all_chars is_hex_digit s = true → all_chars is_hex_digit (lower s) = true.
Proof.
  induction s as [|c s IH]; simpl; [done|].
  rewrite !andb_true_iff. intros [Hc Hs]. split; [by apply lower_char_hex|auto].
Qed.

Lemma all_chars_spec p s :
  all_chars p s = true ↔ Forall (fun c => p c = true) (list_ascii_of_string s).
Proof.
  induction s as [|c s IH]; simpl.
  - split; [constructor|done].
  - rewrite andb_true_iff, Forall_cons, IH. done.
Qed.

Lemma string_app_cons2 (a b : ascii) (rest : string) :
  String a (String b "") ++ rest = String a (String b rest).
Proof. reflexivity. Qed.

Lemma valid_digits digits :
  String.length digits = 40%nat →
  all_chars is_hex_digit digits = true →
  is_valid_ethereum_address digits = true
  ∧ is_valid_ethereum_address ("0x" ++ digits) = true.
Proof.
  intros Hlen Hall. unfold is_valid_ethereum_address. split.
  - assert (truthy (JStr digits) = true) as ->
      by (apply truthy_long_string; lia).
    simpl negb. cbv iota.
    destruct (String.prefix "0x" digits) eqn:Hp.
    + apply prefix_spec in Hp as [rest ->].
      rewrite string_app_cons2 in Hall. cbn [all_chars] in Hall.
      apply andb_true_iff in Hall as [_ Hall].
      apply andb_true_iff in Hall as [Hx _]. by vm_compute in Hx.
    + by rewrite Hlen, Hall.
  - assert (truthy (JStr ("0x" ++ digits)) = true) as ->
      by (apply truthy_long_string; rewrite string_app_cons2; simpl; lia).
    simpl negb. cbv iota.
    assert (String.prefix "0x" ("0x" ++ digits) = true) as ->
      by (apply prefix_spec; by exists digits).
    change (slice_from 2 ("0x" ++ digits)) with digits.
    by rewrite Hlen, Hall.
Qed.

Lemma valid_inv address :
  is_valid_ethereum_address address = true →
  ∃ digits, (address = digits ∨ address = "0x" ++ digits)
            ∧ String.length digits = 40%nat
            ∧ all_chars is_hex_digit digits = true.
Proof.
  unfold is_valid_ethereum_address.
  destruct (negb (truthy (JStr address))); [done|].
  destruct (String.prefix "0x" address) eqn:Hp.
  - apply prefix_spec in Hp as [rest ->].
    change (slice_from 2 ("0x" ++ rest)) with rest.
    rewrite andb_true_iff, Nat.eqb_eq. intros [Hlen Hall].
    exists rest. auto.
  - rewrite andb_true_iff, Nat.eqb_eq. intros [Hlen Hall].
    exists address. auto.
Qed.

Lemma lower_valid address :
  is_valid_ethereum_address address = true →
  is_valid_ethereum_address (lower address) = true.
Proof.
  intros (digits & Hd & Hlen & Hall)%valid_inv.
  destruct (valid_digits (lower digits)) as [H1 H2].
  - by rewrite length_lower.
  - by apply all_chars_lower.
  - destruct Hd as [->| ->]; [done|].
    by rewrite string_app_cons2 in *.
Qed.

(** X13. [is_valid_ethereum_address] accepts exactly the strings made of
    forty characters of ['0123456789abcdefABCDEF'], with or without "0x" in
    front. The prefix is optional and is recognised in small letters only:
    no string that starts with "0X" is accepted. *)
Theorem is_valid_ethereum_address_spec address :
  (is_valid_ethereum_address address = true
   ↔ ∃ digits, (address = digits ∨ address = "0x" ++ digits)
               ∧ String.length digits = 40%nat
               ∧ Forall (fun c => c ∈ hex_digits)
                   (list_ascii_of_string digits))
  ∧ (∀ rest, address = "0X" ++ rest →
       is_valid_ethereum_address address = false).
Proof.
  assert (∀ digits,
    all_chars is_hex_digit digits = true
    ↔ Forall (fun c => c ∈ hex_digits) (list_ascii_of_string digits)) as Hhex.
  { intros digits. rewrite all_chars_spec. apply Forall_proper; [|done].
    intros c. by rewrite is_hex_digit_spec, bool_decide_eq_true. }
  split.
  - split.
    + intros (digits & Hd & Hlen & Hall)%valid_inv.
      exists digits. by rewrite <- Hhex.
    + intros (digits & Hd & Hlen & Hall). apply Hhex in Hall.
      destruct (valid_digits digits Hlen Hall) as [H1 H2].
      by destruct Hd as [->| ->].
  - intros rest ->.
    destruct (is_valid_ethereum_address ("0X" ++ rest)) eqn:Hv; [|done].
    apply valid_inv in Hv as (digits & Hd & Hlen & Hall).
    destruct Hd as [<-|Hd]; [|by rewrite !string_app_cons2 in Hd].
    rewrite string_app_cons2 in Hall. cbn [all_chars] in Hall.
    apply andb_true_iff in Hall as [_ Hall].
    apply andb_true_iff in Hall as [Hx _]. by vm_compute in Hx.
Qed.

(** X14. [Connect Wallet] with a text that [is_valid_ethereum_address]
    rejects changes nothing and does not rerun. With a text it accepts, the
    run ends in [st.rerun()] with the wallet verified and the address
    stored in small letters; the stored address is accepted in its turn,
    and connecting again with it, or with the text as typed, gives the same
    state. The trades and the account state of the session are kept as they
    are, also when they were fetched for another address. *)
Theorem connect_wallet_stores_valid_address wallet_input st :
  let r := connect_wallet wallet_input st in
  (is_valid_ethereum_address wallet_input = false → r = (false, st))
  ∧ (is_valid_ethereum_address wallet_input = true →
       r.1 = true
       ∧ wallet_verified r.2 = true
       ∧ wallet_address r.2 = JStr (lower wallet_input)
       ∧ is_valid_ethereum_address (lower wallet_input) = true
       ∧ connect_wallet (lower wallet_input) r.2 = (true, r.2)
       ∧ connect_wallet wallet_input r.2 = (true, r.2)
       ∧ trades r.2 = trades st
       ∧ manual_trades r.2 = manual_trades st
       ∧ user_state r.2 = user_state st).
Proof.
  intros r. subst r. unfold connect_wallet. split.
  - by intros ->.
  - intros Hv. rewrite Hv. cbn [fst snd].
    rewrite (lower_valid _ Hv), lower_idem.
    by repeat split.
Qed.

Section WalletFacts.

Variable hash_str : list (string * json) → string.
Variable py_float : json → outcome float.
Variable format_ms : json → outcome string.


End WalletFacts.


(** ** The fetch against the client, and the edit of a trade *)

Section FetchClient.

Variable hash_str : list (string * json) → string.
Variable py_float : json → outcome float.
Variable format_ms : json → outcome string.
Variable Info : client unit.
Variable info_user_fills : json → client (list json).
Variable info_user_state : json → client json.

Lemma fetch_trade_data_returns address fills state :
  fetch_trade_data Info info_user_fills info_user_state address
    = Return (fills, state)
  ↔ Info = Answer () ∧ info_user_fills address = Answer fills
    ∧ info_user_state address = Answer state.
Proof.
  unfold fetch_trade_data, fetch_calls.
  destruct Info as [[]|msg].
  - destruct (info_user_fills address) as [fills'|msg].
    + destruct (info_user_state address) as [state'|msg].
      * split; [by intros [= -> ->]|by intros (_ & [= ->] & [= ->])].
      * split; [|by intros (_ & _ & ?)].
        intros H. exfalso. revert H. by repeat case_match.
    + split; [|by intros (_ & ? & _)].
      intros H. exfalso. revert H. by repeat case_match.
  - split; [|by intros (? & _)].
    intros H. exfalso. revert H. by repeat case_match.
Qed.

(** X16. [Fetch Latest Trades] is all or nothing. The run ends in
    [st.rerun()] exactly when the wallet is verified, the client could be
    set up, both requests were answered and each of the first ten fills
    could be formatted. In every other case (no wallet, a failing call, one
    fill among the first ten that cannot be formatted) the session is left
    exactly as it was: the trades fetched before stay, and the answer to
    the request for the account state is dropped with the fills. *)
Theorem fetch_latest_trades_all_or_nothing st :
  let r := fetch_latest_trades hash_str py_float format_ms
             (fetch_trade_data Info info_user_fills info_user_state) st in
  (r.1 = false → r.2 = st)
  ∧ (r.1 = true
     ↔ wallet_verified st = true
       ∧ Info = Answer ()
       ∧ ∃ fills state formatted,
           info_user_fills (wallet_address st) = Answer fills
           ∧ info_user_state (wallet_address st) = Answer state
           ∧ format_all hash_str py_float format_ms (take 10 fills)
             = Return formatted
           ∧ trades r.2 = formatted
           ∧ user_state r.2 = state).
Proof.
  intros r. subst r. unfold fetch_latest_trades.
  destruct (wallet_verified st) eqn:Hv; cbn [negb];
    [|split; [done|split; [done|by intros [? _]]]].
  destruct (fetch_trade_data Info info_user_fills info_user_state
              (wallet_address st)) as [[fills state]|e] eqn:Hfetch.
  - apply fetch_trade_data_returns in Hfetch as (HI & Hfills & Hstate).
    destruct (format_all _ _ _ (take 10 fills)) as [formatted|e] eqn:Hf.
    + split; [done|]. split; [|done]. intros _.
      split; [done|]. split; [done|]. by exists fills, state, formatted.
    + split; [done|]. split; [done|].
      intros (_ & _ & fills' & state' & formatted & Hfills' & _ & Hf' & _).
      rewrite Hfills in Hfills'. injection Hfills' as <-.
      by rewrite Hf in Hf'.
  - split; [done|]. split; [done|].
    intros (_ & HI & fills & state & formatted & Hfills & Hstate & _).
    assert (fetch_trade_data Info info_user_fills info_user_state
              (wallet_address st) = Return (fills, state)) as Hr
      by (by apply fetch_trade_data_returns).
    by rewrite Hfetch in Hr.
Qed.

End FetchClient.

(** ** The journal file: writing and reading back *)

Section JournalRoundTrip.

Variable json_loads : string → option json.
Variable json_dumps : nat → bool → json → string.

Lemma save_journal_data_disk filename data d :
  let d' := (exec (save_journal_data json_dumps filename data) d).2 in
  write_denied d' = write_denied d
  ∧ (filename ∉ write_denied d →
       files d' !! filename = Some (json_dumps 4 true data))
  ∧ (∀ path, path ≠ filename → path ≠ filename ++ ".backup" →
       files d' !! path = files d !! path)
  ∧ (∀ path, is_Some (files d !! path) → is_Some (files d' !! path)).
Proof.
  pose proof (backup_name_fresh filename) as Hfresh.
  unfold save_journal_data, io_try, copy2, path_exists, read_file,
    write_file. simpl.
  destruct (files d !! filename) as [old|] eqn:Hf; simpl; rewrite ?Hf; simpl.
  - destruct (decide (filename ++ ".backup" ∈ write_denied d)) as [Hb|Hb];
      simpl;
      (destruct (decide (filename ∈ write_denied d)) as [Hw|Hw]; simpl;
       (split; [done|]); (split; [intros; by rewrite ?lookup_insert_eq|]);
       (split; [intros path ??; by rewrite ?lookup_insert_ne by done|]);
       intros path Hp; rewrite ?lookup_insert_is_Some'; tauto).
  - destruct (decide (filename ∈ write_denied d)) as [Hw|Hw]; simpl;
      (split; [done|]); (split; [intros; by rewrite ?lookup_insert_eq|]);
      (split; [intros path ??; by rewrite ?lookup_insert_ne by done|]);
      intros path Hp; rewrite ?lookup_insert_is_Some'; tauto.
Qed.

Lemma load_journal_data_disk filename d :
  (exec (load_journal_data json_loads filename) d).2 = d.
Proof.
  destruct (files d !! filename) as [text|] eqn:Hf;
    [|by rewrite load_missing_primary].
  destruct (json_loads text) as [j|] eqn:Hp.
  - by rewrite (load_parsed_primary _ _ _ _ _ Hf Hp).
  - by rewrite (load_malformed_primary _ _ _ _ Hf Hp).
Qed.

Lemma backfill_present key kvs :
  is_Some (dict_get key kvs) → backfill key kvs = kvs.
Proof.
  intros H. unfold backfill. apply dict_mem_spec in H. by rewrite H.
Qed.

(** X17. What [save_journal_data] writes, [load_journal_data] reads back.
    After a save to a file that can be written, a load of the same file
    goes by what the JSON reader makes of the text just written: an object
    comes back with the three keys [trades], [manual_trades] and
    [reflections] filled in where they were missing, and unchanged when it
    has all three, as the document of the application does; anything else
    (a list, a number, a string) was saved with [True] and makes the load
    raise [ValueError]. *)
Theorem saved_journal_loads_back filename data d j :
  filename ∉ write_denied d →
  json_loads (json_dumps 4 true data) = Some j →
  let saved := exec (save_journal_data json_dumps filename data) d in
  let r := exec (load_journal_data json_loads filename) saved.2 in
  saved.1 = Return true
  ∧ match j with
    | JDict kvs =>
        ∃ kvs',
          r.1 = Return (Some (JDict kvs'))
          ∧ (∀ key,
               dict_get key kvs'
               = if bool_decide (key ∈ required_keys)
                 then Some (default (empty_default key) (dict_get key kvs))
                 else dict_get key kvs)
          ∧ (Forall (fun key => is_Some (dict_get key kvs)) required_keys →
             kvs' = kvs)
    | _ => r.1 = Raise (ValueError "Invalid journal file format")
    end.
Proof.
  intros Hw Hp saved r. subst saved r.
  destruct (save_journal_data_disk filename data d) as (_ & Hfile & _).
  specialize (Hfile Hw).
  split.
  - unfold save_journal_data, io_try, copy2, path_exists, read_file,
      write_file. simpl.
    destruct (files d !! filename) as [old|] eqn:Hf; simpl; rewrite ?Hf; simpl.
    + destruct (decide (filename ++ ".backup" ∈ write_denied d)); simpl;
        by rewrite decide_False by done.
    + by rewrite decide_False by done.
  - rewrite (load_parsed_primary _ _ _ _ _ Hfile Hp).
    destruct j as [| | | | | |kvs]; try done. cbn [fst].
    eexists. split; [done|]. split.
    + intros key. simpl. apply dict_get_backfill_all.
    + unfold required_keys. rewrite !Forall_cons. intros (H1 & H2 & H3 & _).
      simpl. rewrite (backfill_present "trades") by done.
      rewrite (backfill_present "manual_trades") by done.
      by rewrite (backfill_present "reflections") by done.
Qed.

(** X18. The journal functions keep to their files. [load_journal_data]
    leaves every file as it is, whatever it returns or raises.
    [save_journal_data] can change two files only, the target and its
    [.backup]; it removes no file and leaves every other file with its
    text. *)
Theorem journal_functions_keep_to_their_files filename data d :
  (exec (load_journal_data json_loads filename) d).2 = d
  ∧ let d' := (exec (save_journal_data json_dumps filename data) d).2 in
    (∀ path, path ≠ filename → path ≠ filename ++ ".backup" →
       files d' !! path = files d !! path)
    ∧ (∀ path, is_Some (files d !! path) → is_Some (files d' !! path))
    ∧ write_denied d' = write_denied d.
Proof.
  split; [apply load_journal_data_disk|].
  destruct (save_journal_data_disk filename data d) as (H1 & _ & H3 & H4).
  done.
Qed.

End JournalRoundTrip.

Lemma saved_journal_loads_back_witness :
  let d := disk_of [] in
  let saved :=
    exec (save_journal_data sample_dumps "trade-log-20240101.json" (JDict []))
      d in
  let r :=
    exec (load_journal_data sample_loads "trade-log-20240101.json") saved.2 in
  saved.1 = Return true
  ∧ ∃ kvs',
      r.1 = Return (Some (JDict kvs'))
      ∧ (∀ key,
           dict_get key kvs'
           = if bool_decide (key ∈ required_keys)
             then Some (default (empty_default key) (dict_get key []))
             else dict_get key [])
      ∧ (Forall (fun key => is_Some (dict_get key [])) required_keys →
         kvs' = []).
Proof.
  apply (saved_journal_loads_back sample_loads sample_dumps
           "trade-log-20240101.json" (JDict []) (disk_of []) (JDict [])).
  - apply not_elem_of_empty.
  - reflexivity.
Defined.

(** ** The statistics file: writing and reading back *)

Section SavedStats.

Variable categories_in_order : counters → list (string * gmap string json).
Variable counts_in_order : string → gmap string json → list (string * json).
Variable json_dumps : nat → bool → json → string.
Variable json_loads : string → option json.
Variable dict_of_pairs : list json → outcome (gmap string json).

(** X19. [save_emotional_stats] never raises and touches no file but
    "emotional_stats.json". The file is opened for writing before the
    counters are read: on a session without counters the call returns
    [False] and leaves the file empty, so the statistics saved before are
    gone, and the next [load_emotional_stats] returns [False]. When the
    file cannot be opened nothing changes. *)
Theorem save_emotional_stats_opens_first s d :
  let saved := exec (save_emotional_stats categories_in_order counts_in_order
                       json_dumps s) d in
  (∃ ok : bool, saved.1 = Return ok)
  ∧ (∀ path, path ≠ "emotional_stats.json" →
       files saved.2 !! path = files d !! path)
  ∧ ("emotional_stats.json" ∈ write_denied d → saved = (Return false, d))
  ∧ ("emotional_stats.json" ∉ write_denied d →
     emotional_usage_stats s = None →
       saved.1 = Return false
       ∧ files saved.2 !! "emotional_stats.json" = Some ""
       ∧ (json_loads "" = None →
          ∀ s2, run (load_emotional_stats json_loads dict_of_pairs saved.2) s2
                = (Val false, s2))).
Proof.
  intros saved. subst saved.
  unfold save_emotional_stats, io_try, open_w, write_file. simpl.
  destruct (decide ("emotional_stats.json" ∈ write_denied d)) as [Hw|Hw];
    simpl.
  - split; [eauto|]. split; [done|]. split; [done|]. done.
  - destruct (emotional_usage_stats s) as [stats|]; simpl.
    + rewrite decide_False by done. simpl.
      split; [eauto|]. split; [|split; [done|done]].
      intros path Hp. by rewrite !lookup_insert_ne.
    + split; [eauto|]. split; [|split; [done|]].
      * intros path Hp. by rewrite lookup_insert_ne.
      * intros _ _. split; [done|]. split; [by rewrite lookup_insert_eq|].
        intros Hempty s2. unfold load_emotional_stats, try_except. simpl.
        rewrite lookup_insert_eq. simpl. by rewrite Hempty.
Qed.

(** Each iteration lists every pair of the dictionary once. *)
Hypothesis categories_in_order_items :
  ∀ stats, categories_in_order stats ≡ₚ map_to_list stats.
Hypothesis counts_in_order_items :
  ∀ category m, counts_in_order category m ≡ₚ map_to_list m.

Lemma dict_to_map_counts category (c : gmap string json) :
  dict_to_map (counts_in_order category c) = c.
Proof.
  unfold dict_to_map.
  rewrite (list_to_map_proper _ (map_to_list c)).
  - apply list_to_map_to_list.
  - rewrite counts_in_order_items. apply NoDup_fst_map_to_list.
  - apply counts_in_order_items.
Qed.

Lemma saved_keys (stats : counters) :
  ((fun kv : string * gmap string json =>
      (kv.1, JDict (counts_in_order kv.1 kv.2)))
     <$> categories_in_order stats).*1
  = (categories_in_order stats).*1.
Proof. rewrite <- list_fmap_compose. by apply list_fmap_ext. Qed.

Lemma saved_keys_NoDup (stats : counters) :
  NoDup ((fun kv : string * gmap string json =>
            (kv.1, JDict (counts_in_order kv.1 kv.2)))
           <$> categories_in_order stats).*1.
Proof.
  rewrite saved_keys, categories_in_order_items.
  apply NoDup_fst_map_to_list.
Qed.

Lemma dict_get_saved (stats : counters) category :
  dict_get category
    ((fun kv : string * gmap string json =>
        (kv.1, JDict (counts_in_order kv.1 kv.2)))
       <$> categories_in_order stats)
  = (fun c => JDict (counts_in_order category c)) <$> stats !! category.
Proof.
  rewrite <- lookup_dict_to_map. unfold dict_to_map.
  rewrite (list_to_map_proper _
             (map_to_list
                (map_imap (fun k c => Some (JDict (counts_in_order k c)))
                   stats))).
  - rewrite list_to_map_to_list, map_lookup_imap.
    by destruct (stats !! category).
  - apply saved_keys_NoDup.
  - rewrite categories_in_order_items.
    apply NoDup_Permutation.
    + apply (NoDup_fmap_1 fst). rewrite <- list_fmap_compose.
      apply (NoDup_fst_map_to_list stats).
    + apply NoDup_map_to_list.
    + intros [k v]. rewrite elem_of_map_to_list, map_lookup_imap,
        list_elem_of_fmap.
      split.
      * intros ([k' c] & [= -> ->] & Hin%elem_of_map_to_list).
        by rewrite Hin.
      * destruct (stats !! k) as [c|] eqn:Hk; [|done].
        intros [= <-]. exists (k, c). split; [done|].
        by apply elem_of_map_to_list.
Qed.

(** X20. The counters survive a save and the start of the next run. After
    [save_emotional_stats] on a session with counters and a file that can
    be written, the two calls at the top of [app.py],
    [initialize_usage_stats] and [load_emotional_stats], give every saved
    category exactly the saved counts, in a new session as in one whose
    counters have moved on; a category that was not saved keeps what the
    session has. On the session that was saved they change nothing. *)
Theorem saved_counts_come_back s stats d :
  emotional_usage_stats s = Some stats →
  "emotional_stats.json" ∉ write_denied d →
  json_loads (json_dumps 2 false
                (stats_to_save categories_in_order counts_in_order stats))
    = Some (stats_to_save categories_in_order counts_in_order stats) →
  let saved := exec (save_emotional_stats categories_in_order counts_in_order
                       json_dumps s) d in
  let start :=
    _ ← initialize_usage_stats;
    load_emotional_stats json_loads dict_of_pairs saved.2 in
  saved.1 = Return true
  ∧ (∀ s2, ∃ stats2,
       run start s2 = (Val true, set_usage_stats (Some stats2) s2)
       ∧ (∀ category c,
            stats !! category = Some c → stats2 !! category = Some c)
       ∧ (∀ category,
            stats !! category = None →
            stats2 !! category
            = default empty_counters (emotional_usage_stats s2) !! category))
  ∧ run start s = (Val true, s).
Proof.
  intros Hs Hw Hp saved start.
  assert (saved = (Return true,
                   set_files <["emotional_stats.json" :=
                                 json_dumps 2 false
                                   (stats_to_save categories_in_order
                                      counts_in_order stats)]>
                     (set_files <["emotional_stats.json" := ""]> d)))
    as Hsaved.
  { subst saved.
    unfold save_emotional_stats, io_try, open_w, write_file. simpl.
    rewrite decide_False by done. simpl. rewrite Hs. simpl.
    by rewrite decide_False by done. }
  assert (∀ s2 stats0,
    emotional_usage_stats s2 = Some stats0 →
    ∃ stats2,
      run (load_emotional_stats json_loads dict_of_pairs saved.2) s2
        = (Val true, set_usage_stats (Some stats2) s2)
      ∧ ∀ category,
          stats2 !! category
          = match stats !! category with
            | Some c => Some c
            | None => stats0 !! category
            end) as Hload.
  { intros s2 stats0 Hs2. rewrite Hsaved.
    unfold load_emotional_stats, try_except. simpl.
    rewrite lookup_insert_eq. simpl. rewrite Hp. simpl.
    rewrite (store_categories_objects _ _ _ stats0); [|done|].
    - simpl. eexists. split; [reflexivity|].
      intros category.
      rewrite lookup_stored_categories by apply saved_keys_NoDup.
      rewrite dict_get_saved.
      destruct (stats !! category) as [c|]; [|done]. simpl.
      by rewrite dict_to_map_counts.
    - apply Forall_fmap, Forall_forall. by intros [??] _. }
  split; [by rewrite Hsaved|]. split.
  - intros s2. subst start.
    destruct (emotional_usage_stats s2) as [stats0|] eqn:Hs2.
    + destruct (Hload s2 stats0 Hs2) as (stats2 & Hrun & Hstats2).
      exists stats2. split.
      * erewrite run_bind_val; [exact Hrun|]. by eapply run_initialize.
      * split.
        -- intros category c Hc. by rewrite Hstats2, Hc.
        -- intros category Hc. by rewrite Hstats2, Hc.
    + destruct (Hload (set_usage_stats (Some empty_counters) s2)
                  empty_counters eq_refl) as (stats2 & Hrun & Hstats2).
      exists stats2. split.
      * erewrite run_bind_val;
          [|unfold initialize_usage_stats, modify_session; simpl;
            by rewrite Hs2].
        rewrite Hrun. by rewrite set_usage_stats_twice.
      * split.
        -- intros category c Hc. by rewrite Hstats2, Hc.
        -- intros category Hc. by rewrite Hstats2, Hc.
  - subst start.
    destruct (Hload s stats Hs) as (stats2 & Hrun & Hstats2).
    erewrite run_bind_val; [|by eapply run_initialize].
    rewrite Hrun. f_equal.
    assert (stats2 = stats) as ->.
    { apply map_eq. intros category. rewrite Hstats2.
      by destruct (stats !! category). }
    rewrite <- Hs. apply set_usage_stats_same.
Qed.

End SavedStats.

Lemma saved_counts_come_back_witness :
  let s := sample_session in
  let d := disk_of [] in
  let saved :=
    exec (save_emotional_stats sample_categories_in_order
            sample_counts_in_order sample_stats_dumps s) d in
  let start :=
    _ ← initialize_usage_stats;
    load_emotional_stats sample_saved_loads sample_dict_of_pairs saved.2 in
  saved.1 = Return true
  ∧ (∀ s2, ∃ stats2,
       run start s2 = (Val true, set_usage_stats (Some stats2) s2)
       ∧ (∀ category c,
            sample_counters !! category = Some c →
            stats2 !! category = Some c)
       ∧ (∀ category,
            sample_counters !! category = None →
            stats2 !! category
            = default empty_counters (emotional_usage_stats s2) !! category))
  ∧ run start s = (Val true, s).
Proof.
  apply (saved_counts_come_back sample_categories_in_order
           sample_counts_in_order sample_stats_dumps
           sample_saved_loads sample_dict_of_pairs
           (fun stats => reflexivity (map_to_list stats))
           (fun category m => reflexivity (map_to_list m))
           sample_session sample_counters (disk_of [])).
  - reflexivity.
  - apply not_elem_of_empty.
  - reflexivity.
Defined.
